(** * wakatime-sync-go: the reconciliation engine and its local store

    A shallow embedding of [internal/sync/syncer.go] (package [sync], the
    engine) and of the [database] package it drives, together with the
    response types of [internal/wakatime/client.go].

    Modelling conventions.
    - [time.Time] is a number of seconds since the epoch ([Time]); the
      layout ["2006-01-02"] keeps the calendar day only ([Format]), and
      [AddDate(0,0,k)] moves by [k] days of 86400 seconds (time zones and
      daylight saving are outside the model).
    - [float64] seconds are integers ([Seconds]): the engine copies and
      compares them, and [==] and the order are the exact ones; NaN is
      outside the model.  The engine adds no two of them.  The one sum is
      SQLite's [SUM] in [GetAggregatedStats], a floating-point
      accumulation that is neither exact nor independent of the order of
      its rows: over a single row it is the value of the row, over several
      rows it is what the environment says ([sumOf]), and no law is
      assumed of it.
    - A table is the list of its rows in rowid order.  The surrogate [id]
      and the [created_at] / [synced_at] stamps, which the engine never
      reads, are left out of the rows.
    - Every statement sent to SQLite may fail: a fault oracle, which sees
      the history of the run, decides for each statement.  Every upstream
      call, statement, log line and clock reading is appended to a trace
      (newest first), which is instrumentation and not part of the program.
    - The order in which Go ranges over a map is not specified: the engine
      takes it from the environment ([rangeOrder]).
    - The client is given by what the service answers to each request
      ([Upstream]); [doRequest], the HTTP transport and the JSON decoding
      are not modelled further.  Go's [int] is an unbounded integer.

    After the engine come the read side of the store (the queries behind
    the API, with the yearly activity and its sort), the handlers
    [getDailyStats] and the formatting helpers of package [api],
    [SyncYesterday] and [SyncProjects], and [Load] of package [config].
    - A query of the read side may fail, and a [SELECT] without [ORDER BY]
      or a [range] over a map comes in an order the program does not fix:
      a [Reader] gives both.  The order among the ties of an [ORDER BY]
      is the one of a stable sort; no statement depends on it.
    - A stored [day] is scanned as the text the driver yields for it, the
      date as it was written or a time stamp ([dayText] of the [Reader]);
      where the store parses that text and drops the error, a text that
      does not parse gives the zero time.
    - Functions of Go's library that the repository calls but does not
      contain ([time.Date], [time.Parse] on the text of a request or of a
      scanned day, [yaml.Unmarshal], [os.Getenv]) are variables of the
      sections that use them. *)

From Stdlib Require Import ZArith String DecimalString.
From stdpp Require Import base gmap strings list sorting.
From Equations Require Import Equations.

Open Scope Z_scope.

(** ** Time *)

Definition Time := Z.
Definition Date := Z.
Definition Seconds := Z.

Definition secondsPerDay : Z := 86400.

(** [t.Format("2006-01-02")]: the calendar day of [t]. *)
Definition Format (t : Time) : Date := t `div` secondsPerDay.

(** [time.Parse("2006-01-02", s)]: midnight of that day. *)
Definition Parse (d : Date) : Time := d * secondsPerDay.

(** [t.AddDate(0, 0, days)]. *)
Definition AddDate (t : Time) (days : Z) : Time := t + days * secondsPerDay.

(** [t.After(u)]. *)
Definition After (t u : Time) : Prop := u < t.

#[global] Instance After_dec t u : Decision (After t u).
Proof. unfold After. apply _. Defined.

(** ** package wakatime: response types (the fields the engine reads) *)

Module wakatime.

(** [Dependencies] is carried as the text stored in the [dependencies]
    column. *)
Record DurationData := {
  dd_Project : string;
  dd_Time : Seconds;
  dd_Duration : Seconds;
  dd_Branch : string;
  dd_Entity : string;
  dd_Language : string;
  dd_Dependencies : string;
  dd_Type : string;
}.

Record DurationResponse := { dr_Data : list DurationData }.

Record HeartbeatData := {
  hd_Entity : string;
  hd_Type : string;
  hd_Category : string;
  hd_Time : Seconds;
  hd_Project : string;
  hd_Branch : string;
  hd_Language : string;
  hd_MachineNameID : string;
  hd_Lines : Z;
  hd_LineNo : Z;
  hd_CursorPos : Z;
  hd_IsWrite : bool;
}.

Record HeartbeatResponse := { hr_Data : list HeartbeatData }.

(** [SummaryItem] and [MachineItem]: both are read through [Name] and
    [TotalSeconds] only. *)
Record SummaryItem := { si_Name : string; si_TotalSeconds : Seconds }.

Record SummaryDay := {
  sd_GrandTotal : Seconds;          (* GrandTotal.TotalSeconds *)
  sd_Categories : list SummaryItem;
  sd_Projects : list SummaryItem;
  sd_Languages : list SummaryItem;
  sd_Editors : list SummaryItem;
  sd_OperatingSystems : list SummaryItem;
  sd_Dependencies : list SummaryItem;
  sd_Machines : list SummaryItem;
}.

Record SummaryResponse := { sr_Data : list SummaryDay }.

(** The requests [doRequest] sends, by endpoint and parameters. *)
Inductive Call :=
| CallSummaries (start end_ : Date)
| CallDurations (date : Date)
| CallDurationsWithProject (date : Date) (project : string)
| CallHeartbeats (date : Date).

End wakatime.
Export wakatime.

(** ** package database: rows *)

Record Duration := {
  d_Day : Time;
  d_Project : string;
  d_StartTime : Seconds;
  d_Duration : Seconds;
  d_Dependencies : string;
}.

Record ProjectDuration := {
  pd_Day : Time;
  pd_Project : string;
  pd_Branch : string;
  pd_Entity : string;
  pd_Language : string;
  pd_Type : string;
  pd_StartTime : Seconds;
  pd_Duration : Seconds;
  pd_Dependencies : string;
}.

Record HeartBeat := {
  hb_Day : Time;
  hb_Entity : string;
  hb_Type : string;
  hb_Category : string;
  hb_Time : Seconds;
  hb_Project : string;
  hb_Branch : string;
  hb_Language : string;
  hb_IsWrite : bool;
  hb_MachineID : string;
  hb_Lines : Z;
  hb_LineNo : Z;
  hb_CursorPos : Z;
}.

Record DayStats := {
  ds_Day : Time;
  ds_Type : string;
  ds_Name : string;
  ds_TotalSeconds : Seconds;
}.

(** A row of [sync_log], keyed by its day: the total and the status.
    [synced_at], the time of the call, which every [RecordSync] writes
    anew, is not held. *)
Record SyncLog := { sl_TotalSeconds : Seconds; sl_Status : string }.

(** The result rows of [GetAggregatedStats]. *)
Record AggregatedStat := { as_Name : string; as_TotalSeconds : Seconds }.

(** The tables.  [day_summaries] and [sync_log] are UNIQUE by day and are
    maps from the day; the others are lists of rows whose [Day] is the
    midnight [Parse] reads back from the stored date. *)
Record DB := {
  durations : list Duration;
  project_durations : list ProjectDuration;
  heartbeats : list HeartBeat;
  day_summaries : gmap Z Seconds;
  day_stats : list DayStats;
  sync_log : gmap Z SyncLog;
}.

Definition set_durations (l : list Duration) (d : DB) : DB :=
  {| durations := l; project_durations := project_durations d;
     heartbeats := heartbeats d; day_summaries := day_summaries d;
     day_stats := day_stats d; sync_log := sync_log d |}.

Definition set_project_durations (l : list ProjectDuration) (d : DB) : DB :=
  {| durations := durations d; project_durations := l;
     heartbeats := heartbeats d; day_summaries := day_summaries d;
     day_stats := day_stats d; sync_log := sync_log d |}.

Definition set_heartbeats (l : list HeartBeat) (d : DB) : DB :=
  {| durations := durations d; project_durations := project_durations d;
     heartbeats := l; day_summaries := day_summaries d;
     day_stats := day_stats d; sync_log := sync_log d |}.

Definition set_day_summaries (m : gmap Z Seconds) (d : DB) : DB :=
  {| durations := durations d; project_durations := project_durations d;
     heartbeats := heartbeats d; day_summaries := m;
     day_stats := day_stats d; sync_log := sync_log d |}.

Definition set_day_stats (l : list DayStats) (d : DB) : DB :=
  {| durations := durations d; project_durations := project_durations d;
     heartbeats := heartbeats d; day_summaries := day_summaries d;
     day_stats := l; sync_log := sync_log d |}.

Definition set_sync_log (m : gmap Z SyncLog) (d : DB) : DB :=
  {| durations := durations d; project_durations := project_durations d;
     heartbeats := heartbeats d; day_summaries := day_summaries d;
     day_stats := day_stats d; sync_log := m |}.

(** ** Statements, errors, events *)

Inductive Table := TDurations | TProjectDurations | THeartbeats | TDayStats.

Inductive RowArg :=
| RowDuration (r : Duration)
| RowProjectDuration (r : ProjectDuration)
| RowHeartBeat (r : HeartBeat)
| RowDayStats (r : DayStats).

(** What the store sends to SQLite. *)
Inductive DbOp :=
| ExecDeleteByDay (t : Table) (day : Date)
| ExecUpsertDaySummary (day : Date) (totalSeconds : Seconds)
| ExecRecordSync (day : Date) (totalSeconds : Seconds) (status : string)
| TxBegin (t : Table)
| TxPrepare (t : Table)
| StmtExec (r : RowArg)
| TxCommit (t : Table)
| QueryCountByDay (t : Table) (day : Date)
| QueryDaySummary (day : Date)
| QueryIsDaySynced (day : Date)
| QueryAggregatedStats (start end_ : Date) (statType : string).

(** Go's [error] values: an upstream failure (transport, status, JSON) or
    the failure of a statement. *)
Inductive error :=
| UpstreamError (code : Z)
| StoreError (op : DbOp).

Inductive Level := LevelInfo | LevelError.

Inductive Event :=
| EvHttp (c : Call)
| EvDb (op : DbOp)
| EvLog (lvl : Level) (msg : string)
| EvNow (t : Time).

(** The remote service, by request: a failure (transport, status other
    than 200, malformed JSON) with its code, or the decoded response. *)
Record Upstream := {
  summaries : Date → Date → Z + SummaryResponse;
  durationsOf : Date → Z + DurationResponse;
  durationsWithProject : Date → string → Z + DurationResponse;
  heartbeatsOf : Date → Z + HeartbeatResponse;
}.

(** What a client method returns for an answer of the service. *)
Definition answer {A} (r : Z + A) : error + A :=
  match r with
  | inl code => inl (UpstreamError code)
  | inr resp => inr resp
  end.

Record Env := {
  remote : Upstream;
  (** does the statement fail, after this history? *)
  faults : list Event → DbOp → bool;
  (** the order of a [range] over a map with these keys *)
  rangeOrder : list string → list string;
  (** the reading of [time.Now()], after this history *)
  clock : list Event → Time;
  (** what [SUM(total_seconds)] yields over a group of several rows,
      given in rowid order *)
  sumOf : list DayStats → Seconds;
}.

Record World := { db : DB; trace : list Event }.

(** ** Computations over the world *)

Definition M (A : Type) : Type := World → A * World.

Definition ret {A} (x : A) : M A := λ w, (x, w).

Definition bind {A B} (m : M A) (f : A → M B) : M B :=
  λ w, let (a, w') := m w in f a w'.

Notation "'let*' x ':=' m 'in' k" := (bind m (λ x, k))
  (at level 10, x pattern, m at level 100, k at level 200).

Definition emit (e : Event) : M unit :=
  λ w, (tt, {| db := db w; trace := e :: trace w |}).

Definition get_db : M DB := λ w, (db w, w).

Definition put_db (d : DB) : M unit :=
  λ w, (tt, {| db := d; trace := trace w |}).

Definition modify_db (f : DB → DB) : M unit :=
  λ w, (tt, {| db := f (db w); trace := trace w |}).

Definition slog_Info (msg : string) : M unit := emit (EvLog LevelInfo msg).
Definition slog_Error (msg : string) : M unit := emit (EvLog LevelError msg).

Section Program.

Variable env : Env.

(** *** package wakatime: the client *)

Definition GetSummaries (start end_ : Time) : M (error + SummaryResponse) :=
  let* _ := emit (EvHttp (CallSummaries (Format start) (Format end_))) in
  ret (answer (summaries (remote env) (Format start) (Format end_))).

Definition GetDurations (date : Time) : M (error + DurationResponse) :=
  let* _ := emit (EvHttp (CallDurations (Format date))) in
  ret (answer (durationsOf (remote env) (Format date))).

Definition GetDurationsWithProject (date : Time) (project : string)
  : M (error + DurationResponse) :=
  let* _ := emit (EvHttp (CallDurationsWithProject (Format date) project)) in
  ret (answer (durationsWithProject (remote env) (Format date) project)).

Definition GetHeartbeats (date : Time) : M (error + HeartbeatResponse) :=
  let* _ := emit (EvHttp (CallHeartbeats (Format date))) in
  ret (answer (heartbeatsOf (remote env) (Format date))).

(** [time.Now()]. *)
Definition time_Now : M Time :=
  λ w, let t := clock env (trace w) in
       (t, {| db := db w; trace := EvNow t :: trace w |}).

(** *** package database *)

(** One statement is sent: it is traced, and the oracle says whether it
    failed. *)
Definition attempt (op : DbOp) : M bool :=
  λ w, (faults env (trace w) op,
        {| db := db w; trace := EvDb op :: trace w |}).

(** [_, err := db.Exec(...); return err], and [stmt.Exec] in a
    transaction. *)
Definition exec (op : DbOp) (effect : DB → DB) : M (option error) :=
  let* failed := attempt op in
  if (failed : bool) then ret (Some (StoreError op))
  else let* _ := modify_db effect in ret None.

(** The loop of an [Insert...] over its rows: the first failing row
    returns. *)
Fixpoint stmt_exec_all {R} (arg : R → RowArg) (put : R → DB → DB)
    (rows : list R) : M (option error) :=
  match rows with
  | [] => ret None
  | r :: rows' =>
      let* err := exec (StmtExec (arg r)) (put r) in
      match err with
      | Some e => ret (Some e)
      | None => stmt_exec_all arg put rows'
      end
  end.

(** The body shared by [InsertDurations], [InsertProjectDurations],
    [InsertHeartbeats] and [InsertDayStats]: [db.Begin], the deferred
    [tx.Rollback], [tx.Prepare], the loop, [tx.Commit].  A rollback
    (and a failed commit) restores the tables of [db.Begin]. *)
Definition insert_tx {R} (t : Table) (arg : R → RowArg)
    (put : R → DB → DB) (rows : list R) : M (option error) :=
  let* failed := attempt (TxBegin t) in
  if (failed : bool) then ret (Some (StoreError (TxBegin t))) else
  let* snapshot := get_db in
  let* failed := attempt (TxPrepare t) in
  if (failed : bool) then
    let* _ := put_db snapshot in ret (Some (StoreError (TxPrepare t)))
  else
  let* err := stmt_exec_all arg put rows in
  match err with
  | Some e => let* _ := put_db snapshot in ret (Some e)
  | None =>
      let* failed := attempt (TxCommit t) in
      if (failed : bool) then
        let* _ := put_db snapshot in ret (Some (StoreError (TxCommit t)))
      else ret None
  end.

(** --- Duration operations --- *)

Definition DeleteDurationsByDay (day : Time) : M (option error) :=
  exec (ExecDeleteByDay TDurations (Format day))
    (λ d, set_durations
            (filter (λ r, Format (d_Day r) ≠ Format day) (durations d)) d).

Definition put_duration (r : Duration) (d : DB) : DB :=
  set_durations
    (durations d ++
     [ {| d_Day := Parse (Format (d_Day r)); d_Project := d_Project r;
          d_StartTime := d_StartTime r; d_Duration := d_Duration r;
          d_Dependencies := d_Dependencies r |} ]) d.

Definition InsertDurations (durations : list Duration) : M (option error) :=
  insert_tx TDurations RowDuration put_duration durations.

Definition CountDurationsByDay (day : Time) : M (nat * option error) :=
  let op := QueryCountByDay TDurations (Format day) in
  let* failed := attempt op in
  if (failed : bool) then ret (0%nat, Some (StoreError op))
  else
    let* d := get_db in
    ret (length (filter (λ r, Format (d_Day r) = Format day) (durations d)),
         None).

(** --- Project Duration operations --- *)

Definition DeleteProjectDurationsByDay (day : Time) : M (option error) :=
  exec (ExecDeleteByDay TProjectDurations (Format day))
    (λ d, set_project_durations
            (filter (λ r, Format (pd_Day r) ≠ Format day)
               (project_durations d)) d).

Definition put_project_duration (r : ProjectDuration) (d : DB) : DB :=
  set_project_durations
    (project_durations d ++
     [ {| pd_Day := Parse (Format (pd_Day r)); pd_Project := pd_Project r;
          pd_Branch := pd_Branch r; pd_Entity := pd_Entity r;
          pd_Language := pd_Language r; pd_Type := pd_Type r;
          pd_StartTime := pd_StartTime r; pd_Duration := pd_Duration r;
          pd_Dependencies := pd_Dependencies r |} ]) d.

Definition InsertProjectDurations (durations : list ProjectDuration)
  : M (option error) :=
  insert_tx TProjectDurations RowProjectDuration put_project_duration
    durations.

(** --- Heartbeat operations --- *)

Definition DeleteHeartbeatsByDay (day : Time) : M (option error) :=
  exec (ExecDeleteByDay THeartbeats (Format day))
    (λ d, set_heartbeats
            (filter (λ r, Format (hb_Day r) ≠ Format day) (heartbeats d)) d).

Definition put_heartbeat (h : HeartBeat) (d : DB) : DB :=
  set_heartbeats
    (heartbeats d ++
     [ {| hb_Day := Parse (Format (hb_Day h)); hb_Entity := hb_Entity h;
          hb_Type := hb_Type h; hb_Category := hb_Category h;
          hb_Time := hb_Time h; hb_Project := hb_Project h;
          hb_Branch := hb_Branch h; hb_Language := hb_Language h;
          hb_IsWrite := hb_IsWrite h; hb_MachineID := hb_MachineID h;
          hb_Lines := hb_Lines h; hb_LineNo := hb_LineNo h;
          hb_CursorPos := hb_CursorPos h |} ]) d.

Definition InsertHeartbeats (heartbeats : list HeartBeat)
  : M (option error) :=
  insert_tx THeartbeats RowHeartBeat put_heartbeat heartbeats.

Definition CountHeartbeatsByDay (day : Time) : M (nat * option error) :=
  let op := QueryCountByDay THeartbeats (Format day) in
  let* failed := attempt op in
  if (failed : bool) then ret (0%nat, Some (StoreError op))
  else
    let* d := get_db in
    ret (length (filter (λ r, Format (hb_Day r) = Format day) (heartbeats d)),
         None).

(** --- Day Summary operations --- *)

(** [INSERT ... ON CONFLICT(day) DO UPDATE SET total_seconds = ...]. *)
Definition UpsertDaySummary (day : Time) (totalSeconds : Seconds)
  : M (option error) :=
  exec (ExecUpsertDaySummary (Format day) totalSeconds)
    (λ d, set_day_summaries
            (<[Format day := totalSeconds]> (day_summaries d)) d).

(** The [*DaySummary] is given by its [TotalSeconds]; [sql.ErrNoRows]
    is [(nil, nil)]. *)
Definition GetDaySummary (day : Time) : M (option Seconds * option error) :=
  let op := QueryDaySummary (Format day) in
  let* failed := attempt op in
  if (failed : bool) then ret (None, Some (StoreError op))
  else
    let* d := get_db in
    ret (day_summaries d !! Format day, None).

(** --- Day Stats operations --- *)

Definition DeleteDayStatsByDay (day : Time) : M (option error) :=
  exec (ExecDeleteByDay TDayStats (Format day))
    (λ d, set_day_stats
            (filter (λ r, Format (ds_Day r) ≠ Format day) (day_stats d)) d).

(** [INSERT ... ON CONFLICT(day, type, name) DO UPDATE SET
    total_seconds = excluded.total_seconds]. *)
Fixpoint upsert_day_stat (s : DayStats) (l : list DayStats)
  : list DayStats :=
  match l with
  | [] => [ {| ds_Day := Parse (Format (ds_Day s)); ds_Type := ds_Type s;
               ds_Name := ds_Name s;
               ds_TotalSeconds := ds_TotalSeconds s |} ]
  | r :: l' =>
      if decide (Format (ds_Day r) = Format (ds_Day s)
                 ∧ ds_Type r = ds_Type s ∧ ds_Name r = ds_Name s)
      then {| ds_Day := ds_Day r; ds_Type := ds_Type r; ds_Name := ds_Name r;
              ds_TotalSeconds := ds_TotalSeconds s |} :: l'
      else r :: upsert_day_stat s l'
  end.

Definition put_day_stat (s : DayStats) (d : DB) : DB :=
  set_day_stats (upsert_day_stat s (day_stats d)) d.

Definition InsertDayStats (stats : list DayStats) : M (option error) :=
  insert_tx TDayStats RowDayStats put_day_stat stats.

(** [SELECT name, SUM(total_seconds) AS total FROM day_stats
     WHERE day >= ? AND day <= ? AND type = ?
     GROUP BY name ORDER BY total DESC]. *)
Definition in_range (start end_ : Date) (statType : string)
    (r : DayStats) : Prop :=
  start ≤ Format (ds_Day r) ∧ Format (ds_Day r) ≤ end_
  ∧ ds_Type r = statType.

#[global] Instance in_range_dec start end_ statType r
  : Decision (in_range start end_ statType r).
Proof. unfold in_range. apply _. Defined.

(** [SUM(total_seconds)] over the rows of a group: the value of a single
    row; over several rows a floating-point accumulation, in the order in
    which SQLite visits them, which the environment gives. *)
Definition group_sum (g : list DayStats) : Seconds :=
  match g with
  | [r] => ds_TotalSeconds r
  | _ => sumOf env g
  end.

Definition group_total (rows : list DayStats) (name : string) : Seconds :=
  group_sum (filter (λ r, ds_Name r = name) rows).

Definition total_desc (a b : AggregatedStat) : Prop :=
  as_TotalSeconds b ≤ as_TotalSeconds a.

#[global] Instance total_desc_dec a b : Decision (total_desc a b).
Proof. unfold total_desc. apply _. Defined.

Definition select_aggregated (d : DB) (start end_ : Date)
    (statType : string) : list AggregatedStat :=
  let rows := filter (in_range start end_ statType) (day_stats d) in
  let groups :=
    (λ n, {| as_Name := n; as_TotalSeconds := group_total rows n |})
      <$> remove_dups (ds_Name <$> rows) in
  merge_sort total_desc groups.

Definition GetAggregatedStats (start end_ : Time) (statType : string)
  : M (list AggregatedStat * option error) :=
  let op := QueryAggregatedStats (Format start) (Format end_) statType in
  let* failed := attempt op in
  if (failed : bool) then ret ([], Some (StoreError op))
  else
    let* d := get_db in
    ret (select_aggregated d (Format start) (Format end_) statType, None).

(** --- Sync Log operations --- *)

(** [INSERT INTO sync_log ... ON CONFLICT(day) DO UPDATE SET
    synced_at = ..., total_seconds = ..., status = ...]: the entry of the
    day is written or overwritten. *)
Definition RecordSync (day : Time) (totalSeconds : Seconds)
    (status : string) : M (option error) :=
  exec (ExecRecordSync (Format day) totalSeconds status)
    (λ d, set_sync_log
            (<[Format day := {| sl_TotalSeconds := totalSeconds;
                                sl_Status := status |}]> (sync_log d)) d).

(** [SELECT COUNT( * ) FROM sync_log WHERE day = ? AND status = 'success'],
    then [count > 0]. *)
Definition IsDaySynced (day : Time) : M (bool * option error) :=
  let op := QueryIsDaySynced (Format day) in
  let* failed := attempt op in
  if (failed : bool) then ret (false, Some (StoreError op))
  else
    let* d := get_db in
    ret (match sync_log d !! Format day with
         | Some l => bool_decide (sl_Status l = "success")
         | None => false
         end, None).

(** *** package sync: the engine *)

Definition stats_of (day : Time) (type : string) (items : list SummaryItem)
  : list DayStats :=
  (λ item, {| ds_Day := day; ds_Type := type; ds_Name := si_Name item;
              ds_TotalSeconds := si_TotalSeconds item |}) <$> items.

Definition syncSummary (day : Time) : M (Seconds * option error) :=
  let* r := GetSummaries day day in
  match r with
  | inl err => ret (0, Some err)
  | inr resp =>
    match sr_Data resp with
    | [] =>
        let* _ := slog_Info "no summary data for day" in
        ret (0, None)
    | summary :: _ =>
        let totalSeconds := sd_GrandTotal summary in
        (* Check if we already have this day with same total *)
        let* (existing, err) := GetDaySummary day in
        match err with
        | Some err => ret (0, Some err)
        | None =>
          (* existing != nil && existing.TotalSeconds == totalSeconds *)
          if decide (existing = Some totalSeconds) then
            let* _ := slog_Info "summary already up to date" in
            ret (totalSeconds, None)
          else
            (* Save grand total *)
            let* err := UpsertDaySummary day totalSeconds in
            match err with
            | Some err => ret (0, Some err)
            | None =>
              (* Delete existing stats for this day *)
              let* err := DeleteDayStatsByDay day in
              match err with
              | Some err => ret (0, Some err)
              | None =>
                (* Collect all stats *)
                let stats :=
                  stats_of day "category" (sd_Categories summary)
                  ++ stats_of day "language" (sd_Languages summary)
                  ++ stats_of day "editor" (sd_Editors summary)
                  ++ stats_of day "os" (sd_OperatingSystems summary)
                  ++ stats_of day "project" (sd_Projects summary)
                  ++ stats_of day "dependency" (sd_Dependencies summary)
                  ++ stats_of day "machine" (sd_Machines summary) in
                let* err :=
                  if decide (0 < length stats)%nat
                  then InsertDayStats stats else ret None in
                match err with
                | Some err => ret (0, Some err)
                | None =>
                    let* _ := slog_Info "synced summary" in
                    ret (totalSeconds, None)
                end
              end
            end
        end
    end
  end.

(** [projects := make(map[string]bool)] filled from the response. *)
Definition projects_of (data : list DurationData) : gmap string bool :=
  foldl (λ projects d,
           if decide (dd_Project d ≠ "")
           then <[dd_Project d := true]> projects else projects)
        ∅ data.

(** [for project := range projects { ... }]: a failed fetch is logged
    and skipped. *)
Fixpoint fetch_projects (day : Time) (projects : list string)
    (projectDurations : list ProjectDuration) : M (list ProjectDuration) :=
  match projects with
  | [] => ret projectDurations
  | project :: rest =>
      let* r := GetDurationsWithProject day project in
      match r with
      | inl err =>
          let* _ := slog_Error "failed to get project durations" in
          fetch_projects day rest projectDurations
      | inr projResp =>
          fetch_projects day rest
            (projectDurations ++
             ((λ d, {| pd_Day := day; pd_Project := project;
                      pd_Entity := dd_Entity d;
                      pd_Language := dd_Language d;
                      pd_Branch := dd_Branch d; pd_Type := dd_Type d;
                      pd_StartTime := dd_Time d;
                      pd_Duration := dd_Duration d;
                       pd_Dependencies := dd_Dependencies d |})
                <$> dr_Data projResp))
      end
  end.

Definition syncDurations (day : Time) : M (option error) :=
  let* r := GetDurations day in
  match r with
  | inl err => ret (Some err)
  | inr resp =>
    if decide (length (dr_Data resp) = 0)%nat then
      let* _ := slog_Info "no duration data for day" in
      ret None
    else
      (* Check if we already have the same number of durations *)
      let* (existingCount, err) := CountDurationsByDay day in
      match err with
      | Some err => ret (Some err)
      | None =>
        if decide (length (dr_Data resp) ≤ existingCount)%nat then
          let* _ := slog_Info "durations already up to date" in
          ret None
        else
          (* Delete existing and insert new *)
          let* err := DeleteDurationsByDay day in
          match err with
          | Some err => ret (Some err)
          | None =>
            let durations :=
              (λ d, {| d_Day := day; d_Project := dd_Project d;
                       d_StartTime := dd_Time d;
                       d_Duration := dd_Duration d;
                       d_Dependencies := dd_Dependencies d |})
                <$> dr_Data resp in
            let* err := InsertDurations durations in
            match err with
            | Some err => ret (Some err)
            | None =>
              (* Also sync project-level durations for each project *)
              let projects := projects_of (dr_Data resp) in
              let* projectDurations :=
                fetch_projects day
                  (rangeOrder env (map_to_list projects).*1) [] in
              let* err :=
                if decide (0 < length projectDurations)%nat then
                  let* err := DeleteProjectDurationsByDay day in
                  match err with
                  | Some err => ret (Some err)
                  | None => InsertProjectDurations projectDurations
                  end
                else ret None in
              match err with
              | Some err => ret (Some err)
              | None =>
                  let* _ := slog_Info "synced durations" in
                  ret None
              end
            end
          end
      end
  end.

Definition syncHeartbeats (day : Time) : M (option error) :=
  let* r := GetHeartbeats day in
  match r with
  | inl err => ret (Some err)
  | inr resp =>
    if decide (length (hr_Data resp) = 0)%nat then
      let* _ := slog_Info "no heartbeat data for day" in
      ret None
    else
      (* Check if we already have the same number of heartbeats *)
      let* (existingCount, err) := CountHeartbeatsByDay day in
      match err with
      | Some err => ret (Some err)
      | None =>
        if decide (length (hr_Data resp) ≤ existingCount)%nat then
          let* _ := slog_Info "heartbeats already up to date" in
          ret None
        else
          (* Delete existing and insert new *)
          let* err := DeleteHeartbeatsByDay day in
          match err with
          | Some err => ret (Some err)
          | None =>
            let heartbeats :=
              (λ h, {| hb_Day := day; hb_Entity := hd_Entity h;
                       hb_Type := hd_Type h; hb_Category := hd_Category h;
                       hb_Time := hd_Time h; hb_Project := hd_Project h;
                       hb_Branch := hd_Branch h;
                       hb_Language := hd_Language h;
                       hb_IsWrite := hd_IsWrite h;
                       hb_MachineID := hd_MachineNameID h;
                       hb_Lines := hd_Lines h; hb_LineNo := hd_LineNo h;
                       hb_CursorPos := hd_CursorPos h |})
                <$> hr_Data resp in
            let* err := InsertHeartbeats heartbeats in
            match err with
            | Some err => ret (Some err)
            | None =>
                let* _ := slog_Info "synced heartbeats" in
                ret None
            end
          end
      end
  end.

Definition SyncDay (day : Time) : M (option error) :=
  let* _ := slog_Info "syncing data" in
  (* Sync summaries first (this gives us the grand total and breakdowns) *)
  let* (totalSeconds, err) := syncSummary day in
  match err with
  | Some err =>
      let* _ := slog_Error "failed to sync summary" in
      let* _ := RecordSync day 0 "failed" in
      ret (Some err)
  | None =>
      (* Sync durations *)
      let* err := syncDurations day in
      let* _ := match err with
                | Some _ => slog_Error "failed to sync durations"
                | None => ret tt
                end in
      (* Sync heartbeats *)
      let* err := syncHeartbeats day in
      let* _ := match err with
                | Some _ => slog_Error "failed to sync heartbeats"
                | None => ret tt
                end in
      (* Record successful sync *)
      let* _ := RecordSync day totalSeconds "success" in
      let* _ := slog_Info "sync completed" in
      ret None
  end.

(** [for d := start; !d.After(end); d = d.AddDate(0, 0, 1) { ... }],
    the loop of [SyncDays] and [SyncDateRange]. *)
Equations? sync_loop (end_ d : Time) : M unit
  by wf (Z.to_nat (end_ - d + 1)) lt :=
  sync_loop end_ d with decide (After d end_) := {
    | left _ => ret tt
    | right _ =>
        let* err := SyncDay d in
        let* _ := match err with
                  | Some _ => slog_Error "failed to sync day"
                  | None => ret tt
                  end in
        sync_loop end_ (AddDate d 1) }.
Proof. unfold After, AddDate, secondsPerDay in *. lia. Qed.

Definition SyncDays (days : Z) : M (option error) :=
  let* now := time_Now in
  let end_ := AddDate now (-1) in
  let* now := time_Now in
  let start := AddDate now (- days) in
  let* _ := sync_loop end_ start in
  ret None.

Definition SyncDateRange (start end_ : Time) : M (option error) :=
  let* _ := sync_loop end_ start in
  ret None.

End Program.

(** ** Notions used by the statements *)

(** No statement ever fails. *)
Definition store_ok (env : Env) : Prop := ∀ h op, faults env h op = false.

(** The write to [sync_log] does not fail. *)
Definition audit_ok (env : Env) : Prop :=
  ∀ h day totalSeconds status,
    faults env h (ExecRecordSync day totalSeconds status) = false.

(** Some statement of the history failed. *)
Fixpoint any_fault (env : Env) (t : list Event) : bool :=
  match t with
  | [] => false
  | EvDb op :: h => faults env h op || any_fault env h
  | _ :: h => any_fault env h
  end.

(** The events that read: upstream calls, queries, log lines, the clock.
    Everything else ([DELETE], upserts, transactions and their rows) would
    write. *)
Definition reads_only (e : Event) : bool :=
  match e with
  | EvDb (QueryCountByDay _ _) | EvDb (QueryDaySummary _)
  | EvDb (QueryIsDaySynced _) | EvDb (QueryAggregatedStats _ _ _) => true
  | EvDb _ => false
  | _ => true
  end.

(** The sum of whole numbers of seconds, which is exact, and the exact
    total of the rows of a name. *)
Definition sum_seconds (l : list Seconds) : Seconds := foldr Z.add 0 l.

Definition exact_total (rows : list DayStats) (name : string) : Seconds :=
  sum_seconds (ds_TotalSeconds <$> filter (λ r, ds_Name r = name) rows).

(** SQLite's accumulations are exact, as they are on whole numbers of
    seconds whose sums stay below 2^53. *)
Definition exact_sums (env : Env) : Prop :=
  ∀ g, sumOf env g = sum_seconds (ds_TotalSeconds <$> g).

(** The projects of the per-project fetches of a history, oldest first. *)
Definition fetched_projects (t : list Event) : list string :=
  omap (λ e, match e with
             | EvHttp (CallDurationsWithProject _ project) => Some project
             | _ => None
             end) (reverse t).

(** The rows of a day. *)
Definition durations_on (day : Time) (d : DB) : list Duration :=
  filter (λ r, Format (d_Day r) = Format day) (durations d).

Definition heartbeats_on (day : Time) (d : DB) : list HeartBeat :=
  filter (λ r, Format (hb_Day r) = Format day) (heartbeats d).

(** The body of the range loop for one day: [SyncDay], and the log line
    when it fails. *)
Definition sync_one (env : Env) (w : World) (d : Time) : World :=
  let (err, w') := SyncDay env d w in
  match err with
  | Some _ => (slog_Error "failed to sync day" w').2
  | None => w'
  end.

(** The days [start], [start] + 1 day, ... that are not after [end_]. *)
Definition days_of_range (start end_ : Time) : list Time :=
  if decide (After start end_) then []
  else (λ i, AddDate start i)
         <$> seqZ 0 ((end_ - start) `div` secondsPerDay + 1).

(** A computation leaves a part of the store as it was. *)
Definition keeps {X A} (f : DB → X) (m : M A) : Prop :=
  ∀ w, f (db (m w).2) = f (db w).

(** The rows of a day, for the other two tables. *)
Definition project_durations_on (day : Time) (d : DB) : list ProjectDuration :=
  filter (λ r, Format (pd_Day r) = Format day) (project_durations d).

Definition day_stats_on (day : Time) (d : DB) : list DayStats :=
  filter (λ r, Format (ds_Day r) = Format day) (day_stats d).

(** What the summary step returns when no statement fails. *)
Definition summary_outcome (up : Upstream) (day : Time)
  : Seconds * option error :=
  match summaries up (Format day) (Format day) with
  | inl code => (0, Some (UpstreamError code))
  | inr resp =>
      match sr_Data resp with
      | [] => (0, None)
      | summary :: _ => (sd_GrandTotal summary, None)
      end
  end.

(** The entry [SyncDay] writes to [sync_log] for that outcome. *)
Definition audit_entry (out : Seconds * option error) : SyncLog :=
  match out with
  | (_, Some _) => {| sl_TotalSeconds := 0; sl_Status := "failed" |}
  | (totalSeconds, None) =>
      {| sl_TotalSeconds := totalSeconds; sl_Status := "success" |}
  end.

(** The store holds what the staleness checks look for. *)
Definition summary_settled (up : Upstream) (day : Time) (d : DB) : Prop :=
  match summaries up (Format day) (Format day) with
  | inl _ => True
  | inr resp =>
      match sr_Data resp with
      | [] => True
      | summary :: _ =>
          day_summaries d !! Format day = Some (sd_GrandTotal summary)
      end
  end.

Definition durations_settled (up : Upstream) (day : Time) (d : DB) : Prop :=
  match durationsOf up (Format day) with
  | inl _ => True
  | inr resp => (length (dr_Data resp) ≤ length (durations_on day d))%nat
  end.

Definition heartbeats_settled (up : Upstream) (day : Time) (d : DB) : Prop :=
  match heartbeatsOf up (Format day) with
  | inl _ => True
  | inr resp => (length (hr_Data resp) ≤ length (heartbeats_on day d))%nat
  end.

(** A computation issues no per-project fetch. *)
Definition silent {A} (m : M A) : Prop :=
  ∀ w, fetched_projects (trace (m w).2) = fetched_projects (trace w).

(** ** Sample runs *)

Definition emptyDB : DB :=
  {| durations := []; project_durations := []; heartbeats := [];
     day_summaries := ∅; day_stats := []; sync_log := ∅ |}.

Definition emptyWorld : World := {| db := emptyDB; trace := [] |}.

(** 2024-10-04 10:00:00 UTC, day 20000 of the epoch. *)
Definition sampleDay : Time := 1728036000.

Definition item (name : string) (totalSeconds : Seconds) : SummaryItem :=
  {| si_Name := name; si_TotalSeconds := totalSeconds |}.

Definition sampleSummary : SummaryDay :=
  {| sd_GrandTotal := 5000;
     sd_Categories := [item "Coding" 5000];
     sd_Projects := [item "waka" 3000; item "blog" 2000];
     sd_Languages := [item "Go" 3000; item "Rocq" 2000];
     sd_Editors := []; sd_OperatingSystems := [];
     sd_Dependencies := []; sd_Machines := [] |}.

Definition durationData (project : string) (time : Seconds) : DurationData :=
  {| dd_Project := project; dd_Time := time; dd_Duration := 60;
     dd_Branch := "main"; dd_Entity := "main.go"; dd_Language := "Go";
     dd_Dependencies := ""; dd_Type := "file" |}.

Definition heartbeatData (entity : string) (time : Seconds) : HeartbeatData :=
  {| hd_Entity := entity; hd_Type := "file"; hd_Category := "coding";
     hd_Time := time; hd_Project := "waka"; hd_Branch := "main";
     hd_Language := "Go"; hd_MachineNameID := "m1"; hd_Lines := 10;
     hd_LineNo := 1; hd_CursorPos := 0; hd_IsWrite := true |}.

Definition sampleRemote : Upstream :=
  {| summaries := λ _ _, inr {| sr_Data := [sampleSummary] |};
     durationsOf := λ _,
       inr {| dr_Data := [durationData "waka" 100; durationData "blog" 200;
                          durationData "" 300; durationData "waka" 400] |};
     durationsWithProject := λ _ project,
       inr {| dr_Data := [durationData project 100] |};
     heartbeatsOf := λ _, inr {| hr_Data := [heartbeatData "main.go" 100] |} |}.

Definition noFaults : list Event → DbOp → bool := λ _ _, false.

(** An environment with this service, fault oracle and range order.  Its
    clock stands still, and its sums are the exact ones, as SQLite's are
    on the whole numbers of seconds of the samples. *)
Definition mkEnv (up : Upstream) (f : list Event → DbOp → bool)
    (order : list string → list string) : Env :=
  {| remote := up; faults := f; rangeOrder := order;
     clock := λ _, AddDate sampleDay 1;
     sumOf := λ g, sum_seconds (ds_TotalSeconds <$> g) |}.

Definition sampleEnv : Env := mkEnv sampleRemote noFaults (λ l, l).

(** The same service and store, with the map ranged over backwards. *)
Definition reversedEnv : Env := mkEnv sampleRemote noFaults reverse.

(** The store after a first sync of the day. *)
Definition syncedWorld : World := (SyncDay sampleEnv sampleDay emptyWorld).2.

(** One duration of the day and one of the day before are stored, fewer
    than the four the service has. *)
Definition storedDuration (day : Time) : Duration :=
  {| d_Day := Parse (Format day); d_Project := "waka"; d_StartTime := 50;
     d_Duration := 30; d_Dependencies := "" |}.

Definition staleWorld : World :=
  {| db := set_durations
             [storedDuration (AddDate sampleDay (-1)); storedDuration sampleDay]
             emptyDB;
     trace := [] |}.

(** The rows of one table fail: the duration that starts at 200, the stat
    of "Rocq", every project duration, every heartbeat. *)
Definition failRowsOf (t : Table) : list Event → DbOp → bool :=
  λ _ op,
    match op, t with
    | StmtExec (RowDuration r), TDurations => bool_decide (d_StartTime r = 200)
    | StmtExec (RowProjectDuration _), TProjectDurations => true
    | StmtExec (RowHeartBeat _), THeartbeats => true
    | StmtExec (RowDayStats r), TDayStats => bool_decide (ds_Name r = "Rocq")
    | _, _ => false
    end.

(** The count of the stored durations fails. *)
Definition failDurationCount : list Event → DbOp → bool :=
  λ _ op, match op with QueryCountByDay TDurations _ => true | _ => false end.

(** The upsert of the day summary fails. *)
Definition failSummaryUpsert : list Event → DbOp → bool :=
  λ _ op, match op with ExecUpsertDaySummary _ _ => true | _ => false end.

(** The service has the summary, but the heartbeat fetch fails. *)
Definition heartbeatsDownRemote : Upstream :=
  {| summaries := summaries sampleRemote;
     durationsOf := durationsOf sampleRemote;
     durationsWithProject := durationsWithProject sampleRemote;
     heartbeatsOf := λ _, inl 503 |}.

(** The service answers the summary request with an empty list. *)
Definition emptySummaryRemote : Upstream :=
  {| summaries := λ _ _, inr {| sr_Data := [] |};
     durationsOf := durationsOf sampleRemote;
     durationsWithProject := durationsWithProject sampleRemote;
     heartbeatsOf := heartbeatsOf sampleRemote |}.

Definition stat (day : Time) (type name : string) (totalSeconds : Seconds)
  : DayStats :=
  {| ds_Day := Parse (Format day); ds_Type := type; ds_Name := name;
     ds_TotalSeconds := totalSeconds |}.

(** Language rows over three days with totals A:100 and B:300, a row of
    another type and a row out of the range. *)
Definition statsWorld : World :=
  {| db := set_day_stats
             [stat sampleDay "language" "A" 40;
              stat (AddDate sampleDay 1) "language" "B" 300;
              stat (AddDate sampleDay 1) "editor" "A" 999;
              stat (AddDate sampleDay 2) "language" "A" 60;
              stat (AddDate sampleDay 9) "language" "A" 1000]
             emptyDB;
     trace := [] |}.

(** ** package database: the queries of the read side

    The [SELECT]s behind the API.  A query may fail ([db.Query],
    [rows.Scan], [rows.Err]); a query without [ORDER BY] returns its rows
    in an order SQLite chooses.  Both are given by the reader's
    environment, and so is the text [Scan] yields for a stored [day]: the
    date as it was written, or a time stamp, which [time.Parse] with the
    layout of a date rejects. *)

(** [time.Time{}], the zero time: January 1 of year 1, 00:00:00 UTC. *)
Definition zeroTime : Time := -62135596800.

Inductive Query :=
| SelectHeartbeatsByDay (day : Date)
| SelectDaySummaries (start end_ : Date)
| SelectDayStatsByDayAndType (day : Date) (statType : string)
| SelectYearSummaries (startDate endDate : Date)
| SelectYearProjects (startDate endDate : Date).

Record Reader := {
  (** does the query fail? *)
  failing : Query → bool;
  (** the order of the rows of a [SELECT] on [day_stats] without
      [ORDER BY] *)
  rowOrder : list DayStats → list DayStats;
  (** the text [Scan] yields for a stored [day]: the date, or a time
      stamp that starts with it *)
  dayText : Date → string;
  (** the order of a [range] over a map with these keys *)
  mapOrder : list string → list string;
}.

Section Queries.

Variable rd : Reader.

(** [time.Parse("2006-01-02", s)]: Go's parser, which fails on a text
    that is not a date in this layout. *)
Variable time_Parse : string → option Time.

(** [x.Day, _ = time.Parse("2006-01-02", dayStr)] on the text [Scan]
    yielded for the stored day: the error is dropped, and [Day] is then
    the zero [time.Time] that [time.Parse] returns with it. *)
Definition scanned_day (day : Date) : Time :=
  default zeroTime (time_Parse (dayText rd day)).

(** [ORDER BY time]. *)
Definition by_time (a b : HeartBeat) : Prop := hb_Time a ≤ hb_Time b.

#[global] Instance by_time_dec a b : Decision (by_time a b).
Proof. unfold by_time. apply _. Defined.

(** [h.Day, _ = time.Parse("2006-01-02", dayStr)] on a scanned row. *)
Definition scan_heartbeat (h : HeartBeat) : HeartBeat :=
  {| hb_Day := scanned_day (Format (hb_Day h)); hb_Entity := hb_Entity h;
     hb_Type := hb_Type h; hb_Category := hb_Category h;
     hb_Time := hb_Time h; hb_Project := hb_Project h;
     hb_Branch := hb_Branch h; hb_Language := hb_Language h;
     hb_IsWrite := hb_IsWrite h; hb_MachineID := hb_MachineID h;
     hb_Lines := hb_Lines h; hb_LineNo := hb_LineNo h;
     hb_CursorPos := hb_CursorPos h |}.

(** [SELECT ... FROM heartbeats WHERE day = ? ORDER BY time]; an error
    returns [(nil, err)]. *)
Definition GetHeartbeatsByDay (day : Time) (d : DB)
  : list HeartBeat * option Query :=
  let q := SelectHeartbeatsByDay (Format day) in
  if failing rd q then ([], Some q)
  else
    (merge_sort by_time
       (scan_heartbeat
          <$> filter (λ r, Format (hb_Day r) = Format day) (heartbeats d)),
     None).

(** [s.Day, _ = time.Parse("2006-01-02", dayStr)] on a scanned row. *)
Definition scan_day_stat (s : DayStats) : DayStats :=
  {| ds_Day := scanned_day (Format (ds_Day s)); ds_Type := ds_Type s;
     ds_Name := ds_Name s; ds_TotalSeconds := ds_TotalSeconds s |}.

(** [SELECT ... FROM day_stats WHERE day = ? AND type = ?]. *)
Definition GetDayStatsByDayAndType (day : Time) (statType : string) (d : DB)
  : list DayStats * option Query :=
  let q := SelectDayStatsByDayAndType (Format day) statType in
  if failing rd q then ([], Some q)
  else
    (scan_day_stat
       <$> rowOrder rd
             (filter (λ r, Format (ds_Day r) = Format day
                           ∧ ds_Type r = statType) (day_stats d)),
     None).

End Queries.

(** ** The rows a sync stores *)

(** The durations [syncDurations] builds from a response, as the table
    holds them. *)
Definition stored_durations (day : Time) (data : list DurationData)
  : list Duration :=
  (λ d, {| d_Day := Parse (Format day); d_Project := dd_Project d;
           d_StartTime := dd_Time d; d_Duration := dd_Duration d;
           d_Dependencies := dd_Dependencies d |}) <$> data.

(** The heartbeats [syncHeartbeats] builds from a response, as the table
    holds them. *)
Definition stored_heartbeats (day : Time) (data : list HeartbeatData)
  : list HeartBeat :=
  (λ h, {| hb_Day := Parse (Format day); hb_Entity := hd_Entity h;
           hb_Type := hd_Type h; hb_Category := hd_Category h;
           hb_Time := hd_Time h; hb_Project := hd_Project h;
           hb_Branch := hd_Branch h; hb_Language := hd_Language h;
           hb_IsWrite := hd_IsWrite h; hb_MachineID := hd_MachineNameID h;
           hb_Lines := hd_Lines h; hb_LineNo := hd_LineNo h;
           hb_CursorPos := hd_CursorPos h |}) <$> data.

(** A heartbeat and a day stat as the tables hold them: the day is
    stored as a date. *)
Definition stored_heartbeat (h : HeartBeat) : HeartBeat :=
  {| hb_Day := Parse (Format (hb_Day h)); hb_Entity := hb_Entity h;
     hb_Type := hb_Type h; hb_Category := hb_Category h;
     hb_Time := hb_Time h; hb_Project := hb_Project h;
     hb_Branch := hb_Branch h; hb_Language := hb_Language h;
     hb_IsWrite := hb_IsWrite h; hb_MachineID := hb_MachineID h;
     hb_Lines := hb_Lines h; hb_LineNo := hb_LineNo h;
     hb_CursorPos := hb_CursorPos h |}.

Definition stored_day_stat (s : DayStats) : DayStats :=
  {| ds_Day := Parse (Format (ds_Day s)); ds_Type := ds_Type s;
     ds_Name := ds_Name s; ds_TotalSeconds := ds_TotalSeconds s |}.

(** The project durations of the per-project fetches of [syncDurations],
    for the projects in the order they are ranged over: a failed fetch
    contributes nothing. *)
Definition stored_project_durations (up : Upstream) (day : Time)
    (projects : list string) : list ProjectDuration :=
  projects ≫= λ project,
    match durationsWithProject up (Format day) project with
    | inl _ => []
    | inr projResp =>
        (λ d, {| pd_Day := Parse (Format day); pd_Project := project;
                 pd_Branch := dd_Branch d; pd_Entity := dd_Entity d;
                 pd_Language := dd_Language d; pd_Type := dd_Type d;
                 pd_StartTime := dd_Time d; pd_Duration := dd_Duration d;
                 pd_Dependencies := dd_Dependencies d |})
          <$> dr_Data projResp
    end.

(** The breakdown of a summary that [syncSummary] stores under a type. *)
Definition breakdown (summary : SummaryDay) (statType : string)
  : list SummaryItem :=
  if decide (statType = "category") then sd_Categories summary
  else if decide (statType = "language") then sd_Languages summary
  else if decide (statType = "editor") then sd_Editors summary
  else if decide (statType = "os") then sd_OperatingSystems summary
  else if decide (statType = "project") then sd_Projects summary
  else if decide (statType = "dependency") then sd_Dependencies summary
  else if decide (statType = "machine") then sd_Machines summary
  else [].

Section Scheduler.

Variable env : Env.

(** [SyncYesterday], which the scheduler runs at start-up and on every
    tick. *)
Definition SyncYesterday : M unit :=
  let* now := time_Now env in
  let yesterday := AddDate now (-1) in
  let* err := SyncDay env yesterday in
  match err with
  | Some _ => slog_Error "failed to sync yesterday's data"
  | None => ret tt
  end.

End Scheduler.

(** ** package database: the yearly activity *)

Record ProjectBreakdown := { pb_Name : string; pb_TotalSeconds : Seconds }.

Record YearlyActivityDay := {
  yad_Date : string;
  yad_TotalSeconds : Seconds;
  yad_Projects : list ProjectBreakdown;
}.

(** [normalizedDay := day; if len(day) > 10 { normalizedDay = day[:10] }]. *)
Definition normalizedDay (day : string) : string :=
  if decide (10 < String.length day)%nat then substring 0 10 day else day.

(** [if result[i].Date > result[j].Date
       { result[i], result[j] = result[j], result[i] }];
    the loops keep both indices in range. *)
Definition swap_if_later (i j : nat) (result : list YearlyActivityDay)
  : list YearlyActivityDay :=
  match result !! i, result !! j with
  | Some a, Some b =>
      if String.ltb (yad_Date b) (yad_Date a)
      then <[j := a]> (<[i := b]> result)
      else result
  | _, _ => result
  end.

(** [for j := i + 1; j < len(result); j++ { ... }], with [n] iterations
    to go. *)
Fixpoint inner_loop (i j n : nat) (result : list YearlyActivityDay)
  : list YearlyActivityDay :=
  match n with
  | O => result
  | S n' => inner_loop i (S j) n' (swap_if_later i j result)
  end.

(** [for i := 0; i < len(result)-1; i++ { ... }], with [n] iterations to
    go. *)
Fixpoint outer_loop (i n : nat) (result : list YearlyActivityDay)
  : list YearlyActivityDay :=
  match n with
  | O => result
  | S n' =>
      outer_loop (S i) n'
        (inner_loop i (S i) (length result - S i) result)
  end.

(** The sort by date at the end of [GetYearlyActivity]. *)
Definition sort_by_date (result : list YearlyActivityDay)
  : list YearlyActivityDay :=
  outer_loop 0 (length result - 1) result.

(** [ORDER BY day]. *)
Definition by_day (a b : Date * Seconds) : Prop := a.1 ≤ b.1.

#[global] Instance by_day_dec a b : Decision (by_day a b).
Proof. unfold by_day. apply _. Defined.

(** [ORDER BY day, total_seconds DESC]. *)
Definition by_day_total_desc (a b : DayStats) : Prop :=
  Format (ds_Day a) < Format (ds_Day b)
  ∨ (Format (ds_Day a) = Format (ds_Day b)
     ∧ ds_TotalSeconds b ≤ ds_TotalSeconds a).

#[global] Instance by_day_total_desc_dec a b : Decision (by_day_total_desc a b).
Proof. unfold by_day_total_desc. apply _. Defined.

Section YearlyActivity.

Variable rd : Reader.

(** [time.Date(year, month, day, 0, 0, 0, 0, time.UTC)
       .Format("2006-01-02")]: the calendar is Go's. *)
Variable dateOf : Z → Z → Z → Date.

(** [SELECT day, total_seconds FROM day_summaries
     WHERE day >= ? AND day <= ? ORDER BY day]. *)
Definition year_summaries (startDate endDate : Date) (d : DB)
  : list (Date * Seconds) :=
  merge_sort by_day
    (filter (λ row, startDate ≤ row.1 ∧ row.1 ≤ endDate)
       (map_to_list (day_summaries d))).

(** [SELECT day, name, total_seconds FROM day_stats
     WHERE day >= ? AND day <= ? AND type = 'project'
     ORDER BY day, total_seconds DESC]. *)
Definition year_projects (startDate endDate : Date) (d : DB)
  : list DayStats :=
  merge_sort by_day_total_desc
    (filter (in_range startDate endDate "project") (day_stats d)).

(** The body of the first loop: [dayMap[normalizedDay] =
    &YearlyActivityDay{...}]. *)
Definition add_day (dayMap : gmap string YearlyActivityDay)
    (row : Date * Seconds) : gmap string YearlyActivityDay :=
  let normalized := normalizedDay (dayText rd row.1) in
  <[normalized := {| yad_Date := normalized; yad_TotalSeconds := row.2;
                     yad_Projects := [] |}]> dayMap.

(** The body of the second loop: the day's entry, when there is one, gets
    the project appended. *)
Definition add_project (dayMap : gmap string YearlyActivityDay)
    (row : DayStats) : gmap string YearlyActivityDay :=
  let normalized := normalizedDay (dayText rd (Format (ds_Day row))) in
  match dayMap !! normalized with
  | Some dayData =>
      <[normalized :=
          {| yad_Date := yad_Date dayData;
             yad_TotalSeconds := yad_TotalSeconds dayData;
             yad_Projects :=
               yad_Projects dayData
               ++ [ {| pb_Name := ds_Name row;
                       pb_TotalSeconds := ds_TotalSeconds row |} ] |}]>
        dayMap
  | None => dayMap
  end.

(** The map of the year's days, after both loops. *)
Definition year_map (startDate endDate : Date) (d : DB)
  : gmap string YearlyActivityDay :=
  foldl add_project
    (foldl add_day ∅ (year_summaries startDate endDate d))
    (year_projects startDate endDate d).

(** [for _, v := range dayMap { result = append(result, *v) }]. *)
Definition range_values (dayMap : gmap string YearlyActivityDay)
  : list YearlyActivityDay :=
  omap (λ k, dayMap !! k) (mapOrder rd (map_to_list dayMap).*1).

Definition GetYearlyActivity (year : Z) (d : DB)
  : list YearlyActivityDay * option Query :=
  let startDate := dateOf year 1 1 in
  let endDate := dateOf year 12 31 in
  let q1 := SelectYearSummaries startDate endDate in
  if failing rd q1 then ([], Some q1)
  else
    let q2 := SelectYearProjects startDate endDate in
    if failing rd q2 then ([], Some q2)
    else
      let result := range_values (year_map startDate endDate d) in
      (sort_by_date result, None).

End YearlyActivity.

(** Dates in ascending order. *)
Definition date_le (a b : YearlyActivityDay) : Prop :=
  String.leb (yad_Date a) (yad_Date b) = true.

Definition date_lt (a b : YearlyActivityDay) : Prop :=
  String.ltb (yad_Date a) (yad_Date b) = true.

(** Every entry of the map carries its key as its date. *)
Definition keyed (m : gmap string YearlyActivityDay) : Prop :=
  ∀ k e, m !! k = Some e → yad_Date e = k.

(** The project of a row of [day_stats], as the yearly activity lists
    it. *)
Definition breakdown_of (r : DayStats) : ProjectBreakdown :=
  {| pb_Name := ds_Name r; pb_TotalSeconds := ds_TotalSeconds r |}.

(** ** package database: the summaries of a range *)

(** [SELECT ... FROM day_summaries WHERE day >= ? AND day <= ?
    ORDER BY day]: the rows by day and total, with
    [s.Day, _ = time.Parse("2006-01-02", dayStr)] on each scanned row. *)
Definition GetDaySummaries (rd : Reader) (time_Parse : string → option Time)
    (start end_ : Time) (d : DB) : list (Time * Seconds) * option Query :=
  let q := SelectDaySummaries (Format start) (Format end_) in
  if failing rd q then ([], Some q)
  else
    ((λ row : Date * Seconds, (scanned_day rd time_Parse row.1, row.2))
       <$> merge_sort by_day
             (filter (λ row, Format start ≤ row.1 ∧ row.1 ≤ Format end_)
                (map_to_list (day_summaries d))),
     None).

(** ** package api *)

(** [strconv.Itoa]. *)
Definition Itoa (n : Z) : string := NilZero.string_of_int (Z.to_int n).

(** [int(seconds / 3600)] and [int(seconds/60) % 60], on a whole number
    of seconds: the conversion truncates towards zero. *)
Definition formatDuration (seconds : Seconds) : string :=
  let hours := Z.quot seconds 3600 in
  let mins := Z.rem (Z.quot seconds 60) 60 in
  if decide (0 < hours)
  then Itoa hours +:+ " hrs " +:+ Itoa mins +:+ " mins"
  else Itoa mins +:+ " mins".

Definition padZero (n : Z) : string :=
  if decide (n < 10) then "0" +:+ Itoa n else Itoa n.

(** [formatTimezoneOffset], from the offset in seconds of the location
    ([t.Zone()]). *)
Definition formatTimezoneOffset (offset : Z) : string :=
  let hours := Z.quot offset 3600 in
  let mins := Z.quot (Z.rem offset 3600) 60 in
  if decide (0 ≤ offset)
  then "+" +:+ padZero hours +:+ ":" +:+ padZero mins
  else "-" +:+ padZero (- hours) +:+ ":" +:+ padZero (- mins).

(** What a handler writes: [writeError] with a status and a message, or
    [writeJSON] with status 200 and the data. *)
Inductive Response (A : Type) :=
| WriteError (status : Z) (message : string)
| WriteOK (data : A).

Arguments WriteError {A} status message.
Arguments WriteOK {A} data.

(** An entry of the data of [getDailyStats]. *)
Record DailyTotal := {
  dt_date : Date;
  dt_total_seconds : Seconds;
  dt_text : string;
}.

Section Handlers.

Variable env : Env.
Variable rd : Reader.

(** [parseDate]: [time.Parse("2006-01-02", s)], which the handlers call
    on the text of a parameter and the store on the text of a scanned
    day. *)
Variable parseDate : string → option Time.

(** [for d := start; !d.After(end); d = d.AddDate(0, 0, 1) { ... }] of
    [getDailyStats]: a day that is not in the map counts 0. *)
Equations? fill_days (summaryMap : gmap Date Seconds) (end_ d : Time)
    (data : list DailyTotal) : list DailyTotal
  by wf (Z.to_nat (end_ - d + 1)) lt :=
  fill_days summaryMap end_ d data with decide (After d end_) := {
    | left _ => data
    | right _ =>
        let dateStr := Format d in
        let totalSeconds := default 0 (summaryMap !! dateStr) in
        fill_days summaryMap end_ (AddDate d 1)
          (data ++ [ {| dt_date := dateStr;
                        dt_total_seconds := totalSeconds;
                        dt_text := formatDuration totalSeconds |} ]) }.
Proof. unfold After, AddDate, secondsPerDay in *. lia. Qed.

(** [GET /api/v1/stats/daily?start=...&end=...].  Without both
    parameters the range is the last 30 days: the text of a formatted day
    parses back to its midnight. *)
Definition getDailyStats (startStr endStr : string)
  : M (Response (list DailyTotal)) :=
  let* (start, end_) :=
    if decide (startStr = "" ∨ endStr = "") then
      (* Default to last 30 days *)
      let* now := time_Now env in
      let end_ := Parse (Format (AddDate now (-1))) in
      let* now := time_Now env in
      let start := Parse (Format (AddDate now (-30))) in
      ret (Some start, Some end_)
    else ret (parseDate startStr, parseDate endStr) in
  match start with
  | None => ret (WriteError 400 "invalid start date format")
  | Some start =>
    match end_ with
    | None => ret (WriteError 400 "invalid end date format")
    | Some end_ =>
      let* d := get_db in
      let (summaries, err) := GetDaySummaries rd parseDate start end_ d in
      match err with
      | Some _ =>
          let* _ := slog_Error "failed to get daily stats" in
          ret (WriteError 500 "failed to get stats")
      | None =>
          (* Create a map for quick lookup *)
          let summaryMap :=
            foldl (λ (m : gmap Date Seconds) (s : Time * Seconds),
                     <[Format s.1 := s.2]> m) ∅ summaries in
          (* Fill in all days including zeros *)
          ret (WriteOK (fill_days summaryMap end_ start []))
      end
    end
  end.

End Handlers.

(** The entry of a day in the daily totals. *)
Definition daily_total (d : DB) (day : Time) : DailyTotal :=
  let totalSeconds := default 0 (day_summaries d !! Format day) in
  {| dt_date := Format day; dt_total_seconds := totalSeconds;
     dt_text := formatDuration totalSeconds |}.

(** A number below 100 on two decimal digits. *)
Definition two_digits (n : Z) : string :=
  String (Ascii.ascii_of_N (48 + Z.to_N (n `div` 10)))
    (String (Ascii.ascii_of_N (48 + Z.to_N (n `mod` 10))) EmptyString).

(** ** Invariants of the store *)

(** A computation keeps a property of the store. *)
Definition preserves {A} (P : DB → Prop) (m : M A) : Prop :=
  ∀ w, P (db w) → P (db (m w).2).

(** The key of the [UNIQUE(day, type, name)] constraint of [day_stats]. *)
Definition stat_key (r : DayStats) : Date * string * string :=
  (Format (ds_Day r), ds_Type r, ds_Name r).

(** The rows of the batch inserts, as the tables hold them. *)
Definition stored_duration (r : Duration) : Duration :=
  {| d_Day := Parse (Format (d_Day r)); d_Project := d_Project r;
     d_StartTime := d_StartTime r; d_Duration := d_Duration r;
     d_Dependencies := d_Dependencies r |}.

Definition stored_project_duration (r : ProjectDuration) : ProjectDuration :=
  {| pd_Day := Parse (Format (pd_Day r)); pd_Project := pd_Project r;
     pd_Branch := pd_Branch r; pd_Entity := pd_Entity r;
     pd_Language := pd_Language r; pd_Type := pd_Type r;
     pd_StartTime := pd_StartTime r; pd_Duration := pd_Duration r;
     pd_Dependencies := pd_Dependencies r |}.

(** ** The projects

    [SyncProjects] and the [projects] table stand apart from the rest of
    the store: the table is passed explicitly, with the log lines written.
    A row is given by the columns [UpsertProject] writes. *)

Record ProjectData := {
  pj_ID : string;
  pj_Name : string;
  pj_Repository : string;
  pj_Badge : string;
  pj_Color : string;
  pj_HasPublicURL : bool;
  pj_LastHeartbeatAt : string;
  pj_FirstHeartbeatAt : string;
}.

Record Project := {
  p_UUID : string;
  p_Name : string;
  p_Repository : string;
  p_Badge : string;
  p_Color : string;
  p_HasPublicURL : bool;
  p_LastHeartbeatAt : Time;
  p_FirstHeartbeatAt : Time;
}.

(** [INSERT INTO projects ... ON CONFLICT(uuid) DO UPDATE SET name = ...]:
    the row of that uuid is rewritten in place, or a row is added. *)
Fixpoint upsert_project (p : Project) (table : list Project) : list Project :=
  match table with
  | [] => [p]
  | r :: table' =>
      if decide (p_UUID r = p_UUID p) then p :: table'
      else r :: upsert_project p table'
  end.

Section Projects.

(** [time.Parse(time.RFC3339, s)]. *)
Variable parseRFC3339 : string → option Time.

(** Does the upsert of this row fail, on this table? *)
Variable upsertFails : list Project → Project → bool.

(** The error is given by whether there is one: [SyncProjects] only tests
    it. *)
Definition UpsertProject (p : Project) (table : list Project)
  : bool * list Project :=
  if upsertFails table p then (true, table)
  else (false, upsert_project p table).

(** [lastHeartbeat, _ = time.Parse(time.RFC3339, p.LastHeartbeatAt)],
    under [if p.LastHeartbeatAt != ""]: the zero time otherwise, and when
    the text does not parse. *)
Definition heartbeat_time (s : string) : Time :=
  if decide (s ≠ "") then default zeroTime (parseRFC3339 s) else zeroTime.

Definition project_of (p : ProjectData) : Project :=
  {| p_UUID := pj_ID p; p_Name := pj_Name p;
     p_Repository := pj_Repository p; p_Badge := pj_Badge p;
     p_Color := pj_Color p; p_HasPublicURL := pj_HasPublicURL p;
     p_LastHeartbeatAt := heartbeat_time (pj_LastHeartbeatAt p);
     p_FirstHeartbeatAt := heartbeat_time (pj_FirstHeartbeatAt p) |}.

(** [for _, p := range resp.Data { ... }]: a failed upsert is logged and
    the loop goes on. *)
Fixpoint upsert_all (data : list ProjectData) (table : list Project)
    (log : list Event) : list Project * list Event :=
  match data with
  | [] => (table, log)
  | p :: data' =>
      let (failed, table') := UpsertProject (project_of p) table in
      upsert_all data' table'
        (if failed
         then EvLog LevelError "failed to upsert project" :: log
         else log)
  end.

(** [SyncProjects], on the answer of the service to [GetProjects("")]. *)
Definition SyncProjects (answer_ : Z + list ProjectData)
    (table : list Project) (log : list Event)
  : option error * (list Project * list Event) :=
  match answer answer_ with
  | inl err => (Some err, (table, log))
  | inr data =>
      let (table', log') := upsert_all data table log in
      (None, (table', EvLog LevelInfo "synced projects" :: log'))
  end.

End Projects.

(** The row of a uuid. *)
Definition project_by_uuid (uuid : string) (table : list Project)
  : option Project :=
  head (filter (λ r, p_UUID r = uuid) table).

(** ** package config *)

Module config.

Record Config := {
  ListenAddr : string;
  DatabasePath : string;
  WakaTimeAPI : string;
  ProxyURL : string;
  StartDate : string;
  SyncSchedule : string;
  Timezone : string;
}.

(** What [os.ReadFile(path)] returns: the data, an error for which
    [os.IsNotExist] holds, or another error. *)
Inductive ReadFile :=
| FileData (data : string)
| FileNotExist
| FileError (code : Z).

Inductive LoadError :=
| ReadFailed (code : Z)
| YamlFailed.

Definition defaultConfig : Config :=
  {| ListenAddr := ":3040"; DatabasePath := "wakatime.db";
     WakaTimeAPI := ""; ProxyURL := ""; StartDate := "2016-01-01";
     SyncSchedule := "0 1 * * *"; Timezone := "Local" |}.

(** [if v := os.Getenv(...); v != "" { field = v }]. *)
Definition override (v field : string) : string :=
  if decide (v ≠ "") then v else field.

(** [if field == "" { field = value }]. *)
Definition or_default (field value : string) : string :=
  if decide (field = "") then value else field.

Section Load.

(** [os.Getenv]. *)
Variable Getenv : string → string.

(** [yaml.Unmarshal(data, cfg)]: the configuration with the keys of the
    document set, or an error. *)
Variable Unmarshal : string → Config → option Config.

Definition Load (file : ReadFile) : LoadError + Config :=
  (* Start with default config *)
  let cfg := defaultConfig in
  (* Load from YAML file if it exists *)
  match
    match file with
    | FileError code => inl (ReadFailed code)
    | FileNotExist => inr cfg
    | FileData data =>
        match Unmarshal data cfg with
        | None => inl YamlFailed
        | Some cfg => inr cfg
        end
    end
  with
  | inl err => inl err
  | inr cfg =>
      (* Override with environment variables if set *)
      let cfg :=
        {| ListenAddr := override (Getenv "LISTEN_ADDR") (ListenAddr cfg);
           DatabasePath :=
             override (Getenv "DATABASE_PATH") (DatabasePath cfg);
           WakaTimeAPI :=
             override (Getenv "WAKATIME_API_KEY") (WakaTimeAPI cfg);
           ProxyURL := override (Getenv "PROXY_URL") (ProxyURL cfg);
           StartDate := override (Getenv "START_DATE") (StartDate cfg);
           SyncSchedule :=
             override (Getenv "SYNC_SCHEDULE") (SyncSchedule cfg);
           Timezone := override (Getenv "TIMEZONE") (Timezone cfg) |} in
      (* Apply defaults for any still-missing values *)
      inr {| ListenAddr := or_default (ListenAddr cfg) ":3040";
             DatabasePath := or_default (DatabasePath cfg) "wakatime.db";
             WakaTimeAPI := WakaTimeAPI cfg;
             ProxyURL := ProxyURL cfg;
             StartDate := or_default (StartDate cfg) "2016-01-01";
             SyncSchedule := or_default (SyncSchedule cfg) "0 1 * * *";
             Timezone := or_default (Timezone cfg) "Local" |}
  end.

End Load.

(** A document that sets the address and blanks the time zone; one
    variable of the environment. *)
Definition sampleUnmarshal (data : string) (cfg : Config) : option Config :=
  if decide (data = "listen_addr: :8080")
  then Some {| ListenAddr := ":8080"; DatabasePath := DatabasePath cfg;
               WakaTimeAPI := WakaTimeAPI cfg; ProxyURL := ProxyURL cfg;
               StartDate := StartDate cfg;
               SyncSchedule := SyncSchedule cfg; Timezone := "" |}
  else None.

Definition sampleGetenv (name : string) : string :=
  if decide (name = "LISTEN_ADDR") then ":9090" else "".

End config.

(** ** A settled day *)

(** The store holds for a day what the staleness checks of [SyncDay] look
    for, and the sync-log entry of the outcome of its summary fetch. *)
Definition settled_day (up : Upstream) (day : Time) (d : DB) : Prop :=
  let out := summary_outcome up day in
  summary_settled up day d
  ∧ (out.2 = None → durations_settled up day d ∧ heartbeats_settled up day d)
  ∧ sync_log d !! Format day = Some (audit_entry out).

(** The upserts of the sync log in a history, oldest first: the day with
    the total and the status sent. *)
Definition logged (t : list Event) : list (Date * SyncLog) :=
  omap (λ e, match e with
             | EvDb (ExecRecordSync day totalSeconds status) =>
                 Some (day, {| sl_TotalSeconds := totalSeconds;
                               sl_Status := status |})
             | _ => None
             end) (reverse t).

(** The events that read, and the upsert of the sync log. *)
Definition reads_or_logs (e : Event) : bool :=
  match e with
  | EvDb (ExecRecordSync _ _ _) => true
  | _ => reads_only e
  end.

(** ** More sample runs *)

(** The text of three days, as a date or as a time stamp. *)
Definition sampleDayText (day : Date) : string :=
  if decide (day = 20000) then "2024-10-04T00:00:00Z"
  else if decide (day = 20001) then "2024-10-05"
  else if decide (day = 20002) then "2024-10-06T00:00:00Z"
  else "".

(** [time.Parse("2006-01-02", s)] on the dates of four days; every other
    text of the samples, the time stamps among them, is rejected. *)
Definition sampleParse (s : string) : option Time :=
  if decide (s = "2024-10-04") then Some (Parse 20000)
  else if decide (s = "2024-10-05") then Some (Parse 20001)
  else if decide (s = "2024-10-06") then Some (Parse 20002)
  else if decide (s = "2024-10-07") then Some (Parse 20003)
  else None.

(** The text of four days as the date that was written, and as the time
    stamp of its midnight. *)
Definition sampleDateText (day : Date) : string :=
  if decide (day = 20000) then "2024-10-04"
  else if decide (day = 20001) then "2024-10-05"
  else if decide (day = 20002) then "2024-10-06"
  else if decide (day = 20003) then "2024-10-07"
  else "".

Definition sampleStampText (day : Date) : string :=
  sampleDateText day +:+ "T00:00:00Z".

(** A reader to which the driver yields dates, and one to which it yields
    time stamps. *)
Definition datesReader : Reader :=
  {| failing := λ _, false; rowOrder := λ l, l;
     dayText := sampleDateText; mapOrder := λ l, l |}.

Definition stampsReader : Reader :=
  {| failing := λ _, false; rowOrder := λ l, l;
     dayText := sampleStampText; mapOrder := λ l, l |}.

(** The service has three heartbeats for a day, not in the order of
    their times. *)
Definition busyRemote : Upstream :=
  {| summaries := summaries sampleRemote;
     durationsOf := durationsOf sampleRemote;
     durationsWithProject := durationsWithProject sampleRemote;
     heartbeatsOf := λ _,
       inr {| hr_Data := [heartbeatData "b.go" 300; heartbeatData "a.go" 100;
                          heartbeatData "c.go" 200] |} |}.

Definition busyEnv : Env := mkEnv busyRemote noFaults (λ l, l).

(** A reader whose queries succeed and which returns rows in table
    order. *)
Definition plainReader : Reader :=
  {| failing := λ _, false; rowOrder := λ l, l;
     dayText := sampleDayText; mapOrder := λ l, l |}.

(** The same reader, with maps ranged over backwards. *)
Definition reversedReader : Reader :=
  {| failing := λ _, false; rowOrder := λ l, l;
     dayText := sampleDayText; mapOrder := reverse |}.

(** The service has the durations, but every per-project fetch fails. *)
Definition projectsDownRemote : Upstream :=
  {| summaries := summaries sampleRemote;
     durationsOf := durationsOf sampleRemote;
     durationsWithProject := λ _ _, inl 503;
     heartbeatsOf := heartbeatsOf sampleRemote |}.

Definition projectsDownEnv : Env := mkEnv projectsDownRemote noFaults (λ l, l).

(** The store of [staleWorld] with one project duration of the day. *)
Definition storedProjectDuration (day : Time) : ProjectDuration :=
  {| pd_Day := Parse (Format day); pd_Project := "waka"; pd_Branch := "main";
     pd_Entity := "old.go"; pd_Language := "Go"; pd_Type := "file";
     pd_StartTime := 50; pd_Duration := 30; pd_Dependencies := "" |}.

Definition projectsWorld : World :=
  {| db := set_project_durations [storedProjectDuration sampleDay]
             (db staleWorld);
     trace := [] |}.

(** A clock that advances by one second at each reading. *)
Definition tickingClock (t : list Event) : Time :=
  AddDate sampleDay 1 + Z.of_nat (length t).

Definition tickingEnv : Env :=
  {| remote := sampleRemote; faults := noFaults; rangeOrder := λ l, l;
     clock := tickingClock; sumOf := sumOf sampleEnv |}.

(** A calendar for the samples: the year runs over the three days that
    [sampleDayText] knows. *)
Definition sampleDateOf (year month day : Z) : Date :=
  if decide (month = 1) then 20000 else 20002.

(** Summaries of the three days and of a day outside the year, and
    project rows of the first two days. *)
Definition yearDB : DB :=
  {| durations := []; project_durations := []; heartbeats := [];
     day_summaries := {[ 20000 := 5000; 20001 := 1200; 20002 := 300;
                         20010 := 77 ]};
     day_stats := [stat (Parse 20000) "project" "blog" 2000;
                   stat (Parse 20001) "project" "waka" 1200;
                   stat (Parse 20000) "language" "Go" 5000;
                   stat (Parse 20000) "project" "waka" 3000];
     sync_log := ∅ |}.

(** The store of [yearDB], before any request. *)
Definition yearWorld : World := {| db := yearDB; trace := [] |}.

(** A store whose summary of the day is out of date: it holds another
    total and other stats for the day, and a stat of the day before. *)
Definition outdatedWorld : World :=
  {| db := set_day_summaries {[ Format sampleDay := 4000 ]}
             (set_day_stats
                [stat (AddDate sampleDay (-1)) "language" "Go" 100;
                 stat sampleDay "language" "Go" 2500;
                 stat sampleDay "language" "Python" 1500]
                emptyDB);
     trace := [] |}.

(** Sample projects: the service lists "waka" twice. *)
Definition projectData (id name : string) : ProjectData :=
  {| pj_ID := id; pj_Name := name; pj_Repository := ""; pj_Badge := "";
     pj_Color := ""; pj_HasPublicURL := false;
     pj_LastHeartbeatAt := "2024-10-04T10:00:00Z";
     pj_FirstHeartbeatAt := "" |}.

Definition sampleParseRFC3339 (s : string) : option Time :=
  if decide (s = "2024-10-04T10:00:00Z") then Some sampleDay else None.

(** The service is down for the summaries. *)
Definition summariesDownRemote : Upstream :=
  {| summaries := λ _ _, inl 503;
     durationsOf := durationsOf sampleRemote;
     durationsWithProject := durationsWithProject sampleRemote;
     heartbeatsOf := heartbeatsOf sampleRemote |}.

(** * Proofs *)

(** Unfold the combinators of [M] and the primitives of the store. *)
Ltac run :=
  cbv beta iota zeta delta
    [bind ret emit attempt exec get_db put_db modify_db slog_Info slog_Error];
  simpl.

Section Frames.
Context {X : Type} (f : DB → X) (env : Env).

Lemma keeps_ret {A} (x : A) : keeps f (ret x).
Proof. by intros w. Qed.

Lemma keeps_bind {A B} (m : M A) (k : A → M B) :
  keeps f m → (∀ a, keeps f (k a)) → keeps f (bind m k).
Proof.
  intros Hm Hk w. unfold bind. destruct (m w) as [a w1] eqn:E.
  rewrite Hk. specialize (Hm w). by rewrite E in Hm.
Qed.

Lemma keeps_emit e : keeps f (emit e).
Proof. by intros w. Qed.

Lemma keeps_attempt op : keeps f (attempt env op).
Proof. by intros w. Qed.

Lemma keeps_get_db : keeps f get_db.
Proof. by intros w. Qed.

Lemma keeps_exec op effect :
  (∀ d, f (effect d) = f d) → keeps f (exec env op effect).
Proof.
  intros H w. run.
  destruct (faults env (trace w) op); simpl; [done | apply H].
Qed.
End Frames.

Section Store.
Context (env : Env).

Lemma stmt_exec_all_spec {R} (arg : R → RowArg) put rows w :
  let r := stmt_exec_all env arg put rows w in
  (r.1 = None ∧ db r.2 = foldl (λ d x, put x d) (db w) rows)
  ∨ (∃ x, x ∈ rows ∧ r.1 = Some (StoreError (StmtExec (arg x)))).
Proof.
  revert w. induction rows as [|x rows IH]; intros w; simpl.
  - by left.
  - run.
    destruct (faults env (trace w) (StmtExec (arg x))) eqn:F; simpl.
    + right. exists x. split; [apply list_elem_of_here | done].
    + match goal with |- context [stmt_exec_all env arg put rows ?w'] =>
        destruct (IH w') as [[H1 H2] | (y & Hy & H1)] end.
      * left. split; [done|]. by rewrite H2.
      * right. exists y. split; [by apply list_elem_of_further | done].
Qed.

Lemma stmt_exec_all_ok {R} (arg : R → RowArg) put rows w :
  store_ok env → (stmt_exec_all env arg put rows w).1 = None.
Proof.
  intros Hok. revert w. induction rows as [|x rows IH]; intros w; simpl; [done|].
  run. rewrite Hok. simpl. apply IH.
Qed.

(** A batch is inserted whole or not at all. *)
Lemma insert_tx_spec {R} t (arg : R → RowArg) put rows w :
  let r := insert_tx env t arg put rows w in
  (r.1 = None ∧ db r.2 = foldl (λ d x, put x d) (db w) rows)
  ∨ (∃ e, r.1 = Some e ∧ db r.2 = db w).
Proof.
  unfold insert_tx. run.
  destruct (faults env (trace w) (TxBegin t)); simpl; [right; eauto|].
  destruct (faults env _ (TxPrepare t)); simpl; [right; eauto|].
  match goal with |- context [stmt_exec_all env arg put rows ?w'] =>
    pose proof (stmt_exec_all_spec arg put rows w') as H;
    destruct (stmt_exec_all env arg put rows w') as [[e|] w1] end; simpl in *.
  - right; eauto.
  - destruct H as [[_ H]|(x & _ & H)]; [|done].
    destruct (faults env _ (TxCommit t)); simpl; [right; eauto | left; done].
Qed.

Lemma insert_tx_row_failure {R} t (arg : R → RowArg) put rows w e :
  (insert_tx env t arg put rows w).1 = Some e →
  db (insert_tx env t arg put rows w).2 = db w.
Proof.
  intros He. destruct (insert_tx_spec t arg put rows w) as [[H _]|(e' & _ & H)];
    [congruence | done].
Qed.

Lemma insert_tx_ok {R} t (arg : R → RowArg) put rows w :
  store_ok env →
  (insert_tx env t arg put rows w).1 = None
  ∧ db (insert_tx env t arg put rows w).2 = foldl (λ d x, put x d) (db w) rows.
Proof.
  intros Hok.
  destruct (insert_tx_spec t arg put rows w) as [H|(e & He & _)]; [done|].
  exfalso. revert He.
  unfold insert_tx. run.
  rewrite !Hok. simpl.
  match goal with |- context [stmt_exec_all env arg put rows ?w'] =>
    pose proof (stmt_exec_all_ok arg put rows w' Hok) as H;
    destruct (stmt_exec_all env arg put rows w') as [[e'|] w1] end; simpl in *;
    [done|].
  rewrite Hok. done.
Qed.

Lemma keeps_insert_tx {X R} (f : DB → X) t (arg : R → RowArg) put rows :
  (∀ x d, f (put x d) = f d) → keeps f (insert_tx env t arg put rows).
Proof.
  intros H w.
  destruct (insert_tx_spec t arg put rows w) as [[_ E]|(e & _ & E)]; rewrite E; [|done].
  clear E. generalize (db w). induction rows as [|x rows IH]; intros d; simpl; [done|].
  by rewrite IH.
Qed.
End Store.

(** Frame goals, by the structure of the computation. *)
Ltac frame :=
  repeat first
    [ apply keeps_ret | apply keeps_emit | apply keeps_attempt
    | apply keeps_get_db
    | apply keeps_exec; solve [intros; eauto]
    | apply keeps_insert_tx; solve [intros; eauto]
    | apply keeps_bind; [| intros ?]
    | match goal with
      | |- keeps _ (match ?x with _ => _ end) => destruct x
      end ].

Section Engine.
Context (env : Env).

Lemma keeps_fetch_projects {X} (f : DB → X) day ps acc :
  keeps f (fetch_projects env day ps acc).
Proof.
  revert acc. induction ps as [|p ps IH]; intros acc; simpl; [apply keeps_ret|].
  unfold GetDurationsWithProject, slog_Error. frame; apply IH.
Qed.

Lemma keeps_syncDurations {X} (f : DB → X) day :
  (∀ l d, f (set_durations l d) = f d) →
  (∀ l d, f (set_project_durations l d) = f d) →
  keeps f (syncDurations env day).
Proof.
  intros H1 H2.
  unfold syncDurations, GetDurations, CountDurationsByDay,
    DeleteDurationsByDay, InsertDurations, DeleteProjectDurationsByDay,
    InsertProjectDurations, put_duration, put_project_duration, slog_Info.
  frame. apply keeps_fetch_projects.
Qed.

Lemma keeps_syncHeartbeats {X} (f : DB → X) day :
  (∀ l d, f (set_heartbeats l d) = f d) →
  keeps f (syncHeartbeats env day).
Proof.
  intros H1.
  unfold syncHeartbeats, GetHeartbeats, CountHeartbeatsByDay,
    DeleteHeartbeatsByDay, InsertHeartbeats, put_heartbeat, slog_Info.
  frame.
Qed.

Lemma keeps_syncSummary {X} (f : DB → X) day :
  (∀ l d, f (set_day_summaries l d) = f d) →
  (∀ l d, f (set_day_stats l d) = f d) →
  keeps f (syncSummary env day).
Proof.
  intros H1 H2.
  unfold syncSummary, GetSummaries, GetDaySummary, UpsertDaySummary,
    DeleteDayStatsByDay, InsertDayStats, put_day_stat, slog_Info.
  frame.
Qed.

Lemma SyncDay_unfold day w :
  SyncDay env day w =
  let w0 := (slog_Info "syncing data" w).2 in
  match syncSummary env day w0 with
  | ((_, Some err), w1) =>
      (Some err,
       (RecordSync env day 0 "failed" (slog_Error "failed to sync summary" w1).2).2)
  | ((totalSeconds, None), w1) =>
      let (e1, w2) := syncDurations env day w1 in
      let w3 := match e1 with
                | Some _ => (slog_Error "failed to sync durations" w2).2
                | None => w2 end in
      let (e2, w4) := syncHeartbeats env day w3 in
      let w5 := match e2 with
                | Some _ => (slog_Error "failed to sync heartbeats" w4).2
                | None => w4 end in
      (None, (slog_Info "sync completed"
                (RecordSync env day totalSeconds "success" w5).2).2)
  end.
Proof.
  unfold SyncDay. run.
  destruct (syncSummary env day _) as [[T [e|]] w1]; simpl.
  - unfold RecordSync. run. by destruct (faults env _ _).
  - destruct (syncDurations env day w1) as [[e1|] w2]; simpl;
      destruct (syncHeartbeats env day _) as [[e2|] w4]; simpl;
      unfold RecordSync; run; by destruct (faults env _ _).
Qed.

Lemma RecordSync_lookup day T status w :
  audit_ok env →
  sync_log (db (RecordSync env day T status w).2) !! Format day
  = Some {| sl_TotalSeconds := T; sl_Status := status |}.
Proof.
  intros Hok. unfold RecordSync. run. rewrite Hok. simpl.
  apply lookup_insert_eq.
Qed.

Lemma keeps_RecordSync {X} (f : DB → X) day T status :
  (∀ l d, f (set_sync_log l d) = f d) → keeps f (RecordSync env day T status).
Proof. intros H. unfold RecordSync. frame. Qed.

End Engine.

(** Whatever happens, the last statement [SyncDay] sends is the write to
    the sync log: ("failed", 0) after a failed summary step, ("success",
    total) otherwise. *)
Lemma SyncDay_sends_audit env day w :
  let w0 := (slog_Info "syncing data" w).2 in
  let w' := (SyncDay env day w).2 in
  match (syncSummary env day w0).1 with
  | (_, Some _) =>
      ∃ t, trace w' = EvDb (ExecRecordSync (Format day) 0 "failed") :: t
  | (totalSeconds, None) =>
      ∃ t, trace w'
           = EvLog LevelInfo "sync completed"
             :: EvDb (ExecRecordSync (Format day) totalSeconds "success") :: t
  end.
Proof.
  cbv zeta. rewrite SyncDay_unfold. cbv zeta.
  destruct (syncSummary env day _) as [[T [e|]] w1]; simpl.
  - unfold RecordSync. run. destruct (faults env _ _); simpl; eauto.
  - destruct (syncDurations env day w1) as [e1 w2].
    destruct (syncHeartbeats env day _) as [e2 w4]. simpl.
    unfold RecordSync. run. destruct (faults env _ _); simpl; eauto.
Qed.

(** C2.  The summary step decides the outcome of [SyncDay].  If it fails,
    [SyncDay] returns that error and the sync log holds ("failed", 0) for
    the day; if it succeeds with total T, [SyncDay] returns nil and the sync
    log holds ("success", T), whatever the durations and heartbeats steps
    return: the environment is arbitrary, so either of them, or both, may
    fail.  The write to the sync log itself is taken to succeed
    ([audit_ok]). *)
Theorem SyncDay_summary_decides env day w :
  audit_ok env →
  let w0 := (slog_Info "syncing data" w).2 in
  let w' := (SyncDay env day w).2 in
  match (syncSummary env day w0).1 with
  | (_, Some err) =>
      (SyncDay env day w).1 = Some err
      ∧ sync_log (db w') !! Format day
        = Some {| sl_TotalSeconds := 0; sl_Status := "failed" |}
  | (totalSeconds, None) =>
      (SyncDay env day w).1 = None
      ∧ sync_log (db w') !! Format day
        = Some {| sl_TotalSeconds := totalSeconds; sl_Status := "success" |}
  end.
Proof.
  intros Hok. cbv zeta. rewrite SyncDay_unfold. cbv zeta.
  destruct (syncSummary env day _) as [[T [e|]] w1]; simpl.
  - split; [done|]. by apply RecordSync_lookup.
  - destruct (syncDurations env day w1) as [e1 w2].
    destruct (syncHeartbeats env day _) as [e2 w4]. simpl.
    split; [done|]. by apply RecordSync_lookup.
Qed.

(** C10.  When the summary fetch succeeds with an empty data list,
    [SyncDay] leaves [day_summaries] and [day_stats] as they were, records
    ("success", 0) in the sync log and returns nil, and [IsDaySynced] then
    answers true for the day.  The write to the sync log and the query of
    [IsDaySynced] are taken to succeed. *)
Theorem SyncDay_empty_summary env day w resp :
  summaries (remote env) (Format day) (Format day) = inr resp →
  sr_Data resp = [] →
  audit_ok env →
  (∀ h, faults env h (QueryIsDaySynced (Format day)) = false) →
  let w' := (SyncDay env day w).2 in
  (SyncDay env day w).1 = None
  ∧ day_summaries (db w') = day_summaries (db w)
  ∧ day_stats (db w') = day_stats (db w)
  ∧ sync_log (db w') !! Format day
    = Some {| sl_TotalSeconds := 0; sl_Status := "success" |}
  ∧ (IsDaySynced env day w').1 = (true, None).
Proof.
  intros Hr Hd Hok Hq w'.
  assert (Hs : ∀ w0, syncSummary env day w0
      = ((0, None), (slog_Info "no summary data for day"
                       (GetSummaries env day day w0).2).2)).
  { intros w0. unfold syncSummary, GetSummaries. run. rewrite Hr. simpl.
    by rewrite Hd. }
  assert (Hlog : sync_log (db w') !! Format day
                 = Some {| sl_TotalSeconds := 0; sl_Status := "success" |}).
  { subst w'. rewrite SyncDay_unfold. simpl. rewrite Hs.
    destruct (syncDurations env day _) as [e1 w2].
    destruct (syncHeartbeats env day _) as [e2 w4]. simpl.
    by apply RecordSync_lookup. }
  assert (Hkeep : ∀ {X} (f : DB → X),
    (∀ l d, f (set_durations l d) = f d) →
    (∀ l d, f (set_project_durations l d) = f d) →
    (∀ l d, f (set_heartbeats l d) = f d) →
    (∀ l d, f (set_sync_log l d) = f d) →
    f (db w') = f (db w)).
  { intros X f H1 H2 H3 H4. subst w'. rewrite SyncDay_unfold. simpl. rewrite Hs.
    simpl.
    destruct (syncDurations env day _) as [e1 w2] eqn:E1.
    destruct (syncHeartbeats env day _) as [e2 w4] eqn:E2. simpl.
    rewrite (keeps_RecordSync env f day 0 "success" H4).
    assert (f (db w4) = f (db w)) as Hw4.
    { pose proof (keeps_syncHeartbeats env f day H3) as K2.
      pose proof (keeps_syncDurations env f day H1 H2) as K1.
      match type of E2 with syncHeartbeats _ _ ?w3 = _ =>
        specialize (K2 w3); rewrite E2 in K2; simpl in K2; rewrite K2 end.
      match type of E1 with syncDurations _ _ ?w1 = _ =>
        specialize (K1 w1); rewrite E1 in K1; simpl in K1 end.
      by destruct e1. }
    by destruct e2. }
  split; [|split; [|split; [|split]]].
  - subst w'. rewrite SyncDay_unfold. simpl. rewrite Hs.
    destruct (syncDurations env day _) as [e1 w2].
    by destruct (syncHeartbeats env day _) as [e2 w4].
  - by apply (Hkeep _ day_summaries).
  - by apply (Hkeep _ day_stats).
  - done.
  - unfold IsDaySynced. run. rewrite Hq. simpl. by rewrite Hlog.
Qed.

Section Faults.
Context (env : Env).

Lemma stmt_exec_all_no_fault {R} (arg : R → RowArg) put rows w :
  any_fault env (trace w) = false →
  (stmt_exec_all env arg put rows w).1 = None →
  any_fault env (trace (stmt_exec_all env arg put rows w).2) = false.
Proof.
  revert w. induction rows as [|x rows IH]; intros w Hw; simpl; [done|].
  run. destruct (faults env (trace w) (StmtExec (arg x))) eqn:F; simpl; [done|].
  apply IH. simpl. by rewrite F.
Qed.

Lemma insert_tx_no_fault {R} t (arg : R → RowArg) put rows w :
  any_fault env (trace w) = false →
  (insert_tx env t arg put rows w).1 = None →
  any_fault env (trace (insert_tx env t arg put rows w).2) = false.
Proof.
  intros Hw. unfold insert_tx. run.
  destruct (faults env (trace w) (TxBegin t)) eqn:F1; simpl; [done|].
  destruct (faults env _ (TxPrepare t)) eqn:F2; simpl; [done|].
  match goal with |- context [stmt_exec_all env arg put rows ?w'] =>
    pose proof (stmt_exec_all_no_fault arg put rows w') as H;
    destruct (stmt_exec_all env arg put rows w') as [[e|] w1] end;
    simpl in *; [done|].
  destruct (faults env _ (TxCommit t)) eqn:F3; simpl; [done|].
  intros _. rewrite F3. simpl. apply H; [|done]. by rewrite F2, F1.
Qed.

Lemma syncSummary_no_fault day w :
  any_fault env (trace w) = false →
  (syncSummary env day w).1.2 = None →
  any_fault env (trace (syncSummary env day w).2) = false.
Proof.
  intros Hw. unfold syncSummary, GetSummaries, GetDaySummary,
    UpsertDaySummary, DeleteDayStatsByDay. run.
  destruct (summaries _ _ _) as [e|resp]; simpl; [done|].
  destruct (sr_Data resp) as [|summary rest]; simpl; [done|].
  destruct (faults env _ (QueryDaySummary _)) eqn:F1; simpl; [done|].
  destruct (decide _); simpl; [by rewrite F1|].
  destruct (faults env _ (ExecUpsertDaySummary _ _)) eqn:F2; simpl; [done|].
  destruct (faults env _ (ExecDeleteByDay _ _)) eqn:F3; simpl; [done|].
  destruct (decide _); simpl.
  - match goal with |- context [InsertDayStats env ?l ?w'] =>
      pose proof (insert_tx_no_fault TDayStats RowDayStats put_day_stat l w')
        as H; unfold InsertDayStats;
      destruct (insert_tx env TDayStats RowDayStats put_day_stat l w')
        as [[e|] w1] end; simpl in *; [done|].
    intros _. apply H; [|done]. by rewrite F3, F2, F1.
  - by rewrite F3, F2, F1.
Qed.

End Faults.

(** C3, amended.  A failure of the store is propagated by [SyncDay] when
    it happens in the summary step: if no statement had failed before and
    one fails during the summary step, [SyncDay] returns a non-nil error.
    Later failures are not: when the summary step returns no error,
    [SyncDay] returns nil, whatever fails in the durations step, in the
    heartbeats step or in the write to the sync log. *)
Theorem SyncDay_store_failure env day w :
  let w0 := (slog_Info "syncing data" w).2 in
  (any_fault env (trace w) = false →
   any_fault env (trace (syncSummary env day w0).2) = true →
   is_Some (SyncDay env day w).1)
  ∧ ((syncSummary env day w0).1.2 = None → (SyncDay env day w).1 = None).
Proof.
  cbv zeta. rewrite SyncDay_unfold. cbv zeta. split.
  - intros Hw Hf.
    pose proof (syncSummary_no_fault env day (slog_Info "syncing data" w).2 Hw)
      as H.
    destruct (syncSummary env day _) as [[T [e|]] w1]; simpl in *; [done|].
    rewrite H in Hf; done.
  - destruct (syncSummary env day _) as [[T [e|]] w1]; simpl; [done|].
    intros _. destruct (syncDurations env day w1) as [e1 w2].
    by destruct (syncHeartbeats env day _) as [e2 w4].
Qed.

Section Range.
Context (env : Env).

Lemma days_of_range_after d e : After d e → days_of_range d e = [].
Proof. intros H. unfold days_of_range. by rewrite decide_True. Qed.

Lemma days_of_range_cons d e :
  ¬ After d e → days_of_range d e = d :: days_of_range (AddDate d 1) e.
Proof.
  intros H. unfold days_of_range. rewrite decide_False by done.
  unfold After, AddDate, secondsPerDay in *.
  assert (0 ≤ (e - d) `div` 86400) by (apply Z.div_pos; lia).
  rewrite seqZ_cons by lia. simpl. f_equal; [lia|].
  destruct (decide (e < d + 1 * 86400)) as [Hlt|Hge].
  - rewrite Z.div_small by lia. by rewrite seqZ_nil.
  - replace (e - d) with ((e - (d + 1 * 86400)) + 1 * 86400) by lia.
    rewrite Z.div_add by lia.
    replace (Z.pred ((e - (d + 1 * 86400)) `div` 86400 + 1 + 1))
      with ((e - (d + 1 * 86400)) `div` 86400 + 1) by lia.
    rewrite <- (fmap_add_seqZ 1 0). rewrite <- list_fmap_compose.
    apply list_fmap_ext. intros _ i _. simpl. lia.
Qed.

Lemma sync_loop_fold end_ d w :
  sync_loop env end_ d w = (tt, foldl (sync_one env) w (days_of_range d end_)).
Proof.
  revert w.
  apply (sync_loop_elim env
           (λ end_ d m, ∀ w,
              m w = (tt, foldl (sync_one env) w (days_of_range d end_)))).
  - intros e d' Hafter _ w. by rewrite days_of_range_after.
  - intros e d' Hnot IH _ w. rewrite days_of_range_cons by done. simpl.
    unfold bind at 1. unfold sync_one at 2.
    destruct (SyncDay env d' w) as [[err|] w1]; unfold bind; simpl;
      apply (IH None tt w).
Qed.

End Range.

(** C9.  [SyncDateRange] and [SyncDays] return nil for every input, and a
    day that fails does not stop the loop: the final world is that of
    [sync_one] ([SyncDay], and a log line when it fails) run over every day
    of the range in turn. *)
Theorem range_sync_returns_nil env start end_ days w :
  (SyncDateRange env start end_ w).1 = None
  ∧ (SyncDateRange env start end_ w).2
    = foldl (sync_one env) w (days_of_range start end_)
  ∧ (SyncDays env days w).1 = None
  ∧ (let now1 := clock env (trace w) in
     let w1 := {| db := db w; trace := EvNow now1 :: trace w |} in
     let now2 := clock env (trace w1) in
     let w2 := {| db := db w; trace := EvNow now2 :: trace w1 |} in
     (SyncDays env days w).2
     = foldl (sync_one env) w2
         (days_of_range (AddDate now2 (- days)) (AddDate now1 (-1)))).
Proof.
  unfold SyncDateRange, SyncDays, time_Now. run.
  rewrite !sync_loop_fold. done.
Qed.

Lemma syncDurations_skip env day w resp :
  durationsOf (remote env) (Format day) = inr resp →
  (length (dr_Data resp) ≤ length (durations_on day (db w)))%nat →
  let w' := (syncDurations env day w).2 in
  db w' = db w
  ∧ ∃ new, trace w' = new ++ trace w ∧ forallb reads_only new = true.
Proof.
  intros Hr Hlen; cbv zeta.
  - unfold syncDurations, GetDurations, CountDurationsByDay. run.
    rewrite Hr. simpl.
    destruct (decide (length (dr_Data resp) = 0%nat)); simpl.
    { split; [done|]. by eexists [_; _]. }
    destruct (faults env _ _); simpl.
    { split; [done|]. by eexists [_; _]. }
    unfold durations_on in Hlen. rewrite decide_True by done. simpl.
    split; [done|]. by eexists [_; _; _].
Qed.

Lemma syncHeartbeats_skip env day w resp :
  heartbeatsOf (remote env) (Format day) = inr resp →
  (length (hr_Data resp) ≤ length (heartbeats_on day (db w)))%nat →
  let w' := (syncHeartbeats env day w).2 in
  db w' = db w
  ∧ ∃ new, trace w' = new ++ trace w ∧ forallb reads_only new = true.
Proof.
  intros Hr Hlen; cbv zeta.
  - unfold syncHeartbeats, GetHeartbeats, CountHeartbeatsByDay. run.
    rewrite Hr. simpl.
    destruct (decide (length (hr_Data resp) = 0%nat)); simpl.
    { split; [done|]. by eexists [_; _]. }
    destruct (faults env _ _); simpl.
    { split; [done|]. by eexists [_; _]. }
    unfold heartbeats_on in Hlen. rewrite decide_True by done. simpl.
    split; [done|]. by eexists [_; _; _].
Qed.

(** C5.  When the rows stored for the day are at least as many as the
    items fetched, the durations step leaves the whole store as it was and
    sends nothing but reads (no [DELETE], no [INSERT], no transaction); the
    same for the heartbeats step. *)
Theorem staleness_skip env day w :
  (∀ resp,
     durationsOf (remote env) (Format day) = inr resp →
     (length (dr_Data resp) ≤ length (durations_on day (db w)))%nat →
     let w' := (syncDurations env day w).2 in
     db w' = db w
     ∧ ∃ new, trace w' = new ++ trace w ∧ forallb reads_only new = true)
  ∧ (∀ resp,
     heartbeatsOf (remote env) (Format day) = inr resp →
     (length (hr_Data resp) ≤ length (heartbeats_on day (db w)))%nat →
     let w' := (syncHeartbeats env day w).2 in
     db w' = db w
     ∧ ∃ new, trace w' = new ++ trace w ∧ forallb reads_only new = true).
Proof.
  split; intros resp Hr Hlen.
  - by apply (syncDurations_skip env day w resp).
  - by apply (syncHeartbeats_skip env day w resp).
Qed.

(** C7.  When the day summary stored for the day has the grand total of
    the remote summary, the summary step writes nothing (the store is as it
    was and only reads are sent) and returns that total with no error.  The
    query of the stored summary is taken to succeed. *)
Theorem summary_skip env day w resp summary rest :
  summaries (remote env) (Format day) (Format day) = inr resp →
  sr_Data resp = summary :: rest →
  day_summaries (db w) !! Format day = Some (sd_GrandTotal summary) →
  (∀ h, faults env h (QueryDaySummary (Format day)) = false) →
  let r := syncSummary env day w in
  r.1 = (sd_GrandTotal summary, None)
  ∧ db r.2 = db w
  ∧ ∃ new, trace r.2 = new ++ trace w ∧ forallb reads_only new = true.
Proof.
  intros Hr Hd Hs Hq. cbv zeta.
  unfold syncSummary, GetSummaries, GetDaySummary. run.
  rewrite Hr. simpl. rewrite Hd. rewrite Hq. simpl.
  rewrite decide_True by done. simpl.
  split; [done|]. split; [done|]. by eexists [_; _; _].
Qed.

Section Replace.
Context (env : Env).

(** The error of a batch names the statement of the transaction that
    failed, and the tables are those of before the batch. *)
Lemma insert_tx_error {R} t (arg : R → RowArg) put rows w e :
  (insert_tx env t arg put rows w).1 = Some e →
  db (insert_tx env t arg put rows w).2 = db w
  ∧ (e = StoreError (TxBegin t) ∨ e = StoreError (TxPrepare t)
     ∨ (∃ x, x ∈ rows ∧ e = StoreError (StmtExec (arg x)))
     ∨ e = StoreError (TxCommit t)).
Proof.
  intros He. split; [by eapply insert_tx_row_failure|].
  revert He. unfold insert_tx. run.
  destruct (faults env (trace w) (TxBegin t)); simpl; [intros [= <-]; auto|].
  destruct (faults env _ (TxPrepare t)); simpl; [intros [= <-]; auto|].
  match goal with |- context [stmt_exec_all env arg put rows ?w'] =>
    pose proof (stmt_exec_all_spec env arg put rows w') as H;
    destruct (stmt_exec_all env arg put rows w') as [[e'|] w1] end;
    simpl in *.
  - intros [= <-]. destruct H as [[H _]|(x & Hx & [= ->])]; [done|].
    right; right; left. eauto.
  - destruct (faults env _ (TxCommit t)); simpl; [intros [= <-]; auto|done].
Qed.

Lemma filter_other_day_nil {A} (f : A → Date) (day : Date) (l : list A) :
  filter (λ r, f r = day) (filter (λ r, f r ≠ day) l) = [].
Proof.
  induction l as [|x l IH]; [done|].
  rewrite (filter_cons (λ r, f r ≠ day)). destruct (decide (f x ≠ day)); [|done].
  rewrite filter_cons. by rewrite decide_False.
Qed.

Lemma syncDurations_row_failure day w r :
  (syncDurations env day w).1 = Some (StoreError (StmtExec (RowDuration r))) →
  durations (db (syncDurations env day w).2)
  = filter (λ x, Format (d_Day x) ≠ Format day) (durations (db w)).
Proof.
  unfold syncDurations, GetDurations, CountDurationsByDay,
    DeleteDurationsByDay, InsertDurations. run.
  destruct (durationsOf _ _) as [c|resp]; simpl; [done|].
  destruct (decide (length (dr_Data resp) = 0%nat)); simpl; [done|].
  destruct (faults env _ (QueryCountByDay _ _)); simpl; [done|].
  destruct (decide (_ ≤ _)%nat); simpl; [done|].
  destruct (faults env _ (ExecDeleteByDay _ _)); simpl; [done|].
  match goal with |- context [insert_tx env TDurations RowDuration put_duration ?l ?w'] =>
    pose proof (insert_tx_error TDurations RowDuration put_duration l w') as H;
    destruct (insert_tx env TDurations RowDuration put_duration l w')
      as [[e|] w3] end; simpl in *.
  { intros _. destruct (H e eq_refl) as [-> _]. done. }
  clear H.
  destruct (fetch_projects env day _ _ w3) as [pds w4]; simpl.
  destruct (decide (0 < length pds)%nat); simpl; [|done].
  unfold DeleteProjectDurationsByDay, InsertProjectDurations. run.
  destruct (faults env _ (ExecDeleteByDay _ _)); simpl; [done|].
  match goal with |- context [insert_tx env TProjectDurations ?a ?p ?l ?w'] =>
    pose proof (insert_tx_error TProjectDurations a p l w') as H;
    destruct (insert_tx env TProjectDurations a p l w') as [[e|] w5] end;
    simpl in *; [|done].
  intros [= ->].
  destruct (H _ eq_refl) as [_ [?|[?|[(x & _ & ?)|?]]]]; done.
Qed.

Lemma syncDurations_project_row_failure day w r :
  (syncDurations env day w).1
    = Some (StoreError (StmtExec (RowProjectDuration r))) →
  project_durations (db (syncDurations env day w).2)
  = filter (λ x, Format (pd_Day x) ≠ Format day) (project_durations (db w)).
Proof.
  unfold syncDurations, GetDurations, CountDurationsByDay,
    DeleteDurationsByDay, InsertDurations. run.
  destruct (durationsOf _ _) as [c|resp]; simpl; [done|].
  destruct (decide (length (dr_Data resp) = 0%nat)); simpl; [done|].
  destruct (faults env _ (QueryCountByDay _ _)); simpl; [done|].
  destruct (decide (_ ≤ _)%nat); simpl; [done|].
  destruct (faults env _ (ExecDeleteByDay _ _)); simpl; [done|].
  match goal with |- context [insert_tx env TDurations RowDuration put_duration ?l ?w'] =>
    pose proof (insert_tx_error TDurations RowDuration put_duration l w') as H;
    pose proof (keeps_insert_tx env project_durations TDurations RowDuration
                  put_duration l (λ _ _, eq_refl) w') as K;
    destruct (insert_tx env TDurations RowDuration put_duration l w')
      as [[e|] w3] end; simpl in *.
  { intros [= ->].
    destruct (H _ eq_refl) as [_ [?|[?|[(x & _ & ?)|?]]]]; done. }
  clear H.
  match goal with |- context [fetch_projects env day ?ps ?acc w3] =>
    pose proof (keeps_fetch_projects env project_durations day ps acc w3) as K';
    destruct (fetch_projects env day ps acc w3) as [pds w4] end; simpl in *.
  destruct (decide (0 < length pds)%nat); simpl; [|done].
  unfold DeleteProjectDurationsByDay, InsertProjectDurations. run.
  destruct (faults env _ (ExecDeleteByDay _ _)); simpl; [done|].
  match goal with |- context [insert_tx env TProjectDurations ?a ?p ?l ?w'] =>
    pose proof (insert_tx_error TProjectDurations a p l w') as H;
    destruct (insert_tx env TProjectDurations a p l w') as [[e|] w5] end;
    simpl in *; [|done].
  intros _. destruct (H e eq_refl) as [-> _]. simpl. by rewrite K', K.
Qed.

Lemma syncHeartbeats_row_failure day w r :
  (syncHeartbeats env day w).1 = Some (StoreError (StmtExec (RowHeartBeat r))) →
  heartbeats (db (syncHeartbeats env day w).2)
  = filter (λ x, Format (hb_Day x) ≠ Format day) (heartbeats (db w)).
Proof.
  unfold syncHeartbeats, GetHeartbeats, CountHeartbeatsByDay,
    DeleteHeartbeatsByDay, InsertHeartbeats. run.
  destruct (heartbeatsOf _ _) as [c|resp]; simpl; [done|].
  destruct (decide (length (hr_Data resp) = 0%nat)); simpl; [done|].
  destruct (faults env _ (QueryCountByDay _ _)); simpl; [done|].
  destruct (decide (_ ≤ _)%nat); simpl; [done|].
  destruct (faults env _ (ExecDeleteByDay _ _)); simpl; [done|].
  match goal with |- context [insert_tx env THeartbeats ?a ?p ?l ?w'] =>
    pose proof (insert_tx_error THeartbeats a p l w') as H;
    destruct (insert_tx env THeartbeats a p l w') as [[e|] w3] end;
    simpl in *; [|done].
  intros _. destruct (H e eq_refl) as [-> _]. done.
Qed.

Lemma syncSummary_row_failure day w r :
  (syncSummary env day w).1.2 = Some (StoreError (StmtExec (RowDayStats r))) →
  day_stats (db (syncSummary env day w).2)
  = filter (λ x, Format (ds_Day x) ≠ Format day) (day_stats (db w)).
Proof.
  unfold syncSummary, GetSummaries, GetDaySummary, UpsertDaySummary,
    DeleteDayStatsByDay, InsertDayStats. run.
  destruct (summaries _ _ _) as [c|resp]; simpl; [done|].
  destruct (sr_Data resp) as [|summary rest]; simpl; [done|].
  destruct (faults env _ (QueryDaySummary _)); simpl; [done|].
  destruct (decide _); simpl; [done|].
  destruct (faults env _ (ExecUpsertDaySummary _ _)); simpl; [done|].
  destruct (faults env _ (ExecDeleteByDay _ _)); simpl; [done|].
  destruct (decide _); simpl; [|done].
  match goal with |- context [insert_tx env TDayStats ?a ?p ?l ?w'] =>
    pose proof (insert_tx_error TDayStats a p l w') as H;
    destruct (insert_tx env TDayStats a p l w') as [[e|] w3] end;
    simpl in *; [|done].
  intros _. destruct (H e eq_refl) as [-> _]. done.
Qed.

End Replace.

(** C1, amended.  When a row fails in the middle of the insert of a
    replace, no new row is stored, but the rows the day had are gone: the
    [DELETE] before the transaction is not rolled back, and the table is
    left with the rows of the other days only.  This holds for durations,
    project durations, heartbeats and day stats. *)
Theorem replace_after_row_failure env day w :
  (∀ r, (syncDurations env day w).1
          = Some (StoreError (StmtExec (RowDuration r))) →
        let d' := db (syncDurations env day w).2 in
        durations d'
        = filter (λ x, Format (d_Day x) ≠ Format day) (durations (db w))
        ∧ durations_on day d' = [])
  ∧ (∀ r, (syncDurations env day w).1
            = Some (StoreError (StmtExec (RowProjectDuration r))) →
          let d' := db (syncDurations env day w).2 in
          project_durations d'
          = filter (λ x, Format (pd_Day x) ≠ Format day)
              (project_durations (db w))
          ∧ project_durations_on day d' = [])
  ∧ (∀ r, (syncHeartbeats env day w).1
            = Some (StoreError (StmtExec (RowHeartBeat r))) →
          let d' := db (syncHeartbeats env day w).2 in
          heartbeats d'
          = filter (λ x, Format (hb_Day x) ≠ Format day) (heartbeats (db w))
          ∧ heartbeats_on day d' = [])
  ∧ (∀ r, (syncSummary env day w).1.2
            = Some (StoreError (StmtExec (RowDayStats r))) →
          let d' := db (syncSummary env day w).2 in
          day_stats d'
          = filter (λ x, Format (ds_Day x) ≠ Format day) (day_stats (db w))
          ∧ day_stats_on day d' = []).
Proof.
  repeat split.
  - by eapply syncDurations_row_failure.
  - unfold durations_on. erewrite syncDurations_row_failure by done.
    apply (filter_other_day_nil (λ x, Format (d_Day x))).
  - by eapply syncDurations_project_row_failure.
  - unfold project_durations_on.
    erewrite syncDurations_project_row_failure by done.
    apply (filter_other_day_nil (λ x, Format (pd_Day x))).
  - by eapply syncHeartbeats_row_failure.
  - unfold heartbeats_on. erewrite syncHeartbeats_row_failure by done.
    apply (filter_other_day_nil (λ x, Format (hb_Day x))).
  - by eapply syncSummary_row_failure.
  - unfold day_stats_on. erewrite syncSummary_row_failure by done.
    apply (filter_other_day_nil (λ x, Format (ds_Day x))).
Qed.

Lemma Format_Parse d : Format (Parse d) = d.
Proof. unfold Format, Parse, secondsPerDay. by rewrite Z.div_mul. Qed.

Lemma set_sync_log_id d k v :
  sync_log d !! k = Some v → set_sync_log (<[k := v]> (sync_log d)) d = d.
Proof. intros H. destruct d. unfold set_sync_log. simpl in *. by rewrite insert_id. Qed.

Section Settle.
Context (env : Env) (Hok : store_ok env).

Lemma syncSummary_outcome day w :
  (syncSummary env day w).1 = summary_outcome (remote env) day.
Proof.
  unfold summary_outcome, syncSummary, GetSummaries, GetDaySummary,
    UpsertDaySummary, DeleteDayStatsByDay, InsertDayStats. run.
  destruct (summaries _ _ _) as [c|resp]; simpl; [done|].
  destruct (sr_Data resp) as [|summary rest]; simpl; [done|].
  rewrite !Hok. simpl. destruct (decide _); simpl; [done|].
  rewrite !Hok. simpl. destruct (decide _); simpl; [|done].
  match goal with |- context [insert_tx env TDayStats ?a ?p ?l ?w'] =>
    destruct (insert_tx_ok env TDayStats a p l w' Hok) as [H _];
    destruct (insert_tx env TDayStats a p l w') as [[e|] w3] end;
    simpl in *; done.
Qed.

Lemma syncSummary_settles day w :
  summary_settled (remote env) day (db (syncSummary env day w).2).
Proof.
  unfold summary_settled, syncSummary, GetSummaries, GetDaySummary,
    UpsertDaySummary, DeleteDayStatsByDay, InsertDayStats. run.
  destruct (summaries _ _ _) as [c|resp]; simpl; [done|].
  destruct (sr_Data resp) as [|summary rest]; simpl; [done|].
  rewrite !Hok. simpl. destruct (decide _); simpl; [done|].
  rewrite !Hok. simpl. destruct (decide _); simpl.
  - match goal with |- context [insert_tx env TDayStats ?a ?p ?l ?w'] =>
      pose proof (keeps_insert_tx env day_summaries TDayStats a p l
                    (λ _ _, eq_refl) w') as K;
      destruct (insert_tx env TDayStats a p l w') as [[e|] w3] end;
      simpl in *; rewrite K; apply lookup_insert_eq.
  - apply lookup_insert_eq.
Qed.

Lemma syncSummary_noop day w :
  summary_settled (remote env) day (db w) →
  db (syncSummary env day w).2 = db w.
Proof.
  unfold summary_settled, syncSummary, GetSummaries, GetDaySummary. run.
  destruct (summaries _ _ _) as [c|resp]; simpl; [done|].
  destruct (sr_Data resp) as [|summary rest]; simpl; [done|].
  intros Hs. rewrite !Hok. simpl. by rewrite decide_True.
Qed.

Lemma durations_on_put day x d :
  Format (d_Day x) = Format day →
  length (durations_on day (put_duration x d))
  = S (length (durations_on day d)).
Proof.
  intros Hx. unfold durations_on, put_duration. simpl.
  rewrite filter_app, length_app. rewrite filter_cons. simpl.
  rewrite decide_True by (by rewrite Format_Parse). simpl. lia.
Qed.

Lemma durations_on_foldl day rows d :
  Forall (λ x, Format (d_Day x) = Format day) rows →
  length (durations_on day (foldl (λ d x, put_duration x d) d rows))
  = (length (durations_on day d) + length rows)%nat.
Proof.
  intros H. revert d. induction H as [|x rows Hx _ IH]; intros d; simpl; [lia|].
  rewrite IH, durations_on_put by done. lia.
Qed.

Lemma syncDurations_settles day w :
  durations_settled (remote env) day (db (syncDurations env day w).2).
Proof.
  unfold durations_settled.
  destruct (durationsOf (remote env) (Format day)) as [c|resp] eqn:Hr; [done|].
  unfold syncDurations, GetDurations, CountDurationsByDay,
    DeleteDurationsByDay, InsertDurations. run. rewrite Hr. simpl.
  destruct (decide (length (dr_Data resp) = 0%nat)) as [->|Hn]; simpl; [lia|].
  rewrite !Hok. simpl.
  destruct (decide (_ ≤ _)%nat); simpl; [done|].
  rewrite !Hok. simpl.
  match goal with |- context [insert_tx env TDurations ?a ?p ?l ?w'] =>
    destruct (insert_tx_ok env TDurations a p l w' Hok) as [H1 H2];
    destruct (insert_tx env TDurations a p l w') as [[e|] w3] end;
    simpl in *; [done|].
  assert (length (dr_Data resp) ≤ length (durations_on day (db w3)))%nat as Hlen.
  { rewrite H2, durations_on_foldl.
    - rewrite length_fmap. lia.
    - apply Forall_fmap, Forall_forall. by intros. }
  match goal with |- context [fetch_projects env day ?ps ?acc w3] =>
    pose proof (keeps_fetch_projects env durations day ps acc w3) as K';
    destruct (fetch_projects env day ps acc w3) as [pds w4] end; simpl in *.
  assert (∀ w5, durations (db w5) = durations (db w4) →
            (length (dr_Data resp) ≤ length (durations_on day (db w5)))%nat)
    as Hfin.
  { intros w5 E. unfold durations_on in *. by rewrite E, K'. }
  destruct (decide (0 < length pds)%nat); simpl; [|by apply Hfin].
  unfold DeleteProjectDurationsByDay, InsertProjectDurations. run.
  rewrite !Hok. simpl.
  match goal with |- context [insert_tx env TProjectDurations ?a ?p ?l ?w'] =>
    pose proof (keeps_insert_tx env durations TProjectDurations a p l
                  (λ _ _, eq_refl) w') as K;
    destruct (insert_tx env TProjectDurations a p l w') as [[e|] w5] end;
    simpl in *; by apply Hfin.
Qed.

Lemma heartbeats_on_put day x d :
  Format (hb_Day x) = Format day →
  length (heartbeats_on day (put_heartbeat x d))
  = S (length (heartbeats_on day d)).
Proof.
  intros Hx. unfold heartbeats_on, put_heartbeat. simpl.
  rewrite filter_app, length_app. rewrite filter_cons. simpl.
  rewrite decide_True by (by rewrite Format_Parse). simpl. lia.
Qed.

Lemma heartbeats_on_foldl day rows d :
  Forall (λ x, Format (hb_Day x) = Format day) rows →
  length (heartbeats_on day (foldl (λ d x, put_heartbeat x d) d rows))
  = (length (heartbeats_on day d) + length rows)%nat.
Proof.
  intros H. revert d. induction H as [|x rows Hx _ IH]; intros d; simpl; [lia|].
  rewrite IH, heartbeats_on_put by done. lia.
Qed.

Lemma syncHeartbeats_settles day w :
  heartbeats_settled (remote env) day (db (syncHeartbeats env day w).2).
Proof.
  unfold heartbeats_settled.
  destruct (heartbeatsOf (remote env) (Format day)) as [c|resp] eqn:Hr; [done|].
  unfold syncHeartbeats, GetHeartbeats, CountHeartbeatsByDay,
    DeleteHeartbeatsByDay, InsertHeartbeats. run. rewrite Hr. simpl.
  destruct (decide (length (hr_Data resp) = 0%nat)) as [->|Hn]; simpl; [lia|].
  rewrite !Hok. simpl.
  destruct (decide (_ ≤ _)%nat); simpl; [done|].
  rewrite !Hok. simpl.
  match goal with |- context [insert_tx env THeartbeats ?a ?p ?l ?w'] =>
    destruct (insert_tx_ok env THeartbeats a p l w' Hok) as [H1 H2];
    destruct (insert_tx env THeartbeats a p l w') as [[e|] w3] end;
    simpl in *; [done|].
  rewrite H2, heartbeats_on_foldl.
  - rewrite length_fmap. lia.
  - apply Forall_fmap, Forall_forall. by intros.
Qed.

End Settle.

Lemma syncDurations_noop env day w :
  durations_settled (remote env) day (db w) →
  db (syncDurations env day w).2 = db w.
Proof.
  unfold durations_settled. intros H.
  destruct (durationsOf (remote env) (Format day)) as [c|resp] eqn:Hr.
  - unfold syncDurations, GetDurations. run. by rewrite Hr.
  - by apply (syncDurations_skip env day w resp).
Qed.

Lemma syncHeartbeats_noop env day w :
  heartbeats_settled (remote env) day (db w) →
  db (syncHeartbeats env day w).2 = db w.
Proof.
  unfold heartbeats_settled. intros H.
  destruct (heartbeatsOf (remote env) (Format day)) as [c|resp] eqn:Hr.
  - unfold syncHeartbeats, GetHeartbeats. run. by rewrite Hr.
  - by apply (syncHeartbeats_skip env day w resp).
Qed.

Lemma summary_settled_ext up day d d' :
  day_summaries d' = day_summaries d →
  summary_settled up day d → summary_settled up day d'.
Proof. unfold summary_settled. by intros ->. Qed.

Lemma durations_settled_ext up day d d' :
  durations d' = durations d →
  durations_settled up day d → durations_settled up day d'.
Proof. unfold durations_settled, durations_on. by intros ->. Qed.

Lemma heartbeats_settled_ext up day d d' :
  heartbeats d' = heartbeats d →
  heartbeats_settled up day d → heartbeats_settled up day d'.
Proof. unfold heartbeats_settled, heartbeats_on. by intros ->. Qed.

Lemma store_ok_audit_ok env : store_ok env → audit_ok env.
Proof. intros H h day T s. apply H. Qed.

Section Idempotence.
Context (env : Env) (Hok : store_ok env).

Lemma RecordSync_db day T status w :
  db (RecordSync env day T status w).2
  = set_sync_log
      (<[Format day := {| sl_TotalSeconds := T; sl_Status := status |}]>
         (sync_log (db w))) (db w).
Proof. unfold RecordSync. run. by rewrite Hok. Qed.

(** After a day is synced the store holds what the staleness checks of the
    next run look for. *)
Lemma SyncDay_settles day w :
  let w1 := (SyncDay env day w).2 in
  let out := summary_outcome (remote env) day in
  summary_settled (remote env) day (db w1)
  ∧ (out.2 = None →
     durations_settled (remote env) day (db w1)
     ∧ heartbeats_settled (remote env) day (db w1))
  ∧ sync_log (db w1) !! Format day = Some (audit_entry out).
Proof.
  cbv zeta. rewrite SyncDay_unfold. cbv zeta.
  pose proof (syncSummary_outcome env Hok day (slog_Info "syncing data" w).2)
    as Hout.
  pose proof (syncSummary_settles env Hok day (slog_Info "syncing data" w).2)
    as Hs.
  destruct (syncSummary env day _) as [[T [e|]] wa]; simpl in *;
    rewrite <- Hout; simpl.
  - split; [|split; [done|]].
    + eapply summary_settled_ext; [|exact Hs]. by rewrite RecordSync_db.
    + apply RecordSync_lookup. by apply store_ok_audit_ok.
  - pose proof (syncDurations_settles env Hok day wa) as Hd.
    pose proof (keeps_syncDurations env day_summaries day
                  (λ _ _, eq_refl) (λ _ _, eq_refl) wa) as K1.
    destruct (syncDurations env day wa) as [e1 wb]; simpl in *.
    set (w3 := match e1 with Some _ => _ | None => wb end).
    assert (db w3 = db wb) as E3 by (subst w3; by destruct e1).
    pose proof (syncHeartbeats_settles env Hok day w3) as Hh.
    pose proof (keeps_syncHeartbeats env day_summaries day
                  (λ _ _, eq_refl) w3) as K2.
    pose proof (keeps_syncHeartbeats env durations day
                  (λ _ _, eq_refl) w3) as K3.
    destruct (syncHeartbeats env day w3) as [e2 wc]; simpl in *.
    set (w5 := match e2 with Some _ => _ | None => wc end).
    assert (db w5 = db wc) as E5 by (subst w5; by destruct e2).
    rewrite RecordSync_db, E5.
    split; [|split; [intros _; split|]].
    + eapply summary_settled_ext; [|exact Hs]. simpl.
      by rewrite K2, E3, K1.
    + eapply durations_settled_ext; [|exact Hd]. simpl. by rewrite K3, E3.
    + eapply heartbeats_settled_ext; [|exact Hh]. done.
    + simpl. apply lookup_insert_eq.
Qed.

(** On a settled store a run changes nothing. *)
Lemma SyncDay_noop day w :
  let out := summary_outcome (remote env) day in
  summary_settled (remote env) day (db w) →
  (out.2 = None →
   durations_settled (remote env) day (db w)
   ∧ heartbeats_settled (remote env) day (db w)) →
  sync_log (db w) !! Format day = Some (audit_entry out) →
  db (SyncDay env day w).2 = db w.
Proof.
  cbv zeta. intros Hs Hdh Hlog. rewrite SyncDay_unfold. cbv zeta.
  pose proof (syncSummary_outcome env Hok day (slog_Info "syncing data" w).2)
    as Hout.
  pose proof (syncSummary_noop env Hok day (slog_Info "syncing data" w).2 Hs)
    as N1.
  destruct (syncSummary env day _) as [[T [e|]] wa]; simpl in *;
    rewrite <- Hout in *; simpl in *.
  - rewrite RecordSync_db. simpl. rewrite N1. by apply set_sync_log_id.
  - destruct (Hdh eq_refl) as [Hd Hh].
    assert (durations_settled (remote env) day (db wa)) as Hd'
      by (by rewrite N1).
    pose proof (syncDurations_noop env day wa Hd') as N2.
    destruct (syncDurations env day wa) as [e1 wb]; simpl in *.
    set (w3 := match e1 with Some _ => _ | None => wb end).
    assert (db w3 = db w) as E3 by (subst w3; destruct e1; simpl; congruence).
    assert (heartbeats_settled (remote env) day (db w3)) as Hh'
      by (by rewrite E3).
    pose proof (syncHeartbeats_noop env day w3 Hh') as N3.
    destruct (syncHeartbeats env day w3) as [e2 wc]; simpl in *.
    set (w5 := match e2 with Some _ => _ | None => wc end).
    assert (db w5 = db w) as E5 by (subst w5; destruct e2; simpl; congruence).
    rewrite RecordSync_db, E5. by apply set_sync_log_id.
Qed.

End Idempotence.

(** C4.  Two runs of [SyncDay] for the same day against the same upstream
    responses (the order of map iteration and the clock may differ), with
    no failing statement: after the second run the durations, the
    heartbeats and the day stats, and in fact the whole store, are those of
    after the first run. *)
Theorem SyncDay_idempotent env1 env2 day w :
  remote env1 = remote env2 →
  store_ok env1 → store_ok env2 →
  let w1 := (SyncDay env1 day w).2 in
  let w2 := (SyncDay env2 day w1).2 in
  durations (db w2) = durations (db w1)
  ∧ heartbeats (db w2) = heartbeats (db w1)
  ∧ day_stats (db w2) = day_stats (db w1)
  ∧ db w2 = db w1.
Proof.
  intros Hup Hok1 Hok2. cbv zeta.
  destruct (SyncDay_settles env1 Hok1 day w) as (Hs & Hdh & Hlog).
  rewrite Hup in Hs, Hdh, Hlog.
  rewrite (SyncDay_noop env2 Hok2 day _ Hs Hdh Hlog). done.
Qed.

Lemma fetched_projects_cons e t :
  fetched_projects (e :: t)
  = fetched_projects t ++
    match e with
    | EvHttp (CallDurationsWithProject _ project) => [project]
    | _ => []
    end.
Proof.
  unfold fetched_projects. rewrite reverse_cons, omap_app. f_equal.
  by destruct e as [[]| | |].
Qed.

Lemma fetched_projects_other e t :
  (∀ d p, e ≠ EvHttp (CallDurationsWithProject d p)) →
  fetched_projects (e :: t) = fetched_projects t.
Proof.
  intros H. rewrite fetched_projects_cons.
  destruct e as [[]| | |]; rewrite ?app_nil_r; try done. by destruct (H date project).
Qed.

Section Silent.
Context (env : Env).

Lemma silent_ret {A} (x : A) : silent (ret x).
Proof. by intros w. Qed.

Lemma silent_bind {A B} (m : M A) (k : A → M B) :
  silent m → (∀ a, silent (k a)) → silent (bind m k).
Proof.
  intros Hm Hk w. unfold bind. destruct (m w) as [a w1] eqn:E.
  rewrite Hk. specialize (Hm w). by rewrite E in Hm.
Qed.

Lemma silent_emit e :
  (∀ d p, e ≠ EvHttp (CallDurationsWithProject d p)) → silent (emit e).
Proof. intros H w. simpl. by apply fetched_projects_other. Qed.

Lemma silent_attempt op : silent (attempt env op).
Proof. intros w. simpl. by apply fetched_projects_other. Qed.

Lemma silent_get_db : silent get_db.
Proof. by intros w. Qed.

Lemma silent_put_db d : silent (put_db d).
Proof. by intros w. Qed.

Lemma silent_modify_db f : silent (modify_db f).
Proof. by intros w. Qed.

Lemma silent_exec op effect : silent (exec env op effect).
Proof.
  unfold exec. apply silent_bind; [apply silent_attempt|].
  intros []; [apply silent_ret|].
  apply silent_bind; [apply silent_modify_db | intros; apply silent_ret].
Qed.

Lemma silent_stmt_exec_all {R} (arg : R → RowArg) put rows :
  silent (stmt_exec_all env arg put rows).
Proof.
  induction rows as [|x rows IH]; simpl; [apply silent_ret|].
  apply silent_bind; [apply silent_exec|]. intros []; [apply silent_ret|done].
Qed.

Lemma silent_insert_tx {R} t (arg : R → RowArg) put rows :
  silent (insert_tx env t arg put rows).
Proof.
  unfold insert_tx.
  repeat first
    [ apply silent_ret | apply silent_attempt | apply silent_get_db
    | apply silent_put_db | apply silent_stmt_exec_all
    | apply silent_bind; [| intros ?]
    | match goal with
      | |- silent (match ?x with _ => _ end) => destruct x
      end ].
Qed.

Lemma fetch_projects_trace day ps acc w :
  fetched_projects (trace (fetch_projects env day ps acc w).2)
  = fetched_projects (trace w) ++ ps.
Proof.
  revert acc w. induction ps as [|p ps IH]; intros acc w; simpl.
  { by rewrite app_nil_r. }
  unfold GetDurationsWithProject. run.
  destruct (durationsWithProject _ _ _); simpl; rewrite IH; simpl.
  - rewrite fetched_projects_other by done.
    by rewrite fetched_projects_cons, <- app_assoc.
  - by rewrite fetched_projects_cons, <- app_assoc.
Qed.

Lemma projects_of_lookup data (m : gmap string bool) p :
  is_Some (foldl (λ projects d,
                    if decide (dd_Project d ≠ "")
                    then <[dd_Project d := true]> projects else projects)
             m data !! p)
  ↔ is_Some (m !! p) ∨ (p ≠ "" ∧ p ∈ dd_Project <$> data).
Proof.
  revert m. induction data as [|d data IH]; intros m; simpl.
  { split; [auto|]. intros [?|[_ H]]; [done|]. by apply elem_of_nil in H. }
  rewrite IH, elem_of_cons.
  destruct (decide (dd_Project d ≠ "")) as [Hne|He].
  - rewrite lookup_insert_is_Some'. split.
    + intros [[<-|?]|[? ?]]; auto.
    + intros [?|[? [->|?]]]; auto.
  - split.
    + intros [?|[? ?]]; auto.
    + intros [?|[? [->|?]]]; auto. done.
Qed.

Lemma projects_of_is_Some data p :
  is_Some (projects_of data !! p) ↔ p ≠ "" ∧ p ∈ dd_Project <$> data.
Proof.
  unfold projects_of. rewrite projects_of_lookup, lookup_empty.
  split; [|by right]. intros [[? [=]]|H]; done.
Qed.

Lemma projects_of_keys data p :
  p ∈ (map_to_list (projects_of data)).*1
  ↔ p ≠ "" ∧ p ∈ dd_Project <$> data.
Proof.
  rewrite <- projects_of_is_Some, list_elem_of_fmap. split.
  - intros ([k v] & -> & H). apply elem_of_map_to_list in H. by exists v.
  - intros [v Hv]. exists (p, v). split; [done|]. by apply elem_of_map_to_list.
Qed.

Lemma syncDurations_fetches day w resp :
  store_ok env →
  durationsOf (remote env) (Format day) = inr resp →
  (length (durations_on day (db w)) < length (dr_Data resp))%nat →
  fetched_projects (trace (syncDurations env day w).2)
  = fetched_projects (trace w)
    ++ rangeOrder env (map_to_list (projects_of (dr_Data resp))).*1.
Proof.
  intros Hok Hr Hlen.
  unfold syncDurations, GetDurations, CountDurationsByDay,
    DeleteDurationsByDay, InsertDurations. run. rewrite Hr. simpl.
  rewrite decide_False by lia. simpl. rewrite !Hok. simpl.
  unfold durations_on in Hlen. rewrite decide_False by lia. simpl.
  rewrite !Hok. simpl.
  match goal with |- context [insert_tx env TDurations ?a ?p ?l ?w'] =>
    destruct (insert_tx_ok env TDurations a p l w' Hok) as [H1 _];
    pose proof (silent_insert_tx TDurations a p l w') as S1;
    destruct (insert_tx env TDurations a p l w') as [[e|] w3] end;
    simpl in *; [done|].
  match goal with |- context [fetch_projects env day ?ps ?acc w3] =>
    pose proof (fetch_projects_trace day ps acc w3) as F;
    destruct (fetch_projects env day ps acc w3) as [pds w4] end; simpl in *.
  rewrite S1 in F. rewrite !fetched_projects_other in F by done.
  destruct (decide (0 < length pds)%nat); simpl.
  - unfold DeleteProjectDurationsByDay, InsertProjectDurations. run.
    rewrite !Hok. simpl.
    match goal with |- context [insert_tx env TProjectDurations ?a ?p ?l ?w'] =>
      pose proof (silent_insert_tx TProjectDurations a p l w') as S2;
      destruct (insert_tx env TProjectDurations a p l w') as [[e|] w5] end;
      simpl in *; [|rewrite fetched_projects_other by done];
      rewrite S2, fetched_projects_other by done; done.
  - by rewrite fetched_projects_other.
Qed.

(** In any run, whatever fails, the durations step issues either no
    per-project fetch or all of them. *)
Lemma syncDurations_fetches_any day w :
  fetched_projects (trace (syncDurations env day w).2)
  = fetched_projects (trace w)
  ∨ ∃ resp,
      durationsOf (remote env) (Format day) = inr resp
      ∧ (length (durations_on day (db w)) < length (dr_Data resp))%nat
      ∧ fetched_projects (trace (syncDurations env day w).2)
        = fetched_projects (trace w)
          ++ rangeOrder env (map_to_list (projects_of (dr_Data resp))).*1.
Proof.
  unfold syncDurations, GetDurations. run.
  destruct (durationsOf (remote env) (Format day)) as [code|resp] eqn:Hr;
    simpl.
  { left. by rewrite fetched_projects_other. }
  destruct (decide (length (dr_Data resp) = 0)%nat); simpl.
  { left. by rewrite !fetched_projects_other. }
  unfold CountDurationsByDay. run.
  destruct (faults env _ _); simpl.
  { left. by rewrite !fetched_projects_other. }
  destruct (decide (length (dr_Data resp) ≤ _)%nat) as [|Hlen]; simpl.
  { left. by rewrite !fetched_projects_other. }
  unfold DeleteDurationsByDay. run.
  destruct (faults env _ _); simpl.
  { left. by rewrite !fetched_projects_other. }
  unfold InsertDurations.
  match goal with |- context [insert_tx env TDurations ?a ?p ?l ?w'] =>
    pose proof (silent_insert_tx TDurations a p l w') as S1;
    destruct (insert_tx env TDurations a p l w') as [[e|] w3] end;
    simpl in *.
  { left. rewrite S1. by rewrite !fetched_projects_other. }
  right. exists resp. split; [done|]. split; [unfold durations_on; lia|].
  match goal with |- context [fetch_projects env day ?ps ?acc w3] =>
    pose proof (fetch_projects_trace day ps acc w3) as F;
    destruct (fetch_projects env day ps acc w3) as [pds w4] end; simpl in *.
  rewrite S1 in F. rewrite !fetched_projects_other in F by done.
  destruct (decide (0 < length pds)%nat); simpl.
  - unfold DeleteProjectDurationsByDay, InsertProjectDurations. run.
    destruct (faults env _ _); simpl.
    { by rewrite !fetched_projects_other. }
    match goal with |- context [insert_tx env TProjectDurations ?a ?p ?l ?w'] =>
      pose proof (silent_insert_tx TProjectDurations a p l w') as S2;
      destruct (insert_tx env TProjectDurations a p l w') as [[e|] w5] end;
      simpl in *; [|rewrite fetched_projects_other by done];
      rewrite S2, fetched_projects_other by done; done.
  - by rewrite fetched_projects_other.
Qed.

End Silent.

(** The projects ranged over: each distinct non-empty project once. *)
Lemma fetched_keys env resp :
  (∀ l, rangeOrder env l ≡ₚ l) →
  let keys := rangeOrder env (map_to_list (projects_of (dr_Data resp))).*1 in
  NoDup keys ∧ ∀ p, p ∈ keys ↔ p ≠ "" ∧ p ∈ dd_Project <$> dr_Data resp.
Proof.
  intros Hperm keys. unfold keys. split.
  - rewrite Hperm. apply NoDup_fst_map_to_list.
  - intros p. rewrite Hperm. apply projects_of_keys.
Qed.

(** C6, amended.  In every run of the durations step, whatever fails,
    either no per-project fetch is issued or every distinct non-empty
    project of the remote durations is fetched exactly once, one after the
    other, in the order in which the map of projects is ranged over: an
    order the program does not fix.  The fetches are issued only when the
    durations fetch succeeded and the store holds fewer durations for the
    day than the service returned; they are all issued when, moreover, no
    statement fails; none is issued when the fetch fails or the day is
    already stored.  Two runs with the same remote answers that both issue
    the fetches fetch the same projects, possibly in different orders. *)
Theorem project_fetches_follow_range_order env day w :
  (∀ l, rangeOrder env l ≡ₚ l) →
  ∃ fetched,
    fetched_projects (trace (syncDurations env day w).2)
    = fetched_projects (trace w) ++ fetched
    ∧ NoDup fetched
    ∧ (fetched = []
       ∨ ∃ resp,
           durationsOf (remote env) (Format day) = inr resp
           ∧ (length (durations_on day (db w)) < length (dr_Data resp))%nat
           ∧ fetched
             = rangeOrder env (map_to_list (projects_of (dr_Data resp))).*1
           ∧ ∀ p, p ∈ fetched ↔ p ≠ "" ∧ p ∈ dd_Project <$> dr_Data resp)
    ∧ (match durationsOf (remote env) (Format day) with
       | inl _ => True
       | inr resp =>
           (length (dr_Data resp) ≤ length (durations_on day (db w)))%nat
       end → fetched = [])
    ∧ (store_ok env → ∀ resp,
         durationsOf (remote env) (Format day) = inr resp →
         (length (durations_on day (db w)) < length (dr_Data resp))%nat →
         fetched
         = rangeOrder env (map_to_list (projects_of (dr_Data resp))).*1)
    ∧ (∀ env' w' fetched',
         remote env' = remote env →
         (∀ l, rangeOrder env' l ≡ₚ l) →
         fetched_projects (trace (syncDurations env' day w').2)
         = fetched_projects (trace w') ++ fetched' →
         fetched = [] ∨ fetched' = [] ∨ fetched ≡ₚ fetched').
Proof.
  intros Hperm.
  assert (∀ e v, (∀ l, rangeOrder e l ≡ₚ l) →
            ∃ f, fetched_projects (trace (syncDurations e day v).2)
                 = fetched_projects (trace v) ++ f
                 ∧ (f = []
                    ∨ ∃ resp,
                        durationsOf (remote e) (Format day) = inr resp
                        ∧ (length (durations_on day (db v))
                           < length (dr_Data resp))%nat
                        ∧ f = rangeOrder e
                                (map_to_list (projects_of (dr_Data resp))).*1))
    as Hany.
  { intros e v _. destruct (syncDurations_fetches_any e day v)
      as [E|(resp & Hr & Hlen & E)].
    - exists []. rewrite app_nil_r. auto.
    - eexists. split; [exact E|]. right. by exists resp. }
  destruct (Hany env w Hperm) as (fetched & Htrace & Hcases).
  exists fetched. split; [done|]. split; [|split; [|split; [|split]]].
  - destruct Hcases as [->|(resp & _ & _ & ->)]; [constructor|].
    by apply fetched_keys.
  - destruct Hcases as [->|(resp & Hr & Hlen & ->)]; [by left|].
    right. exists resp. split; [done|]. split; [done|]. split; [done|].
    by apply fetched_keys.
  - intros H. destruct Hcases as [->|(resp & Hr & Hlen & ->)]; [done|].
    rewrite Hr in H. lia.
  - intros Hok resp Hr Hlen.
    pose proof (syncDurations_fetches env day w resp Hok Hr Hlen) as E.
    rewrite Htrace in E. by apply app_inv_head in E.
  - intros env' w' fetched' Hremote Hperm' Htrace'.
    destruct (Hany env' w' Hperm') as (f' & Htrace2 & Hcases').
    rewrite Htrace' in Htrace2. apply app_inv_head in Htrace2 as <-.
    destruct Hcases as [->|(resp & Hr & _ & ->)]; [by left|].
    destruct Hcases' as [->|(resp' & Hr' & _ & ->)]; [by right; left|].
    right. right. rewrite Hremote, Hr in Hr'. injection Hr' as <-.
    by rewrite Hperm, Hperm'.
Qed.

#[global] Instance total_desc_total : Total total_desc.
Proof. intros a b. unfold total_desc. lia. Qed.

Lemma sum_seconds_cons x l : sum_seconds (x :: l) = x + sum_seconds l.
Proof. done. Qed.

Lemma sum_seconds_app l1 l2 :
  sum_seconds (l1 ++ l2) = sum_seconds l1 + sum_seconds l2.
Proof. induction l1 as [|x l1 IH]; simpl; [done|]. rewrite IH. lia. Qed.

Lemma sum_seconds_perm l1 l2 : l1 ≡ₚ l2 → sum_seconds l1 = sum_seconds l2.
Proof. induction 1; simpl; lia. Qed.

Lemma exact_total_cons r rows n :
  exact_total (r :: rows) n
  = (if decide (ds_Name r = n) then ds_TotalSeconds r else 0)
    + exact_total rows n.
Proof.
  unfold exact_total. rewrite filter_cons.
  destruct (decide (ds_Name r = n)); simpl; done.
Qed.

Lemma sum_indicator_absent (x : string) (v : Z) ns :
  x ∉ ns → sum_seconds ((λ n, if decide (x = n) then v else 0) <$> ns) = 0.
Proof.
  induction ns as [|m ns IH]; [done|].
  rewrite not_elem_of_cons. intros [Hm Hn].
  rewrite fmap_cons, sum_seconds_cons, decide_False by done. by rewrite IH.
Qed.

Lemma sum_indicator (x : string) (v : Z) ns :
  NoDup ns → x ∈ ns →
  sum_seconds ((λ n, if decide (x = n) then v else 0) <$> ns) = v.
Proof.
  induction 1 as [|n ns Hn Hnd IH]; intros Hx; [by apply elem_of_nil in Hx|].
  rewrite fmap_cons, sum_seconds_cons. destruct (decide (x = n)) as [->|Hne].
  - rewrite sum_indicator_absent by done. lia.
  - apply elem_of_cons in Hx as [?|Hx]; [done|]. by rewrite IH.
Qed.

Lemma sum_seconds_add (f g : string → Z) ns :
  sum_seconds ((λ n, f n + g n) <$> ns)
  = sum_seconds (f <$> ns) + sum_seconds (g <$> ns).
Proof.
  induction ns as [|n ns IH]; [done|].
  rewrite !fmap_cons, !sum_seconds_cons, IH. lia.
Qed.

(** The exact totals of the groups add up to the total of the rows. *)
Lemma exact_totals_sum rows ns :
  NoDup ns → (∀ r, r ∈ rows → ds_Name r ∈ ns) →
  sum_seconds (exact_total rows <$> ns)
  = sum_seconds (ds_TotalSeconds <$> rows).
Proof.
  intros Hnd. induction rows as [|r rows IH]; intros Hin.
  - clear Hnd Hin. induction ns as [|n ns IH]; [done|].
    by rewrite fmap_cons, sum_seconds_cons, IH.
  - rewrite fmap_cons, sum_seconds_cons.
    rewrite <- IH by (intros; apply Hin; by right).
    rewrite (list_fmap_ext (exact_total (r :: rows))
               (λ n, (if decide (ds_Name r = n) then ds_TotalSeconds r else 0)
                     + exact_total rows n) ns)
      by (intros; apply exact_total_cons).
    rewrite (sum_seconds_add
               (λ n, if decide (ds_Name r = n) then ds_TotalSeconds r else 0)
               (exact_total rows)).
    rewrite sum_indicator; [done|done|]. apply Hin. by left.
Qed.

(** Where the accumulations are exact, the sum of a group is the exact
    one. *)
Lemma group_sum_exact env g :
  exact_sums env → group_sum env g = sum_seconds (ds_TotalSeconds <$> g).
Proof.
  intros H. destruct g as [|r [|r' g]]; simpl; [apply H| lia |apply H].
Qed.

Section Aggregation.
Context (env : Env) (d : DB) (start end_ : Date) (statType : string).

Let rows := filter (in_range start end_ statType) (day_stats d).
Let groups :=
  (λ n, {| as_Name := n; as_TotalSeconds := group_total env rows n |})
    <$> remove_dups (ds_Name <$> rows).

Lemma select_aggregated_perm :
  select_aggregated env d start end_ statType ≡ₚ groups.
Proof. unfold select_aggregated. apply merge_sort_Permutation. Qed.

Lemma groups_names : as_Name <$> groups = remove_dups (ds_Name <$> rows).
Proof.
  unfold groups. rewrite <- list_fmap_compose.
  rewrite <- (list_fmap_id (remove_dups _)) at 2.
  by apply list_fmap_ext.
Qed.

Lemma select_aggregated_names :
  as_Name <$> select_aggregated env d start end_ statType
  ≡ₚ remove_dups (ds_Name <$> rows).
Proof. by rewrite select_aggregated_perm, groups_names. Qed.

Lemma select_aggregated_entry a :
  a ∈ select_aggregated env d start end_ statType →
  as_TotalSeconds a = group_total env rows (as_Name a).
Proof.
  rewrite select_aggregated_perm. unfold groups.
  rewrite list_elem_of_fmap. by intros (n & -> & _).
Qed.

Lemma select_aggregated_sum :
  exact_sums env →
  sum_seconds
    (as_TotalSeconds <$> select_aggregated env d start end_ statType)
  = sum_seconds (ds_TotalSeconds <$> rows).
Proof.
  intros Hexact.
  rewrite (sum_seconds_perm _ (as_TotalSeconds <$> groups))
    by (by rewrite select_aggregated_perm).
  unfold groups. rewrite <- list_fmap_compose.
  rewrite <- (exact_totals_sum rows (remove_dups (ds_Name <$> rows))).
  - f_equal. apply list_fmap_ext. intros i n _. simpl.
    unfold group_total. by apply group_sum_exact.
  - apply NoDup_remove_dups.
  - intros r Hr. apply elem_of_remove_dups. by apply list_elem_of_fmap_2.
Qed.

End Aggregation.

(** C8.  The aggregation query returns one entry per distinct name of the
    rows of the type in the range, in descending order of the values.
    The value of an entry is SQLite's [SUM] of [total_seconds] over the
    rows of that name: the total of the row when the name has one row, and
    otherwise the floating-point accumulation over its rows, which exact
    addition does not model and no law is assumed of.  Where the
    accumulations are exact (whole numbers of seconds), the value is the
    exact sum and the returned totals add up to the total of the rows.
    For language rows with totals A:100 and B:300 the result is
    [[B:300; A:100]], adding up to 400 (see
    [aggregation_correct_witness]). *)
Theorem aggregation_correct env start end_ statType w :
  faults env (trace w)
    (QueryAggregatedStats (Format start) (Format end_) statType) = false →
  let rows :=
    filter (in_range (Format start) (Format end_) statType)
      (day_stats (db w)) in
  let r := (GetAggregatedStats env start end_ statType w).1 in
  r.2 = None
  ∧ NoDup (as_Name <$> r.1)
  ∧ (∀ n, n ∈ as_Name <$> r.1 ↔ n ∈ ds_Name <$> rows)
  ∧ (∀ a, a ∈ r.1 →
       let g := filter (λ x, ds_Name x = as_Name a) rows in
       (∀ x, g = [x] → as_TotalSeconds a = ds_TotalSeconds x)
       ∧ ((2 ≤ length g)%nat → as_TotalSeconds a = sumOf env g))
  ∧ Sorted total_desc r.1
  ∧ (exact_sums env →
       (∀ a, a ∈ r.1 → as_TotalSeconds a = exact_total rows (as_Name a))
       ∧ sum_seconds (as_TotalSeconds <$> r.1)
         = sum_seconds (ds_TotalSeconds <$> rows)).
Proof.
  intros Hq. cbv zeta. unfold GetAggregatedStats. run. rewrite Hq. simpl.
  split; [done|]. split; [|split; [|split; [|split]]].
  - rewrite select_aggregated_names. apply NoDup_remove_dups.
  - intros n. rewrite select_aggregated_names. apply elem_of_remove_dups.
  - intros a Ha. rewrite (select_aggregated_entry _ _ _ _ _ _ Ha).
    unfold group_total. split.
    + by intros x ->.
    + intros Hlen.
      destruct (filter _ _) as [|x [|y g]]; simpl in *; (done || lia).
  - unfold select_aggregated. apply Sorted_merge_sort, _.
  - intros Hexact. split.
    + intros a Ha. rewrite (select_aggregated_entry _ _ _ _ _ _ Ha).
      unfold group_total, exact_total. by apply group_sum_exact.
    + by apply select_aggregated_sum.
Qed.

Lemma noFaults_ok up order : store_ok (mkEnv up noFaults order).
Proof. by intros h op. Qed.

(** C1, counterexample.  A day has one stored duration; the service has
    four; the insert of the second new row fails.  The step returns that
    row's error and the day is left with no duration at all. *)
Lemma replace_is_not_atomic :
  let env := mkEnv sampleRemote (failRowsOf TDurations) (λ l, l) in
  let r := syncDurations env sampleDay staleWorld in
  r.1 = Some (StoreError (StmtExec (RowDuration
          {| d_Day := sampleDay; d_Project := "blog"; d_StartTime := 200;
             d_Duration := 60; d_Dependencies := "" |})))
  ∧ durations_on sampleDay (db staleWorld) = [storedDuration sampleDay]
  ∧ durations_on sampleDay (db r.2) = []
  ∧ durations_on sampleDay (db r.2) ≠ durations_on sampleDay (db staleWorld).
Proof. vm_compute. repeat split; done. Qed.

(** C1, witness: a failing row in each of the four tables. *)
Lemma replace_after_row_failure_witness :
  let e1 := mkEnv sampleRemote (failRowsOf TDurations) (λ l, l) in
  let e2 := mkEnv sampleRemote (failRowsOf TProjectDurations) (λ l, l) in
  let e3 := mkEnv sampleRemote (failRowsOf THeartbeats) (λ l, l) in
  let e4 := mkEnv sampleRemote (failRowsOf TDayStats) (λ l, l) in
  durations_on sampleDay (db (syncDurations e1 sampleDay staleWorld).2) = []
  ∧ project_durations_on sampleDay
      (db (syncDurations e2 sampleDay staleWorld).2) = []
  ∧ heartbeats_on sampleDay (db (syncHeartbeats e3 sampleDay emptyWorld).2) = []
  ∧ day_stats_on sampleDay (db (syncSummary e4 sampleDay emptyWorld).2) = [].
Proof.
  intros e1 e2 e3 e4. split; [|split; [|split]].
  - eapply (proj1 (replace_after_row_failure e1 sampleDay staleWorld)).
    vm_compute. reflexivity.
  - eapply (proj1 (proj2 (replace_after_row_failure e2 sampleDay staleWorld))).
    vm_compute. reflexivity.
  - eapply (proj1 (proj2 (proj2
              (replace_after_row_failure e3 sampleDay emptyWorld)))).
    vm_compute. reflexivity.
  - eapply (proj2 (proj2 (proj2
              (replace_after_row_failure e4 sampleDay emptyWorld)))).
    vm_compute. reflexivity.
Defined.

(** C2, witness: the summary has total 5000 and the heartbeat fetch
    fails. *)
Lemma SyncDay_summary_decides_witness :
  let env := mkEnv heartbeatsDownRemote noFaults (λ l, l) in
  audit_ok env
  ∧ (syncHeartbeats env sampleDay emptyWorld).1 = Some (UpstreamError 503)
  ∧ (SyncDay env sampleDay emptyWorld).1 = None
  ∧ sync_log (db (SyncDay env sampleDay emptyWorld).2) !! Format sampleDay
    = Some {| sl_TotalSeconds := 5000; sl_Status := "success" |}.
Proof.
  intros env.
  assert (audit_ok env) as Hok by (by intros h day totalSeconds status).
  split; [exact Hok|]. split; [vm_compute; reflexivity|].
  exact (SyncDay_summary_decides env sampleDay emptyWorld Hok).
Defined.

(** C3, counterexample.  The count of the stored durations fails in the
    durations step: a statement has failed during [SyncDay], and [SyncDay]
    returns nil. *)
Lemma store_failure_is_swallowed :
  let env := mkEnv sampleRemote failDurationCount (λ l, l) in
  let r := SyncDay env sampleDay emptyWorld in
  any_fault env (trace emptyWorld) = false
  ∧ any_fault env (trace r.2) = true
  ∧ EvDb (QueryCountByDay TDurations (Format sampleDay)) ∈ trace r.2
  ∧ r.1 = None.
Proof.
  vm_compute. split; [done|]. split; [done|]. split; [|done].
  repeat first [apply list_elem_of_here | apply list_elem_of_further].
Qed.

(** C3, witness: the upsert of the summary fails (propagated), the count
    of the durations fails (not propagated). *)
Lemma SyncDay_store_failure_witness :
  let e1 := mkEnv sampleRemote failSummaryUpsert (λ l, l) in
  let e2 := mkEnv sampleRemote failDurationCount (λ l, l) in
  is_Some (SyncDay e1 sampleDay emptyWorld).1
  ∧ (SyncDay e2 sampleDay emptyWorld).1 = None.
Proof.
  intros e1 e2. split.
  - apply (proj1 (SyncDay_store_failure e1 sampleDay emptyWorld));
      vm_compute; reflexivity.
  - apply (proj2 (SyncDay_store_failure e2 sampleDay emptyWorld)).
    vm_compute. reflexivity.
Defined.

(** C4, witness: a first sync into the empty store, then a second one. *)
Lemma SyncDay_idempotent_witness :
  let w1 := (SyncDay sampleEnv sampleDay emptyWorld).2 in
  let w2 := (SyncDay reversedEnv sampleDay w1).2 in
  length (durations (db w1)) = 4%nat
  ∧ durations (db w2) = durations (db w1)
  ∧ heartbeats (db w2) = heartbeats (db w1)
  ∧ day_stats (db w2) = day_stats (db w1)
  ∧ db w2 = db w1.
Proof.
  split; [vm_compute; reflexivity|].
  apply (SyncDay_idempotent sampleEnv reversedEnv sampleDay emptyWorld).
  - reflexivity.
  - apply noFaults_ok.
  - apply noFaults_ok.
Defined.

(** C5, witness: the steps on the store of a day already synced. *)
Lemma staleness_skip_witness :
  db (syncDurations sampleEnv sampleDay syncedWorld).2 = db syncedWorld
  ∧ db (syncHeartbeats sampleEnv sampleDay syncedWorld).2 = db syncedWorld.
Proof.
  split.
  - eapply (proj1 (staleness_skip sampleEnv sampleDay syncedWorld)).
    + reflexivity.
    + vm_compute. lia.
  - eapply (proj2 (staleness_skip sampleEnv sampleDay syncedWorld)).
    + reflexivity.
    + vm_compute. lia.
Defined.

(** C6, counterexample.  Two runs on the same store, with the same remote
    responses and no failure, that range over the map of projects in two
    orders Go allows: the per-project fetches are issued in different
    orders. *)
Lemma fetch_order_depends_on_range_order :
  remote sampleEnv = remote reversedEnv
  ∧ faults sampleEnv = faults reversedEnv
  ∧ (∀ l, rangeOrder sampleEnv l ≡ₚ l)
  ∧ (∀ l, rangeOrder reversedEnv l ≡ₚ l)
  ∧ fetched_projects (trace (syncDurations sampleEnv sampleDay emptyWorld).2)
    = ["waka"; "blog"]
  ∧ fetched_projects (trace (syncDurations reversedEnv sampleDay emptyWorld).2)
    = ["blog"; "waka"].
Proof.
  split; [done|]. split; [done|]. split; [done|].
  split; [intros l; apply reverse_Permutation|].
  split; vm_compute; reflexivity.
Qed.

(** C6, witness: on an empty store the projects are fetched, here
    backwards; on the store of a day already synced none is. *)
Lemma project_fetches_follow_range_order_witness :
  (∃ fetched,
     fetched_projects
       (trace (syncDurations reversedEnv sampleDay emptyWorld).2)
     = fetched_projects (trace emptyWorld) ++ fetched
     ∧ fetched = ["blog"; "waka"])
  ∧ (∃ fetched,
       fetched_projects
         (trace (syncDurations reversedEnv sampleDay syncedWorld).2)
       = fetched_projects (trace syncedWorld) ++ fetched
       ∧ fetched = []).
Proof.
  split.
  - destruct (project_fetches_follow_range_order reversedEnv sampleDay
                emptyWorld (λ l, reverse_Permutation l))
      as (fetched & Htrace & _ & _ & _ & Hall & _).
    exists fetched. split; [exact Htrace|].
    rewrite (Hall (noFaults_ok _ _) _ eq_refl); [vm_compute; reflexivity|].
    vm_compute. lia.
  - destruct (project_fetches_follow_range_order reversedEnv sampleDay
                syncedWorld (λ l, reverse_Permutation l))
      as (fetched & Htrace & _ & _ & Hnone & _).
    exists fetched. split; [exact Htrace|].
    apply Hnone. vm_compute. lia.
Defined.

(** C7, witness: the summary step on the store of a day already
    synced. *)
Lemma summary_skip_witness :
  let r := syncSummary sampleEnv sampleDay syncedWorld in
  day_summaries (db syncedWorld) !! Format sampleDay = Some 5000
  ∧ r.1 = (5000, None)
  ∧ db r.2 = db syncedWorld
  ∧ ∃ new, trace r.2 = new ++ trace syncedWorld
           ∧ forallb reads_only new = true.
Proof.
  split; [vm_compute; reflexivity|].
  apply (summary_skip sampleEnv sampleDay syncedWorld
           {| sr_Data := [sampleSummary] |} sampleSummary []).
  - reflexivity.
  - reflexivity.
  - vm_compute. reflexivity.
  - reflexivity.
Defined.

(** The example of C8, evaluated. *)
Lemma aggregation_example :
  (GetAggregatedStats sampleEnv sampleDay (AddDate sampleDay 2) "language"
     statsWorld).1
  = ([ {| as_Name := "B"; as_TotalSeconds := 300 |};
       {| as_Name := "A"; as_TotalSeconds := 100 |} ], None).
Proof. vm_compute. reflexivity. Qed.

(** C8, witness: language rows over three days with totals A:100 and
    B:300. *)
Lemma aggregation_correct_witness :
  let r := (GetAggregatedStats sampleEnv sampleDay (AddDate sampleDay 2)
              "language" statsWorld).1 in
  r.1 = [ {| as_Name := "B"; as_TotalSeconds := 300 |};
          {| as_Name := "A"; as_TotalSeconds := 100 |} ]
  ∧ sum_seconds (as_TotalSeconds <$> r.1) = 400
  ∧ Sorted total_desc r.1.
Proof.
  intros r.
  destruct (aggregation_correct sampleEnv sampleDay (AddDate sampleDay 2)
              "language" statsWorld eq_refl)
    as (_ & _ & _ & _ & Hsorted & Hexact).
  destruct (Hexact (λ g, eq_refl)) as [_ Hsum].
  split; [vm_compute; reflexivity|]. split; [|exact Hsorted].
  etrans; [exact Hsum|]. vm_compute. reflexivity.
Defined.

(** C10, witness. *)
Lemma SyncDay_empty_summary_witness :
  let env := mkEnv emptySummaryRemote noFaults (λ l, l) in
  let w' := (SyncDay env sampleDay emptyWorld).2 in
  (SyncDay env sampleDay emptyWorld).1 = None
  ∧ day_summaries (db w') = day_summaries (db emptyWorld)
  ∧ day_stats (db w') = day_stats (db emptyWorld)
  ∧ sync_log (db w') !! Format sampleDay
    = Some {| sl_TotalSeconds := 0; sl_Status := "success" |}
  ∧ (IsDaySynced env sampleDay w').1 = (true, None).
Proof.
  intros env.
  apply (SyncDay_empty_summary env sampleDay emptyWorld {| sr_Data := [] |}).
  - reflexivity.
  - reflexivity.
  - by intros h day totalSeconds status.
  - by intros h.
Defined.

(** ** A day's sync and the other days *)

Section OtherDays.
Context (env : Env).

Lemma keeps_insert_tx_rows {X R} (f : DB → X) t (arg : R → RowArg) put rows :
  (∀ x d, x ∈ rows → f (put x d) = f d) →
  keeps f (insert_tx env t arg put rows).
Proof.
  intros H w.
  destruct (insert_tx_spec env t arg put rows w) as [[_ E]|(e & _ & E)];
    rewrite E; [|done].
  clear E. generalize (db w).
  induction rows as [|x rows IH]; intros d; simpl; [done|].
  rewrite IH.
  - apply H. by left.
  - intros y d' Hy. apply H. by right.
Qed.

Lemma filter_filter_other {A} (f : A → Date) (day other : Date) (l : list A) :
  other ≠ day →
  filter (λ r, f r = other) (filter (λ r, f r ≠ day) l)
  = filter (λ r, f r = other) l.
Proof.
  intros Hne. induction l as [|x l IH]; [done|].
  rewrite (filter_cons (λ r, f r ≠ day)), (filter_cons (λ r, f r = other) x l).
  destruct (decide (f x ≠ day)) as [Hx|Hx].
  - rewrite filter_cons. by rewrite IH.
  - rewrite IH. rewrite decide_False; [done|]. intros E. apply Hx. congruence.
Qed.

Lemma fetch_projects_day day ps acc w :
  Forall (λ r, pd_Day r = day) acc →
  Forall (λ r, pd_Day r = day) (fetch_projects env day ps acc w).1.
Proof.
  revert acc w. induction ps as [|p ps IH]; intros acc w Hacc; simpl; [done|].
  unfold GetDurationsWithProject. run.
  destruct (durationsWithProject _ _ _); simpl; apply IH; [done|].
  apply Forall_app. split; [done|]. apply Forall_fmap, Forall_forall. by intros.
Qed.

Lemma upsert_day_stat_other (other : Date) s l :
  Format (ds_Day s) ≠ other →
  filter (λ r, Format (ds_Day r) = other) (upsert_day_stat s l)
  = filter (λ r, Format (ds_Day r) = other) l.
Proof.
  intros Hs. induction l as [|r l IH]; simpl.
  - rewrite filter_cons. simpl. rewrite Format_Parse.
    by rewrite decide_False.
  - destruct (decide _) as [(E & _ & _)|_].
    + rewrite !filter_cons. simpl.
      rewrite !decide_False by congruence. done.
    + rewrite !filter_cons. by rewrite IH.
Qed.

(** The frame of the three steps, for a part of the store that the
    statements of the day do not reach. *)
Lemma keeps_syncDurations_day {X} (f : DB → X) day :
  (∀ d, f (set_durations
              (filter (λ r, Format (d_Day r) ≠ Format day) (durations d)) d)
        = f d) →
  (∀ x d, d_Day x = day → f (put_duration x d) = f d) →
  (∀ d, f (set_project_durations
              (filter (λ r, Format (pd_Day r) ≠ Format day)
                 (project_durations d)) d) = f d) →
  (∀ x d, pd_Day x = day → f (put_project_duration x d) = f d) →
  keeps f (syncDurations env day).
Proof.
  intros H1 H2 H3 H4.
  unfold syncDurations, GetDurations, CountDurationsByDay,
    DeleteDurationsByDay, InsertDurations, slog_Info.
  apply keeps_bind; [frame|]. intros [c|resp]; [frame|].
  destruct (decide _); [frame|].
  apply keeps_bind; [frame|]. intros [cnt [e|]]; [frame|].
  destruct (decide _); [frame|].
  apply keeps_bind; [by apply keeps_exec|]. intros [e|]; [frame|].
  apply keeps_bind.
  { apply keeps_insert_tx_rows. intros x d Hx. apply H2.
    apply list_elem_of_fmap in Hx as (y & -> & _). done. }
  intros [e|]; [frame|].
  intros w.
  unfold bind at 1.
  match goal with |- context [fetch_projects env day ?ps ?acc w] =>
    pose proof (fetch_projects_day day ps acc w (Forall_nil_2 _)) as Hday;
    pose proof (keeps_fetch_projects env f day ps acc w) as K;
    destruct (fetch_projects env day ps acc w) as [pds w4] end; simpl in *.
  rewrite <- K.
  assert (keeps f
    (let* err :=
       if decide (0 < length pds)%nat
       then let* err := DeleteProjectDurationsByDay env day in
            match err with
            | Some err0 => ret (Some err0)
            | None => InsertProjectDurations env pds
            end
       else ret None in
     match err with
     | Some err0 => ret (Some err0)
     | None => let* _ := emit (EvLog LevelInfo "synced durations") in ret None
     end)) as K2; [|apply K2].
  apply keeps_bind; [|intros [e|]; frame].
  destruct (decide _); [|frame].
  unfold DeleteProjectDurationsByDay, InsertProjectDurations.
  apply keeps_bind; [by apply keeps_exec|]. intros [e|]; [frame|].
  apply keeps_insert_tx_rows. intros x d Hx. apply H4.
  by eapply Forall_forall in Hday.
Qed.

Lemma keeps_syncHeartbeats_day {X} (f : DB → X) day :
  (∀ d, f (set_heartbeats
              (filter (λ r, Format (hb_Day r) ≠ Format day) (heartbeats d)) d)
        = f d) →
  (∀ x d, hb_Day x = day → f (put_heartbeat x d) = f d) →
  keeps f (syncHeartbeats env day).
Proof.
  intros H1 H2.
  unfold syncHeartbeats, GetHeartbeats, CountHeartbeatsByDay,
    DeleteHeartbeatsByDay, InsertHeartbeats, slog_Info.
  apply keeps_bind; [frame|]. intros [c|resp]; [frame|].
  destruct (decide _); [frame|].
  apply keeps_bind; [frame|]. intros [cnt [e|]]; [frame|].
  destruct (decide _); [frame|].
  apply keeps_bind; [by apply keeps_exec|]. intros [e|]; [frame|].
  apply keeps_bind; [|intros [e|]; frame].
  apply keeps_insert_tx_rows. intros x d Hx. apply H2.
  apply list_elem_of_fmap in Hx as (y & -> & _). done.
Qed.

Lemma keeps_syncSummary_day {X} (f : DB → X) day :
  (∀ t d, f (set_day_summaries (<[Format day := t]> (day_summaries d)) d)
          = f d) →
  (∀ d, f (set_day_stats
              (filter (λ r, Format (ds_Day r) ≠ Format day) (day_stats d)) d)
        = f d) →
  (∀ x d, ds_Day x = day → f (put_day_stat x d) = f d) →
  keeps f (syncSummary env day).
Proof.
  intros H1 H2 H3.
  unfold syncSummary, GetSummaries, GetDaySummary, UpsertDaySummary,
    DeleteDayStatsByDay, InsertDayStats, slog_Info.
  apply keeps_bind; [frame|]. intros [c|resp]; [frame|].
  destruct (sr_Data resp) as [|summary rest]; [frame|].
  apply keeps_bind; [frame|]. intros [existing [e|]]; [frame|].
  destruct (decide _); [frame|].
  apply keeps_bind; [by apply keeps_exec|]. intros [e|]; [frame|].
  apply keeps_bind; [by apply keeps_exec|]. intros [e|]; [frame|].
  apply keeps_bind; [|intros [e|]; frame].
  destruct (decide _); [|frame].
  apply keeps_insert_tx_rows. intros x d Hx. apply H3.
  unfold stats_of in Hx.
  repeat (apply elem_of_app in Hx as [Hx|Hx];
          [by apply list_elem_of_fmap in Hx as (y & -> & _)|]).
  by apply list_elem_of_fmap in Hx as (y & -> & _).
Qed.

Lemma keeps_SyncDay_day {X} (f : DB → X) day :
  (∀ d, f (set_durations
              (filter (λ r, Format (d_Day r) ≠ Format day) (durations d)) d)
        = f d) →
  (∀ x d, d_Day x = day → f (put_duration x d) = f d) →
  (∀ d, f (set_project_durations
              (filter (λ r, Format (pd_Day r) ≠ Format day)
                 (project_durations d)) d) = f d) →
  (∀ x d, pd_Day x = day → f (put_project_duration x d) = f d) →
  (∀ d, f (set_heartbeats
              (filter (λ r, Format (hb_Day r) ≠ Format day) (heartbeats d)) d)
        = f d) →
  (∀ x d, hb_Day x = day → f (put_heartbeat x d) = f d) →
  (∀ t d, f (set_day_summaries (<[Format day := t]> (day_summaries d)) d)
          = f d) →
  (∀ d, f (set_day_stats
              (filter (λ r, Format (ds_Day r) ≠ Format day) (day_stats d)) d)
        = f d) →
  (∀ x d, ds_Day x = day → f (put_day_stat x d) = f d) →
  (∀ l d, f (set_sync_log (<[Format day := l]> (sync_log d)) d) = f d) →
  keeps f (SyncDay env day).
Proof.
  intros H1 H2 H3 H4 H5 H6 H7 H8 H9 H10.
  pose proof (keeps_syncDurations_day f day H1 H2 H3 H4) as KD.
  pose proof (keeps_syncHeartbeats_day f day H5 H6) as KH.
  pose proof (keeps_syncSummary_day f day H7 H8 H9) as KS.
  unfold SyncDay, RecordSync, slog_Info, slog_Error.
  apply keeps_bind; [frame|]. intros _.
  apply keeps_bind; [done|]. intros [T [e|]].
  - apply keeps_bind; [frame|]. intros _.
    apply keeps_bind; [by apply keeps_exec|]. frame.
  - apply keeps_bind; [done|]. intros e1.
    apply keeps_bind; [destruct e1; frame|]. intros _.
    apply keeps_bind; [done|]. intros e2.
    apply keeps_bind; [destruct e2; frame|]. intros _.
    apply keeps_bind; [by apply keeps_exec|]. frame.
Qed.

End OtherDays.

(** X1.  Syncing a day never touches what the store holds for another
    day. *)
Theorem SyncDay_other_days env day other w :
  Format other ≠ Format day →
  let d' := db (SyncDay env day w).2 in
  durations_on other d' = durations_on other (db w)
  ∧ project_durations_on other d' = project_durations_on other (db w)
  ∧ heartbeats_on other d' = heartbeats_on other (db w)
  ∧ day_stats_on other d' = day_stats_on other (db w)
  ∧ day_summaries d' !! Format other = day_summaries (db w) !! Format other
  ∧ sync_log d' !! Format other = sync_log (db w) !! Format other.
Proof.
  intros Hne. cbv zeta.
  assert (∀ x, Format (Parse (Format x)) = Format x) as FP
    by (intros; apply Format_Parse).
  split; [|split; [|split; [|split; [|split]]]].
  - apply (keeps_SyncDay_day env (durations_on other)); try done.
    + intros d. unfold durations_on. simpl.
      by apply (filter_filter_other (λ r, Format (d_Day r))).
    + intros x d <-. unfold durations_on, put_duration. simpl.
      rewrite filter_app, filter_cons. simpl.
      rewrite FP, decide_False by done. by rewrite app_nil_r.
  - apply (keeps_SyncDay_day env (project_durations_on other)); try done.
    + intros d. unfold project_durations_on. simpl.
      by apply (filter_filter_other (λ r, Format (pd_Day r))).
    + intros x d <-. unfold project_durations_on, put_project_duration. simpl.
      rewrite filter_app, filter_cons. simpl.
      rewrite FP, decide_False by done. by rewrite app_nil_r.
  - apply (keeps_SyncDay_day env (heartbeats_on other)); try done.
    + intros d. unfold heartbeats_on. simpl.
      by apply (filter_filter_other (λ r, Format (hb_Day r))).
    + intros x d <-. unfold heartbeats_on, put_heartbeat. simpl.
      rewrite filter_app, filter_cons. simpl.
      rewrite FP, decide_False by done. by rewrite app_nil_r.
  - apply (keeps_SyncDay_day env (day_stats_on other)); try done.
    + intros d. unfold day_stats_on. simpl.
      by apply (filter_filter_other (λ r, Format (ds_Day r))).
    + intros x d <-. unfold day_stats_on, put_day_stat. simpl.
      by apply upsert_day_stat_other.
  - apply (keeps_SyncDay_day env (λ d, day_summaries d !! Format other));
      try done.
    intros t d. simpl. by apply lookup_insert_ne.
  - apply (keeps_SyncDay_day env (λ d, sync_log d !! Format other)); try done.
    intros l d. simpl. by apply lookup_insert_ne.
Qed.

#[global] Instance by_time_total : Total by_time.
Proof. intros a b. unfold by_time. lia. Qed.

(** ** What a replacing sync stores *)

Lemma foldl_put_duration rows d :
  durations (foldl (λ d x, put_duration x d) d rows)
  = durations d
    ++ ((λ r, {| d_Day := Parse (Format (d_Day r)); d_Project := d_Project r;
                 d_StartTime := d_StartTime r; d_Duration := d_Duration r;
                 d_Dependencies := d_Dependencies r |}) <$> rows).
Proof.
  revert d. induction rows as [|x rows IH]; intros d; simpl.
  - by rewrite app_nil_r.
  - rewrite IH. simpl. by rewrite <- app_assoc.
Qed.

Lemma foldl_put_project_duration rows d :
  project_durations (foldl (λ d x, put_project_duration x d) d rows)
  = project_durations d
    ++ ((λ r, {| pd_Day := Parse (Format (pd_Day r));
                 pd_Project := pd_Project r; pd_Branch := pd_Branch r;
                 pd_Entity := pd_Entity r; pd_Language := pd_Language r;
                 pd_Type := pd_Type r; pd_StartTime := pd_StartTime r;
                 pd_Duration := pd_Duration r;
                 pd_Dependencies := pd_Dependencies r |}) <$> rows).
Proof.
  revert d. induction rows as [|x rows IH]; intros d; simpl.
  - by rewrite app_nil_r.
  - rewrite IH. simpl. by rewrite <- app_assoc.
Qed.

Lemma foldl_put_heartbeat rows d :
  heartbeats (foldl (λ d x, put_heartbeat x d) d rows)
  = heartbeats d
    ++ ((λ h, {| hb_Day := Parse (Format (hb_Day h)); hb_Entity := hb_Entity h;
                 hb_Type := hb_Type h; hb_Category := hb_Category h;
                 hb_Time := hb_Time h; hb_Project := hb_Project h;
                 hb_Branch := hb_Branch h; hb_Language := hb_Language h;
                 hb_IsWrite := hb_IsWrite h; hb_MachineID := hb_MachineID h;
                 hb_Lines := hb_Lines h; hb_LineNo := hb_LineNo h;
                 hb_CursorPos := hb_CursorPos h |}) <$> rows).
Proof.
  revert d. induction rows as [|x rows IH]; intros d; simpl.
  - by rewrite app_nil_r.
  - rewrite IH. simpl. by rewrite <- app_assoc.
Qed.

Lemma filter_day_all {A} (f : A → Date) (day : Date) (l : list A) :
  Forall (λ r, f r = day) l → filter (λ r, f r = day) l = l.
Proof.
  induction 1 as [|x l Hx _ IH]; [done|].
  rewrite filter_cons, decide_True by done. by rewrite IH.
Qed.

(** The rows of a day after the day's rows were deleted and a batch of
    rows of that day appended. *)
Lemma replaced_day {A} (f : A → Date) (day : Date) (old new : list A) :
  Forall (λ r, f r = day) new →
  filter (λ r, f r = day) (filter (λ r, f r ≠ day) old ++ new) = new.
Proof.
  intros H. rewrite filter_app, filter_other_day_nil. simpl.
  by apply filter_day_all.
Qed.

Lemma fetch_projects_result env day ps acc w :
  (fetch_projects env day ps acc w).1
  = acc ++ (ps ≫= λ project,
      match durationsWithProject (remote env) (Format day) project with
      | inl _ => []
      | inr projResp =>
          (λ d, {| pd_Day := day; pd_Project := project;
                   pd_Entity := dd_Entity d; pd_Language := dd_Language d;
                   pd_Branch := dd_Branch d; pd_Type := dd_Type d;
                   pd_StartTime := dd_Time d; pd_Duration := dd_Duration d;
                   pd_Dependencies := dd_Dependencies d |})
            <$> dr_Data projResp
      end).
Proof.
  revert acc w. induction ps as [|p ps IH]; intros acc w; simpl.
  - by rewrite app_nil_r.
  - unfold GetDurationsWithProject. run.
    destruct (durationsWithProject _ _ _) as [c|resp]; simpl; rewrite IH.
    + done.
    + by rewrite <- app_assoc.
Qed.

Section Replaces.
Context (env : Env) (Hok : store_ok env).

Lemma syncHeartbeats_replaces day w resp :
  heartbeatsOf (remote env) (Format day) = inr resp →
  (length (heartbeats_on day (db w)) < length (hr_Data resp))%nat →
  heartbeats (db (syncHeartbeats env day w).2)
  = filter (λ r, Format (hb_Day r) ≠ Format day) (heartbeats (db w))
    ++ stored_heartbeats day (hr_Data resp).
Proof.
  intros Hr Hlt.
  unfold syncHeartbeats, GetHeartbeats, CountHeartbeatsByDay,
    DeleteHeartbeatsByDay, InsertHeartbeats. run. rewrite Hr. simpl.
  destruct (decide (length (hr_Data resp) = 0%nat)) as [E|Hn]; simpl; [lia|].
  rewrite !Hok. simpl.
  destruct (decide (_ ≤ _)%nat) as [Hle|_]; simpl.
  { unfold heartbeats_on in Hlt. lia. }
  rewrite !Hok. simpl.
  match goal with |- context [insert_tx env THeartbeats ?a ?p ?l ?w'] =>
    destruct (insert_tx_ok env THeartbeats a p l w' Hok) as [H1 H2];
    destruct (insert_tx env THeartbeats a p l w') as [[e|] w3] end;
    simpl in *; [done|].
  rewrite H2, foldl_put_heartbeat. simpl. f_equal.
  unfold stored_heartbeats. rewrite <- list_fmap_compose. done.
Qed.

Lemma syncDurations_replaces day w resp :
  durationsOf (remote env) (Format day) = inr resp →
  (length (durations_on day (db w)) < length (dr_Data resp))%nat →
  let d' := db (syncDurations env day w).2 in
  let fetched :=
    stored_project_durations (remote env) day
      (rangeOrder env (map_to_list (projects_of (dr_Data resp))).*1) in
  durations d'
  = filter (λ r, Format (d_Day r) ≠ Format day) (durations (db w))
    ++ stored_durations day (dr_Data resp)
  ∧ project_durations d'
    = if decide (fetched = []) then project_durations (db w)
      else filter (λ r, Format (pd_Day r) ≠ Format day)
             (project_durations (db w)) ++ fetched.
Proof.
  intros Hr Hlt. cbv zeta.
  unfold syncDurations, GetDurations, CountDurationsByDay,
    DeleteDurationsByDay, InsertDurations. run. rewrite Hr. simpl.
  destruct (decide (length (dr_Data resp) = 0%nat)) as [E|Hn]; simpl; [lia|].
  rewrite !Hok. simpl.
  destruct (decide (_ ≤ _)%nat) as [Hle|_]; simpl.
  { unfold durations_on in Hlt. lia. }
  rewrite !Hok. simpl.
  match goal with |- context [insert_tx env TDurations ?a ?p ?l ?w'] =>
    destruct (insert_tx_ok env TDurations a p l w' Hok) as [H1 H2];
    pose proof (keeps_insert_tx env project_durations TDurations a p l
                  (λ _ _, eq_refl) w') as K0;
    destruct (insert_tx env TDurations a p l w') as [[e|] w3] end;
    simpl in *; [done|].
  assert (durations (db w3)
          = filter (λ r, Format (d_Day r) ≠ Format day) (durations (db w))
            ++ stored_durations day (dr_Data resp)) as D3.
  { rewrite H2, foldl_put_duration. simpl. f_equal.
    unfold stored_durations. by rewrite <- list_fmap_compose. }
  match goal with |- context [fetch_projects env day ?ps ?acc w3] =>
    pose proof (keeps_fetch_projects env (λ d, d) day ps acc w3) as K';
    pose proof (fetch_projects_result env day ps acc w3) as R;
    destruct (fetch_projects env day ps acc w3) as [pds w4] end; simpl in *.
  set (ps := rangeOrder env (map_to_list (projects_of (dr_Data resp))).*1) in *.
  assert ((λ r : ProjectDuration,
             {| pd_Day := Parse (Format (pd_Day r));
                pd_Project := pd_Project r; pd_Branch := pd_Branch r;
                pd_Entity := pd_Entity r; pd_Language := pd_Language r;
                pd_Type := pd_Type r; pd_StartTime := pd_StartTime r;
                pd_Duration := pd_Duration r;
                pd_Dependencies := pd_Dependencies r |}) <$> pds
          = stored_project_durations (remote env) day ps) as Hst.
  { rewrite R. unfold stored_project_durations. clear.
    induction ps as [|p ps IH]; [done|].
    rewrite !bind_cons, fmap_app, IH. f_equal.
    destruct (durationsWithProject _ _ _); [done|].
    by rewrite <- list_fmap_compose. }
  assert (pds = [] ↔ stored_project_durations (remote env) day ps = []) as Hnil.
  { rewrite <- Hst. split; [by intros ->|]. by intros ?%fmap_nil_inv. }
  destruct (decide (0 < length pds)%nat) as [Hpos|Hzero]; simpl.
  - rewrite decide_False.
    2:{ intros E. apply Hnil in E. rewrite E in Hpos. simpl in Hpos. lia. }
    unfold DeleteProjectDurationsByDay, InsertProjectDurations. run.
    rewrite !Hok. simpl.
    match goal with |- context [insert_tx env TProjectDurations ?a ?p ?l ?w'] =>
      destruct (insert_tx_ok env TProjectDurations a p l w' Hok) as [H3 H4];
      pose proof (keeps_insert_tx env durations TProjectDurations a p l
                    (λ _ _, eq_refl) w') as K;
      destruct (insert_tx env TProjectDurations a p l w') as [[e|] w5] end;
      simpl in *; [done|].
    split.
    + by rewrite K, K'.
    + rewrite H4, foldl_put_project_duration. simpl.
      by rewrite Hst, K', K0.
  - rewrite decide_True.
    2:{ apply Hnil. destruct pds; [done|]. simpl in Hzero. lia. }
    rewrite K'. by rewrite K0.
Qed.

End Replaces.

Section DayTables.
Context (env : Env) (Hok : store_ok env).

(** When the summary step returns no error, the durations and the
    heartbeats of the store after [SyncDay] are those the two steps leave,
    each run on a store whose table is still that of before. *)
Lemma SyncDay_steps day w :
  (summary_outcome (remote env) day).2 = None →
  ∃ wa wb,
    durations (db wa) = durations (db w)
    ∧ project_durations (db wa) = project_durations (db w)
    ∧ heartbeats (db wb) = heartbeats (db w)
    ∧ durations (db (SyncDay env day w).2)
      = durations (db (syncDurations env day wa).2)
    ∧ project_durations (db (SyncDay env day w).2)
      = project_durations (db (syncDurations env day wa).2)
    ∧ heartbeats (db (SyncDay env day w).2)
      = heartbeats (db (syncHeartbeats env day wb).2).
Proof.
  intros Hout. rewrite SyncDay_unfold. cbv zeta.
  pose proof (syncSummary_outcome env Hok day (slog_Info "syncing data" w).2)
    as Hs.
  pose proof (keeps_syncSummary env durations day
                (λ _ _, eq_refl) (λ _ _, eq_refl)
                (slog_Info "syncing data" w).2) as Ka.
  pose proof (keeps_syncSummary env project_durations day
                (λ _ _, eq_refl) (λ _ _, eq_refl)
                (slog_Info "syncing data" w).2) as Kb.
  pose proof (keeps_syncSummary env heartbeats day
                (λ _ _, eq_refl) (λ _ _, eq_refl)
                (slog_Info "syncing data" w).2) as Kc.
  destruct (syncSummary env day _) as [[T [e|]] wa]; simpl in *.
  { rewrite <- Hs in Hout. done. }
  pose proof (keeps_syncDurations env heartbeats day
                (λ _ _, eq_refl) (λ _ _, eq_refl) wa) as Kd.
  exists wa.
  destruct (syncDurations env day wa) as [e1 wb]; simpl in *.
  set (w3 := match e1 with Some _ => _ | None => wb end).
  assert (db w3 = db wb) as E3 by (subst w3; by destruct e1).
  exists w3.
  pose proof (keeps_syncHeartbeats env durations day (λ _ _, eq_refl) w3) as Ke.
  pose proof (keeps_syncHeartbeats env project_durations day
                (λ _ _, eq_refl) w3) as Kf.
  destruct (syncHeartbeats env day w3) as [e2 wc]; simpl in *.
  set (w5 := match e2 with Some _ => _ | None => wc end).
  assert (db w5 = db wc) as E5 by (subst w5; by destruct e2).
  rewrite !RecordSync_db by done. simpl. rewrite !E5, Ke, Kf, !E3, Kd.
  done.
Qed.

End DayTables.

(** X2.  After [SyncDay] of a day whose summary was fetched and of which
    the store held fewer durations than the service has, the day's
    durations in the store are exactly those of the service, in its
    order. *)
Theorem SyncDay_replaces_durations env day w resp :
  store_ok env →
  (summary_outcome (remote env) day).2 = None →
  durationsOf (remote env) (Format day) = inr resp →
  (length (durations_on day (db w)) < length (dr_Data resp))%nat →
  durations_on day (db (SyncDay env day w).2)
  = stored_durations day (dr_Data resp).
Proof.
  intros Hok Hout Hr Hlt. unfold durations_on in *.
  destruct (SyncDay_steps env Hok day w Hout)
    as (wa & wb & Ea & _ & _ & -> & _ & _).
  rewrite <- Ea in Hlt.
  rewrite (proj1 (syncDurations_replaces env Hok day wa resp Hr Hlt)).
  apply (replaced_day (λ r, Format (d_Day r))).
  apply Forall_fmap, Forall_forall. intros x _. simpl. apply Format_Parse.
Qed.

(** X3.  In the same run the day's project durations are replaced by the
    rows of the per-project fetches that succeeded; when these give no
    row at all (every fetch failed, or returned nothing) the project
    durations the day had are kept, beside the new durations. *)
Theorem SyncDay_project_durations env day w resp :
  store_ok env →
  (summary_outcome (remote env) day).2 = None →
  durationsOf (remote env) (Format day) = inr resp →
  (length (durations_on day (db w)) < length (dr_Data resp))%nat →
  let fetched :=
    stored_project_durations (remote env) day
      (rangeOrder env (map_to_list (projects_of (dr_Data resp))).*1) in
  project_durations_on day (db (SyncDay env day w).2)
  = if decide (fetched = []) then project_durations_on day (db w)
    else fetched.
Proof.
  intros Hok Hout Hr Hlt. cbv zeta.
  unfold durations_on, project_durations_on in *.
  destruct (SyncDay_steps env Hok day w Hout)
    as (wa & wb & Ea & Eb & _ & _ & -> & _).
  rewrite <- Ea in Hlt.
  rewrite (proj2 (syncDurations_replaces env Hok day wa resp Hr Hlt)).
  destruct (decide _) as [E|E]; [by rewrite Eb|].
  apply (replaced_day (λ r, Format (pd_Day r))).
  unfold stored_project_durations. apply Forall_forall. intros x Hx.
  apply list_elem_of_bind in Hx as (p & Hx & _).
  destruct (durationsWithProject _ _ _); [by apply elem_of_nil in Hx|].
  apply list_elem_of_fmap in Hx as (y & -> & _). simpl. apply Format_Parse.
Qed.

(** X4.  After [SyncDay] of a day whose summary was fetched and of which
    the store held fewer heartbeats than the service has, reading the
    day's heartbeats back returns the heartbeats of the service as they
    were stored, ordered by time, each with the day that the scan of the
    stored date gives: the day itself when the driver yields the date as
    it was written, and the zero time when it yields a time stamp, which
    the parser rejects. *)
Theorem heartbeats_round_trip env rd time_Parse day w resp :
  store_ok env →
  (summary_outcome (remote env) day).2 = None →
  heartbeatsOf (remote env) (Format day) = inr resp →
  (length (heartbeats_on day (db w)) < length (hr_Data resp))%nat →
  failing rd (SelectHeartbeatsByDay (Format day)) = false →
  let r := GetHeartbeatsByDay rd time_Parse day (db (SyncDay env day w).2) in
  r.2 = None
  ∧ r.1 ≡ₚ scan_heartbeat rd time_Parse
             <$> stored_heartbeats day (hr_Data resp)
  ∧ Sorted by_time r.1
  ∧ (time_Parse (dayText rd (Format day)) = Some (Parse (Format day)) →
     r.1 ≡ₚ stored_heartbeats day (hr_Data resp))
  ∧ (time_Parse (dayText rd (Format day)) = None →
     Forall (λ h, hb_Day h = zeroTime) r.1).
Proof.
  intros Hok Hout Hr Hlt Hq. cbv zeta.
  unfold GetHeartbeatsByDay. rewrite Hq. simpl.
  unfold heartbeats_on in *.
  destruct (SyncDay_steps env Hok day w Hout)
    as (wa & wb & _ & _ & Ec & _ & _ & ->).
  rewrite <- Ec in Hlt.
  rewrite (syncHeartbeats_replaces env Hok day wb resp Hr Hlt).
  rewrite (replaced_day (λ r, Format (hb_Day r)))
    by (apply Forall_fmap, Forall_forall; intros x _; simpl;
        apply Format_Parse).
  assert ((λ h, {| hb_Day := Parse (Format day); hb_Entity := hd_Entity h;
                   hb_Type := hd_Type h; hb_Category := hd_Category h;
                   hb_Time := hd_Time h; hb_Project := hd_Project h;
                   hb_Branch := hd_Branch h; hb_Language := hd_Language h;
                   hb_IsWrite := hd_IsWrite h;
                   hb_MachineID := hd_MachineNameID h;
                   hb_Lines := hd_Lines h; hb_LineNo := hd_LineNo h;
                   hb_CursorPos := hd_CursorPos h |}) <$> hr_Data resp
          = stored_heartbeats day (hr_Data resp)) as E by done.
  rewrite ?E.
  split; [done|]. split; [apply merge_sort_Permutation|].
  split; [apply Sorted_merge_sort, _|]. split.
  - intros Hp. rewrite merge_sort_Permutation.
    rewrite <- (list_fmap_id (stored_heartbeats day (hr_Data resp))) at 2.
    apply reflexive_eq, list_fmap_ext. intros i h Hh.
    apply list_elem_of_lookup_2 in Hh.
    unfold stored_heartbeats in Hh.
    apply list_elem_of_fmap in Hh as (x & -> & _).
    unfold scan_heartbeat, scanned_day. simpl.
    by rewrite Format_Parse, Hp.
  - intros Hp. rewrite merge_sort_Permutation.
    apply Forall_fmap, Forall_forall. intros h Hh.
    unfold stored_heartbeats in Hh.
    apply list_elem_of_fmap in Hh as (x & -> & _).
    unfold compose, scan_heartbeat, scanned_day. simpl.
    by rewrite Format_Parse, Hp.
Qed.

(** ** The summary a sync stores *)

Lemma upsert_day_stat_fresh s l :
  (∀ r, r ∈ l →
     ¬ (Format (ds_Day r) = Format (ds_Day s)
        ∧ ds_Type r = ds_Type s ∧ ds_Name r = ds_Name s)) →
  upsert_day_stat s l = l ++ [stored_day_stat s].
Proof.
  induction l as [|r l IH]; intros H; simpl; [done|].
  rewrite decide_False by (apply H; by left).
  rewrite IH; [done|]. intros r' Hr'. apply H. by right.
Qed.

Lemma foldl_upsert_fresh day stats base :
  Forall (λ s, Format (ds_Day s) = day) stats →
  Forall (λ r, Format (ds_Day r) ≠ day) base →
  NoDup ((λ s, (ds_Type s, ds_Name s)) <$> stats) →
  foldl (λ l s, upsert_day_stat s l) base stats
  = base ++ (stored_day_stat <$> stats).
Proof.
  intros Hday Hbase Hnd.
  assert (∀ done_,
    Forall (λ s, Format (ds_Day s) = day) done_ →
    NoDup ((λ s, (ds_Type s, ds_Name s)) <$> (done_ ++ stats)) →
    foldl (λ l s, upsert_day_stat s l) (base ++ (stored_day_stat <$> done_)) stats
    = base ++ (stored_day_stat <$> (done_ ++ stats))) as G.
  { clear Hnd. induction Hday as [|s stats Hs Hday IH]; intros done_ Hd Hnd; simpl.
    - by rewrite app_nil_r.
    - rewrite upsert_day_stat_fresh.
      + rewrite <- app_assoc.
        replace ((stored_day_stat <$> done_) ++ [stored_day_stat s])
          with (stored_day_stat <$> (done_ ++ [s])) by (by rewrite fmap_app).
        rewrite IH.
        * by rewrite <- app_assoc.
        * apply Forall_app. split; [done|]. by apply Forall_singleton.
        * by rewrite <- app_assoc.
      + intros r [Hr|Hr]%elem_of_app (E1 & E2 & E3).
        * eapply Forall_forall in Hbase; [|done]. congruence.
        * apply list_elem_of_fmap in Hr as (r0 & -> & Hr0). simpl in *.
          rewrite fmap_app, fmap_cons in Hnd.
          apply NoDup_app in Hnd as (_ & Hnd & _).
          apply (Hnd (ds_Type s, ds_Name s)).
          -- apply list_elem_of_fmap. exists r0. split; [|done]. congruence.
          -- by left. }
  specialize (G [] (Forall_nil_2 _) Hnd). simpl in G.
  by rewrite app_nil_r in G.
Qed.

Lemma filter_stats_of day type items (T : string) :
  filter (λ r, ds_Type r = T) (stats_of day type items)
  = if decide (type = T) then stats_of day type items else [].
Proof.
  unfold stats_of. induction items as [|x items IH].
  - by destruct (decide _).
  - rewrite fmap_cons, filter_cons, IH. simpl.
    by destruct (decide (type = T)).
Qed.

Lemma filter_stored_day_stat (T : string) (l : list DayStats) :
  filter (λ r, ds_Type r = T) (stored_day_stat <$> l)
  = stored_day_stat <$> filter (λ r, ds_Type r = T) l.
Proof.
  induction l as [|x l IH]; [done|].
  rewrite fmap_cons, !filter_cons, IH. simpl.
  by destruct (decide (ds_Type x = T)).
Qed.

(** The rows [syncSummary] collects, by type. *)
Lemma filter_collected day summary (T : string) :
  filter (λ r, ds_Type r = T)
    (stats_of day "category" (sd_Categories summary)
     ++ stats_of day "language" (sd_Languages summary)
     ++ stats_of day "editor" (sd_Editors summary)
     ++ stats_of day "os" (sd_OperatingSystems summary)
     ++ stats_of day "project" (sd_Projects summary)
     ++ stats_of day "dependency" (sd_Dependencies summary)
     ++ stats_of day "machine" (sd_Machines summary))
  = stats_of day T (breakdown summary T).
Proof.
  rewrite !filter_app, !filter_stats_of. unfold breakdown.
  repeat (destruct (decide (_ = T)) as [<-|?]);
    repeat (rewrite decide_False by done);
    rewrite ?decide_True by done;
    rewrite ?app_nil_r; simpl; try done.
  all: try (rewrite decide_False by (intros E; by subst T)).
  all: done.
Qed.

Lemma NoDup_collected day summary :
  (∀ T, NoDup (si_Name <$> breakdown summary T)) →
  NoDup ((λ s, (ds_Type s, ds_Name s)) <$>
    (stats_of day "category" (sd_Categories summary)
     ++ stats_of day "language" (sd_Languages summary)
     ++ stats_of day "editor" (sd_Editors summary)
     ++ stats_of day "os" (sd_OperatingSystems summary)
     ++ stats_of day "project" (sd_Projects summary)
     ++ stats_of day "dependency" (sd_Dependencies summary)
     ++ stats_of day "machine" (sd_Machines summary))).
Proof.
  intros H.
  assert (∀ type items,
    (λ s, (ds_Type s, ds_Name s)) <$> stats_of day type items
    = (λ n, (type, n)) <$> (si_Name <$> items)) as E.
  { intros. unfold stats_of. by rewrite <- !list_fmap_compose. }
  assert (∀ type items,
    NoDup (si_Name <$> items) →
    NoDup ((λ s, (ds_Type s, ds_Name s)) <$> stats_of day type items)) as N.
  { intros type items Hn. rewrite E. apply NoDup_fmap_2; [|done].
    intros a b. congruence. }
  assert (∀ type items x,
    x ∈ (λ s, (ds_Type s, ds_Name s)) <$> stats_of day type items →
    x.1 = type) as T1.
  { intros type items x Hx. rewrite E in Hx.
    by apply list_elem_of_fmap in Hx as (n & -> & _). }
  rewrite !fmap_app.
  repeat (apply NoDup_app; split; [|split]).
  all: try (apply N).
  1: apply (H "category"). 2: apply (H "language"). 3: apply (H "editor").
  4: apply (H "os"). 5: apply (H "project"). 6: apply (H "dependency").
  7: apply (H "machine").
  all: intros x Hx Hx'; apply T1 in Hx;
    repeat (apply elem_of_app in Hx' as [Hx'|Hx']; [apply T1 in Hx'; congruence|]);
    apply T1 in Hx'; congruence.
Qed.

Section SummaryReplaces.
Context (env : Env) (Hok : store_ok env).

Lemma syncSummary_replaces day w resp summary rest :
  summaries (remote env) (Format day) (Format day) = inr resp →
  sr_Data resp = summary :: rest →
  day_summaries (db w) !! Format day ≠ Some (sd_GrandTotal summary) →
  let d' := db (syncSummary env day w).2 in
  day_summaries d'
  = <[Format day := sd_GrandTotal summary]> (day_summaries (db w))
  ∧ day_stats d'
    = foldl (λ l s, upsert_day_stat s l)
        (filter (λ r, Format (ds_Day r) ≠ Format day) (day_stats (db w)))
        (stats_of day "category" (sd_Categories summary)
         ++ stats_of day "language" (sd_Languages summary)
         ++ stats_of day "editor" (sd_Editors summary)
         ++ stats_of day "os" (sd_OperatingSystems summary)
         ++ stats_of day "project" (sd_Projects summary)
         ++ stats_of day "dependency" (sd_Dependencies summary)
         ++ stats_of day "machine" (sd_Machines summary)).
Proof.
  intros Hr Hd Hstale. cbv zeta.
  unfold syncSummary, GetSummaries, GetDaySummary, UpsertDaySummary,
    DeleteDayStatsByDay, InsertDayStats. run. rewrite Hr. simpl.
  rewrite Hd. rewrite !Hok. simpl.
  rewrite decide_False by done. simpl.
  rewrite !Hok. simpl.
  set (stats := stats_of day "category" _ ++ _).
  destruct (decide (0 < length stats)%nat) as [Hpos|Hz]; simpl.
  - match goal with |- context [insert_tx env TDayStats ?a ?p ?l ?w'] =>
      destruct (insert_tx_ok env TDayStats a p l w' Hok) as [H1 H2];
      destruct (insert_tx env TDayStats a p l w') as [[e|] w3] end;
      simpl in *; [done|].
    rewrite H2. clear.
    generalize (filter (λ r, Format (ds_Day r) ≠ Format day) (day_stats (db w))).
    generalize (<[Format day:=sd_GrandTotal summary]> (day_summaries (db w))).
    generalize (db w).
    induction stats as [|s stats IH]; intros d m l; simpl; [done|].
    specialize (IH (put_day_stat s
       (set_day_stats l (set_day_summaries m d))) m (upsert_day_stat s l)).
    simpl in IH. exact IH.
  - destruct stats; [done|]. simpl in Hz. lia.
Qed.

End SummaryReplaces.

Section SummaryStored.
Context (env : Env) (Hok : store_ok env).

(** The summary tables after [SyncDay] rewrote the day. *)
Lemma SyncDay_stores_summary day w resp summary rest :
  summaries (remote env) (Format day) (Format day) = inr resp →
  sr_Data resp = summary :: rest →
  day_summaries (db w) !! Format day ≠ Some (sd_GrandTotal summary) →
  (∀ T, NoDup (si_Name <$> breakdown summary T)) →
  let d' := db (SyncDay env day w).2 in
  day_summaries d'
  = <[Format day := sd_GrandTotal summary]> (day_summaries (db w))
  ∧ ∀ statType,
      filter (λ r, Format (ds_Day r) = Format day ∧ ds_Type r = statType)
        (day_stats d')
      = stats_of (Parse (Format day)) statType (breakdown summary statType).
Proof.
  intros Hr Hd Hstale Hnd. cbv zeta.
  assert (day_summaries (db (SyncDay env day w).2)
          = <[Format day := sd_GrandTotal summary]> (day_summaries (db w))
          ∧ day_stats (db (SyncDay env day w).2)
            = filter (λ r, Format (ds_Day r) ≠ Format day) (day_stats (db w))
              ++ (stored_day_stat <$>
                   (stats_of day "category" (sd_Categories summary)
                    ++ stats_of day "language" (sd_Languages summary)
                    ++ stats_of day "editor" (sd_Editors summary)
                    ++ stats_of day "os" (sd_OperatingSystems summary)
                    ++ stats_of day "project" (sd_Projects summary)
                    ++ stats_of day "dependency" (sd_Dependencies summary)
                    ++ stats_of day "machine" (sd_Machines summary))))
    as [E1 E2].
  { rewrite SyncDay_unfold. cbv zeta.
    destruct (syncSummary_replaces env Hok day (slog_Info "syncing data" w).2
                resp summary rest Hr Hd Hstale) as [S1 S2].
    pose proof (syncSummary_outcome env Hok day (slog_Info "syncing data" w).2)
      as Hout.
    unfold summary_outcome in Hout. rewrite Hr, Hd in Hout.
    destruct (syncSummary env day _) as [[T [e|]] wa]; simpl in *; [done|].
    pose proof (keeps_syncDurations env day_summaries day
                  (λ _ _, eq_refl) (λ _ _, eq_refl) wa) as K1.
    pose proof (keeps_syncDurations env day_stats day
                  (λ _ _, eq_refl) (λ _ _, eq_refl) wa) as K2.
    destruct (syncDurations env day wa) as [e1 wb]; simpl in *.
    set (w3 := match e1 with Some _ => _ | None => wb end).
    assert (db w3 = db wb) as E3 by (subst w3; by destruct e1).
    pose proof (keeps_syncHeartbeats env day_summaries day
                  (λ _ _, eq_refl) w3) as K3.
    pose proof (keeps_syncHeartbeats env day_stats day
                  (λ _ _, eq_refl) w3) as K4.
    destruct (syncHeartbeats env day w3) as [e2 wc]; simpl in *.
    set (w5 := match e2 with Some _ => _ | None => wc end).
    assert (db w5 = db wc) as E5 by (subst w5; by destruct e2).
    rewrite !RecordSync_db by done. simpl.
    rewrite !E5, K3, K4, !E3, K1, K2, S1, S2. split; [done|].
    apply (foldl_upsert_fresh (Format day)).
    - repeat (apply Forall_app; split);
        apply Forall_fmap, Forall_forall; by intros.
    - apply Forall_forall. by intros x [Hx _]%list_elem_of_filter.
    - by apply NoDup_collected. }
  split; [done|]. intros statType. rewrite E2.
  rewrite (list_filter_iff _
             (λ r, ds_Type r = statType ∧ Format (ds_Day r) = Format day))
    by (intros; tauto).
  rewrite <- list_filter_filter, filter_app, filter_other_day_nil. simpl.
  rewrite filter_day_all.
  2:{ apply Forall_fmap, Forall_forall. intros x Hx. simpl.
      rewrite Format_Parse.
      repeat (apply elem_of_app in Hx as [Hx|Hx];
              [by apply list_elem_of_fmap in Hx as (y & -> & _)|]).
      by apply list_elem_of_fmap in Hx as (y & -> & _). }
  rewrite filter_stored_day_stat, filter_collected.
  unfold stats_of. rewrite <- !list_fmap_compose.
  apply list_fmap_ext. intros i x _. simpl.
  unfold stored_day_stat. simpl. by rewrite ?Format_Parse.
Qed.

End SummaryStored.

(** The scan of the stored stats of a day. *)
Lemma scan_stats_of rd time_Parse day statType items :
  scan_day_stat rd time_Parse
    <$> stats_of (Parse (Format day)) statType items
  = stats_of (scanned_day rd time_Parse (Format day)) statType items.
Proof.
  unfold stats_of. rewrite <- list_fmap_compose.
  apply list_fmap_ext. intros i x _. simpl.
  unfold scan_day_stat. simpl. by rewrite !Format_Parse.
Qed.

(** X5.  After [SyncDay] of a day whose summary total differs from the
    stored one, the store holds the new total, and reading the day's
    stats of a type back returns the items of that breakdown of the
    summary (names within a breakdown being distinct), each with the day
    that the scan of the stored date gives: the day itself when the
    driver yields the date as it was written, and the zero time when it
    yields a time stamp, which the parser rejects. *)
Theorem summary_round_trip env rd time_Parse day w resp summary rest statType :
  store_ok env →
  summaries (remote env) (Format day) (Format day) = inr resp →
  sr_Data resp = summary :: rest →
  day_summaries (db w) !! Format day ≠ Some (sd_GrandTotal summary) →
  (∀ T, NoDup (si_Name <$> breakdown summary T)) →
  (∀ l, rowOrder rd l ≡ₚ l) →
  failing rd (SelectDayStatsByDayAndType (Format day) statType) = false →
  let d' := db (SyncDay env day w).2 in
  let r := GetDayStatsByDayAndType rd time_Parse day statType d' in
  day_summaries d' !! Format day = Some (sd_GrandTotal summary)
  ∧ r.2 = None
  ∧ r.1 ≡ₚ stats_of (scanned_day rd time_Parse (Format day)) statType
             (breakdown summary statType)
  ∧ (time_Parse (dayText rd (Format day)) = Some (Parse (Format day)) →
     r.1 ≡ₚ stats_of (Parse (Format day)) statType
               (breakdown summary statType))
  ∧ (time_Parse (dayText rd (Format day)) = None →
     r.1 ≡ₚ stats_of zeroTime statType (breakdown summary statType)).
Proof.
  intros Hok Hr Hd Hstale Hnd Hperm Hq. cbv zeta.
  unfold GetDayStatsByDayAndType. rewrite Hq. simpl.
  destruct (SyncDay_stores_summary env Hok day w resp summary rest
              Hr Hd Hstale Hnd) as [E1 E2].
  assert (scan_day_stat rd time_Parse
            <$> rowOrder rd
                  (filter (λ r, Format (ds_Day r) = Format day
                                ∧ ds_Type r = statType)
                     (day_stats (db (SyncDay env day w).2)))
          ≡ₚ stats_of (scanned_day rd time_Parse (Format day)) statType
               (breakdown summary statType)) as E.
  { by rewrite Hperm, E2, scan_stats_of. }
  split; [|split; [done|split; [done|split]]].
  - rewrite E1. apply lookup_insert_eq.
  - intros Hp. rewrite E. unfold scanned_day. by rewrite Hp.
  - intros Hp. rewrite E. unfold scanned_day. by rewrite Hp.
Qed.

(** ** The aggregation of a synced day *)

Lemma filter_none {A} (P : A → Prop) `{∀ x, Decision (P x)} (l : list A) :
  Forall (λ x, ¬ P x) l → filter P l = [].
Proof.
  induction 1 as [|x l Hx _ IH]; [done|].
  by rewrite filter_cons, decide_False.
Qed.

Lemma filter_name_unique rows n r :
  NoDup (ds_Name <$> rows) → r ∈ rows → ds_Name r = n →
  filter (λ x, ds_Name x = n) rows = [r].
Proof.
  induction rows as [|x rows IH]; intros Hnd Hin Hn.
  { by apply elem_of_nil in Hin. }
  rewrite fmap_cons in Hnd. apply NoDup_cons in Hnd as [Hx Hnd].
  rewrite filter_cons. apply elem_of_cons in Hin as [->|Hin].
  - rewrite decide_True by done. f_equal. apply filter_none.
    apply Forall_forall. intros y Hy E. apply Hx. rewrite Hn, <- E.
    apply list_elem_of_fmap. by exists y.
  - rewrite decide_False.
    + by apply IH.
    + intros E. apply Hx. rewrite E, <- Hn.
      apply list_elem_of_fmap. by exists r.
Qed.

(** The sum of a group of one row is the total of the row. *)
Lemma group_total_unique env rows n r :
  NoDup (ds_Name <$> rows) → r ∈ rows → ds_Name r = n →
  group_total env rows n = ds_TotalSeconds r.
Proof.
  intros Hnd Hin Hn. unfold group_total.
  by rewrite (filter_name_unique rows n r).
Qed.

Lemma remove_dups_NoDup_id {A} `{EqDecision A} (l : list A) :
  NoDup l → remove_dups l = l.
Proof.
  induction 1 as [|x l Hx _ IH]; [done|].
  cbn [remove_dups]. destruct (decide_rel elem_of x l); [done|].
  by rewrite IH.
Qed.

(** X6.  After [SyncDay] rewrote the summary of a day, the aggregation of
    that single day by a type returns the items of that breakdown of the
    summary, each with its own total, largest first. *)
Theorem aggregated_after_sync env day w resp summary rest statType :
  store_ok env →
  summaries (remote env) (Format day) (Format day) = inr resp →
  sr_Data resp = summary :: rest →
  day_summaries (db w) !! Format day ≠ Some (sd_GrandTotal summary) →
  (∀ T, NoDup (si_Name <$> breakdown summary T)) →
  let r := (GetAggregatedStats env day day statType (SyncDay env day w).2).1 in
  r.2 = None
  ∧ r.1 ≡ₚ (λ item, {| as_Name := si_Name item;
                       as_TotalSeconds := si_TotalSeconds item |})
            <$> breakdown summary statType
  ∧ Sorted total_desc r.1.
Proof.
  intros Hok Hr Hd Hstale Hnd. cbv zeta.
  destruct (SyncDay_stores_summary env Hok day w resp summary rest
              Hr Hd Hstale Hnd) as [_ E2].
  unfold GetAggregatedStats. run. rewrite Hok. simpl.
  split; [done|]. split; [|unfold select_aggregated; apply Sorted_merge_sort, _].
  unfold select_aggregated. rewrite merge_sort_Permutation.
  rewrite (list_filter_iff (in_range (Format day) (Format day) statType)
             (λ r, Format (ds_Day r) = Format day ∧ ds_Type r = statType)).
  2:{ intros r. unfold in_range. split; [intros (?&?&?)|intros [-> ?]];
        (split; [lia|done]) || (split; [lia|split; [lia|done]]). }
  rewrite E2.
  set (items := breakdown summary statType).
  assert (ds_Name <$> stats_of (Parse (Format day)) statType items
          = si_Name <$> items) as En.
  { unfold stats_of. by rewrite <- list_fmap_compose. }
  rewrite En, remove_dups_NoDup_id by apply Hnd.
  rewrite <- list_fmap_compose.
  apply reflexive_eq, list_fmap_ext. intros i item Hi. simpl. f_equal.
  apply (group_total_unique _ _ _
           {| ds_Day := Parse (Format day); ds_Type := statType;
              ds_Name := si_Name item;
              ds_TotalSeconds := si_TotalSeconds item |}).
  - rewrite En. apply Hnd.
  - unfold stats_of. apply list_elem_of_fmap. exists item. split; [done|].
    by eapply list_elem_of_lookup_2.
  - done.
Qed.

(** ** The days of a range and the sync log *)

Lemma Format_AddDate t k : Format (AddDate t k) = Format t + k.
Proof. unfold Format, AddDate, secondsPerDay. by rewrite Z.div_add. Qed.

Lemma days_of_range_Format start end_ d :
  d ∈ days_of_range start end_ →
  ∃ i, 0 ≤ i ∧ d = AddDate start i ∧ Format d = Format start + i
       ∧ ¬ After d end_.
Proof.
  unfold days_of_range. destruct (decide _) as [|Hn]; [by intros ?%elem_of_nil|].
  intros (i & -> & Hi)%list_elem_of_fmap. apply elem_of_seqZ in Hi.
  exists i. split; [lia|]. split; [done|]. split; [apply Format_AddDate|].
  unfold After, AddDate, secondsPerDay in *.
  assert (i ≤ (end_ - start) `div` 86400) as Hle by lia.
  apply (Z.mul_le_mono_nonneg_r _ _ 86400) in Hle; [|lia].
  pose proof (Z.mul_div_le (end_ - start) 86400 ltac:(lia)). lia.
Qed.

Lemma days_of_range_NoDup start end_ :
  NoDup (Format <$> days_of_range start end_).
Proof.
  unfold days_of_range. destruct (decide _); [constructor|].
  rewrite <- list_fmap_compose. apply NoDup_fmap_2; [|apply NoDup_seqZ].
  intros i j. simpl. rewrite !Format_AddDate. lia.
Qed.

Section Log.
Context (env : Env).

Lemma sync_one_db w d : db (sync_one env w d) = db (SyncDay env d w).2.
Proof.
  unfold sync_one. by destruct (SyncDay env d w) as [[e|] w1].
Qed.

(** The loop leaves the log entries of every day it does not visit. *)
Lemma sync_all_log_other days w k :
  (∀ d, d ∈ days → Format d ≠ k) →
  sync_log (db (foldl (sync_one env) w days)) !! k = sync_log (db w) !! k.
Proof.
  revert w. induction days as [|d days IH]; intros w H; simpl; [done|].
  rewrite IH by (intros d' Hd'; apply H; by right).
  rewrite sync_one_db.
  apply (keeps_SyncDay_day env (λ x, sync_log x !! k)); try done.
  intros l x. simpl. apply lookup_insert_ne. apply H. by left.
Qed.

Lemma sync_all_log (Hok : store_ok env) days w d :
  NoDup (Format <$> days) → d ∈ days →
  sync_log (db (foldl (sync_one env) w days)) !! Format d
  = Some (audit_entry (summary_outcome (remote env) d)).
Proof.
  revert w. induction days as [|d0 days IH]; intros w Hnd Hd; simpl.
  { by apply elem_of_nil in Hd. }
  rewrite fmap_cons in Hnd. apply NoDup_cons in Hnd as [Hnotin Hnd].
  destruct (decide (d ∈ days)) as [Hin|Hnin]; [by apply IH|].
  apply elem_of_cons in Hd as [->|Hd]; [|done].
  rewrite sync_all_log_other.
  - rewrite sync_one_db. apply (SyncDay_settles env Hok d0 w).
  - intros d' Hd' E. apply Hnotin. rewrite <- E.
    apply list_elem_of_fmap. by exists d'.
Qed.

End Log.

(** X7.  With no failing statement, [SyncDateRange] leaves in the sync
    log, for every day from [start] to [end_], the entry of the outcome of
    that day's summary fetch: "success" with the grand total (0 when the
    service has no summary), or "failed" with 0 when the fetch failed.
    The entries of the days outside the range are those of before. *)
Theorem SyncDateRange_log env start end_ w :
  store_ok env →
  let w' := (SyncDateRange env start end_ w).2 in
  (∀ d, d ∈ days_of_range start end_ →
     sync_log (db w') !! Format d
     = Some (audit_entry (summary_outcome (remote env) d)))
  ∧ (∀ k, ¬ (Format start ≤ k ≤ Format end_) →
       sync_log (db w') !! k = sync_log (db w) !! k).
Proof.
  intros Hok. cbv zeta.
  assert ((SyncDateRange env start end_ w).2
          = foldl (sync_one env) w (days_of_range start end_)) as ->.
  { unfold SyncDateRange. run. by rewrite sync_loop_fold. }
  split.
  - intros d Hd. apply sync_all_log; [done| |done].
    apply days_of_range_NoDup.
  - intros k Hk. apply sync_all_log_other. intros d Hd E.
    apply days_of_range_Format in Hd as (i & Hi & -> & HF & Hna).
    apply Hk. rewrite <- E, HF. split; [lia|].
    rewrite <- HF. unfold After in Hna. unfold Format, secondsPerDay.
    apply Z.div_le_mono; lia.
Qed.

(** X7, witness. *)
Lemma SyncDateRange_log_witness :
  let w' := (SyncDateRange sampleEnv sampleDay (AddDate sampleDay 2)
               emptyWorld).2 in
  (∀ d, d ∈ [sampleDay; AddDate sampleDay 1; AddDate sampleDay 2] →
     sync_log (db w') !! Format d
     = Some {| sl_TotalSeconds := 5000; sl_Status := "success" |})
  ∧ sync_log (db w') !! (Format sampleDay + 3) = None.
Proof.
  destruct (SyncDateRange_log sampleEnv sampleDay (AddDate sampleDay 2)
              emptyWorld (noFaults_ok _ _)) as [H1 H2].
  split.
  - intros d Hd. apply (H1 d). exact Hd.
  - rewrite H2; [reflexivity|]. vm_compute. intros [_ H]. by apply H.
Defined.

(** ** The days [SyncDays] visits *)

Lemma days_of_range_back now days :
  days_of_range (AddDate now (- days)) (AddDate now (-1))
  = (λ i, AddDate now (i - days)) <$> seqZ 0 days.
Proof.
  unfold days_of_range, After, AddDate, secondsPerDay.
  destruct (decide _) as [H|H].
  - rewrite seqZ_nil; [done|lia].
  - replace (now + -1 * 86400 - (now + - days * 86400))
      with ((days - 1) * 86400) by lia.
    rewrite Z.div_mul by lia.
    replace (days - 1 + 1) with days by lia.
    apply list_fmap_ext. intros _ i _. lia.
Qed.

Lemma days_of_range_back_late now1 now2 days :
  now1 < now2 < now1 + secondsPerDay →
  days_of_range (AddDate now2 (- days)) (AddDate now1 (-1))
  = (λ i, AddDate now2 (i - days)) <$> seqZ 0 (days - 1).
Proof.
  unfold days_of_range, After, AddDate, secondsPerDay. intros Hlate.
  destruct (decide _) as [H|H].
  - rewrite seqZ_nil; [done|lia].
  - replace (now1 + -1 * 86400 - (now2 + - days * 86400))
      with ((86400 - (now2 - now1)) + (days - 2) * 86400) by lia.
    rewrite Z.div_add by lia. rewrite Z.div_small by lia.
    replace (0 + (days - 2) + 1) with (days - 1) by lia.
    apply list_fmap_ext. intros _ i _. lia.
Qed.

(** X8.  [SyncDays] reads the clock twice, first for the last day and
    then for the first.  When both readings agree it syncs [days] days,
    the last of them yesterday (none when [days] is not positive).  When
    the second reading is later, by less than a day, the day it would end
    with is after the last day: it syncs [days - 1] days, and the day
    before the second reading is left out. *)
Theorem SyncDays_days env days w :
  let now1 := clock env (trace w) in
  let w1 := {| db := db w; trace := EvNow now1 :: trace w |} in
  let now2 := clock env (trace w1) in
  let w2 := {| db := db w; trace := EvNow now2 :: trace w1 |} in
  (now2 = now1 →
   (SyncDays env days w).2
   = foldl (sync_one env) w2
       ((λ i, AddDate now1 (i - days)) <$> seqZ 0 days))
  ∧ (now1 < now2 < now1 + secondsPerDay →
     (SyncDays env days w).2
     = foldl (sync_one env) w2
         ((λ i, AddDate now2 (i - days)) <$> seqZ 0 (days - 1))).
Proof.
  cbv zeta.
  assert ((SyncDays env days w).2
          = foldl (sync_one env)
              {| db := db w;
                 trace := EvNow (clock env (EvNow (clock env (trace w))
                                              :: trace w))
                          :: EvNow (clock env (trace w)) :: trace w |}
              (days_of_range
                 (AddDate (clock env (EvNow (clock env (trace w)) :: trace w))
                    (- days))
                 (AddDate (clock env (trace w)) (-1)))) as E.
  { unfold SyncDays, time_Now. run. by rewrite sync_loop_fold. }
  simpl. split.
  - intros Heq. rewrite E, Heq. by rewrite days_of_range_back.
  - intros Hlate. rewrite E. by rewrite days_of_range_back_late.
Qed.

(** ** The order of strings *)

Lemma string_compare_lt_trans (a b c : string) :
  String.compare a b = Lt → String.compare b c = Lt → String.compare a c = Lt.
Proof.
  revert b c. induction a as [|x a IH]; intros [|y b] [|z c]; simpl; try done.
  unfold Ascii.compare.
  destruct (N.compare_spec (Ascii.N_of_ascii x) (Ascii.N_of_ascii y))
    as [E1|E1|E1];
    destruct (N.compare_spec (Ascii.N_of_ascii y) (Ascii.N_of_ascii z))
      as [E2|E2|E2];
    try done; intros H1 H2.
  - rewrite E1, E2, N.compare_refl. by eapply IH.
  - by rewrite E1, (proj2 (N.compare_lt_iff _ _) E2).
  - by rewrite <- E2, (proj2 (N.compare_lt_iff _ _) E1).
  - assert (Ascii.N_of_ascii x < Ascii.N_of_ascii z)%N as E3 by lia.
    by rewrite (proj2 (N.compare_lt_iff _ _) E3).
Qed.

Lemma string_compare_refl (a : string) : String.compare a a = Eq.
Proof.
  pose proof (String.compare_antisym a a) as H.
  by destruct (String.compare a a).
Qed.

Lemma string_leb_ltb (a b : string) :
  String.leb a b = negb (String.ltb b a).
Proof.
  unfold String.ltb, String.leb. rewrite (String.compare_antisym a b).
  by destruct (String.compare b a).
Qed.

Lemma string_leb_spec (a b : string) :
  String.leb a b = true ↔ String.compare a b = Lt ∨ a = b.
Proof.
  unfold String.leb.
  destruct (String.compare a b) eqn:E.
  - apply String.compare_eq_iff in E. naive_solver.
  - naive_solver.
  - split; [done|]. intros [?| ->]; [done|].
    by rewrite string_compare_refl in E.
Qed.

Lemma string_leb_trans (a b c : string) :
  String.leb a b = true → String.leb b c = true → String.leb a c = true.
Proof.
  rewrite !string_leb_spec. intros [H1| ->] [H2| ->]; eauto.
  left. by eapply string_compare_lt_trans.
Qed.

#[global] Instance date_le_trans : Transitive date_le.
Proof. intros a b c. apply string_leb_trans. Qed.

Lemma date_le_swap a b :
  String.ltb (yad_Date b) (yad_Date a) = true → date_le b a.
Proof.
  unfold date_le. intros H.
  destruct (String.leb_total (yad_Date b) (yad_Date a)) as [|H']; [done|].
  rewrite string_leb_ltb, H in H'. done.
Qed.

Lemma date_le_keep a b :
  String.ltb (yad_Date b) (yad_Date a) = false → date_le a b.
Proof. unfold date_le. intros H. by rewrite string_leb_ltb, H. Qed.

(** ** The sort by date *)

Lemma swap_if_later_cons m i j l :
  swap_if_later (S i) (S j) (m :: l) = m :: swap_if_later i j l.
Proof.
  unfold swap_if_later. simpl.
  destruct (l !! i) as [a|]; [|done]. destruct (l !! j) as [b|]; [|done].
  by destruct (String.ltb _ _).
Qed.

Lemma inner_loop_cons m i j n l :
  inner_loop (S i) (S j) n (m :: l) = m :: inner_loop i j n l.
Proof.
  revert j l. induction n as [|n IH]; intros j l; simpl; [done|].
  by rewrite swap_if_later_cons, IH.
Qed.

Lemma outer_loop_cons m i n l :
  outer_loop (S i) n (m :: l) = m :: outer_loop i n l.
Proof.
  revert i l. induction n as [|n IH]; intros i l; simpl; [done|].
  by rewrite inner_loop_cons, IH.
Qed.

Lemma insert_Permutation_cons {A} (l : list A) j b x :
  l !! j = Some b → b :: <[j := x]> l ≡ₚ x :: l.
Proof.
  revert j. induction l as [|y l IH]; intros [|j] H; simpl in *; try done.
  - injection H as ->. apply perm_swap.
  - rewrite (perm_swap y b), IH by done. apply perm_swap.
Qed.

(** One pass of the inner loop over the positions from [j] on brings a
    least element of the list to the front. *)
Lemma inner_loop_head n j x rest :
  (j + n)%nat = length rest →
  (∀ k y, (k < j)%nat → rest !! k = Some y → date_le x y) →
  ∃ m rest',
    inner_loop 0 (S j) n (x :: rest) = m :: rest'
    ∧ m :: rest' ≡ₚ x :: rest
    ∧ Forall (date_le m) rest'.
Proof.
  revert j x rest. induction n as [|n IH]; intros j x rest Hlen Hmin; simpl.
  - exists x, rest. split; [done|]. split; [done|].
    apply Forall_forall. intros y Hy.
    apply list_elem_of_lookup in Hy as [k Hk].
    apply (Hmin k); [|done]. apply lookup_lt_Some in Hk. lia.
  - unfold swap_if_later. simpl.
    destruct (rest !! j) as [b|] eqn:Hb.
    2:{ apply lookup_ge_None in Hb. lia. }
    destruct (String.ltb (yad_Date b) (yad_Date x)) eqn:Hlt.
    + destruct (IH (S j) b (<[j := x]> rest)) as (m & rest' & E & P & F).
      * rewrite length_insert. lia.
      * intros k y Hk Hy. destruct (decide (k = j)) as [->|Hne].
        -- rewrite list_lookup_insert_eq in Hy by (by eapply lookup_lt_Some).
           injection Hy as <-. by apply date_le_swap.
        -- rewrite list_lookup_insert_ne in Hy by done.
           trans x; [by apply date_le_swap|]. apply (Hmin k); [lia|done].
      * exists m, rest'. split; [done|]. split; [|done].
        rewrite P. by apply insert_Permutation_cons.
    + destruct (IH (S j) x rest) as (m & rest' & E & P & F).
      * lia.
      * intros k y Hk Hy. destruct (decide (k = j)) as [->|Hne].
        -- rewrite Hb in Hy. injection Hy as <-. by apply date_le_keep.
        -- apply (Hmin k); [lia|done].
      * by exists m, rest'.
Qed.

Lemma sort_by_date_cons x rest :
  ∃ m rest',
    sort_by_date (x :: rest) = m :: sort_by_date rest'
    ∧ m :: rest' ≡ₚ x :: rest
    ∧ Forall (date_le m) rest'.
Proof.
  destruct (inner_loop_head (length rest) 0 x rest) as (m & rest' & E & P & F).
  - done.
  - intros k y Hk. lia.
  - exists m, rest'. split; [|done].
    assert (length rest' = length rest) as Hlen.
    { apply Permutation_length in P. simpl in P. lia. }
    unfold sort_by_date.
    replace (length (x :: rest) - 1)%nat with (length rest) by (simpl; lia).
    destruct rest as [|y rest].
    + simpl in *. injection E as <- <-. done.
    + cbn [length outer_loop].
      replace (S (S (length rest)) - 1)%nat with (S (length rest)) by lia.
      cbn [length] in E. rewrite E, outer_loop_cons.
      rewrite Hlen. simpl. by rewrite Nat.sub_0_r.
Qed.

Lemma sort_by_date_spec l :
  sort_by_date l ≡ₚ l ∧ StronglySorted date_le (sort_by_date l).
Proof.
  remember (length l) as n eqn:Hn. revert l Hn.
  induction n as [|n IH]; intros l Hn.
  - destruct l; [|done]. split; [done|constructor].
  - destruct l as [|x rest]; [done|].
    destruct (sort_by_date_cons x rest) as (m & rest' & -> & P & F).
    destruct (IH rest') as [P' S'].
    { apply Permutation_length in P. simpl in *. lia. }
    split.
    + by rewrite P', P.
    + constructor; [done|]. by rewrite P'.
Qed.

(** ** The map of the year's days *)

Section YearMap.
Context (rd : Reader).

Lemma keyed_add_day m row : keyed m → keyed (add_day rd m row).
Proof.
  intros H k e. unfold add_day.
  destruct (decide (normalizedDay (dayText rd row.1) = k)) as [<-|Hne].
  - rewrite lookup_insert_eq. by intros [= <-].
  - rewrite lookup_insert_ne by done. apply H.
Qed.

Lemma keyed_add_project m row : keyed m → keyed (add_project rd m row).
Proof.
  intros H k e. unfold add_project.
  destruct (m !! normalizedDay _) as [dayData|] eqn:E; [|apply H].
  destruct (decide (normalizedDay (dayText rd (Format (ds_Day row))) = k))
    as [<-|Hne].
  - rewrite lookup_insert_eq. intros [= <-]. simpl. by apply H.
  - rewrite lookup_insert_ne by done. apply H.
Qed.

Lemma keyed_year_map startDate endDate d :
  keyed (year_map rd startDate endDate d).
Proof.
  unfold year_map.
  assert (keyed (foldl (add_day rd) ∅ (year_summaries startDate endDate d)))
    as H.
  { generalize (year_summaries startDate endDate d). intros l.
    assert (keyed (∅ : gmap string YearlyActivityDay)) as H0
      by (intros k e; by rewrite lookup_empty).
    revert H0. generalize (∅ : gmap string YearlyActivityDay).
    induction l as [|row l IH]; intros m Hm; simpl; [done|].
    apply IH. by apply keyed_add_day. }
  revert H. generalize (foldl (add_day rd) ∅ (year_summaries startDate endDate d)).
  generalize (year_projects startDate endDate d).
  induction l as [|row l IH]; intros m Hm; simpl; [done|].
  apply IH. by apply keyed_add_project.
Qed.

Lemma omap_lookup_keys (m : gmap string YearlyActivityDay) :
  omap (λ k, m !! k) (map_to_list m).*1 = (map_to_list m).*2.
Proof.
  assert (Forall (λ p, m !! p.1 = Some p.2) (map_to_list m)) as H.
  { apply Forall_forall. intros [k v] Hkv. by apply elem_of_map_to_list. }
  revert H. generalize (map_to_list m). intros l H.
  induction H as [|[k v] l Hk _ IH]; csimpl in *; [done|].
  rewrite Hk. csimpl. by rewrite IH.
Qed.

Lemma range_values_Permutation m :
  (∀ l, mapOrder rd l ≡ₚ l) → range_values rd m ≡ₚ (map_to_list m).*2.
Proof.
  intros H. unfold range_values. by rewrite H, omap_lookup_keys.
Qed.

Lemma keyed_dates m :
  keyed m → yad_Date <$> (map_to_list m).*2 = (map_to_list m).*1.
Proof.
  intros Hk.
  assert (Forall (λ p, m !! p.1 = Some p.2) (map_to_list m)) as H.
  { apply Forall_forall. intros [k v] Hkv. by apply elem_of_map_to_list. }
  revert H. generalize (map_to_list m). intros l H.
  induction H as [|[k v] l Hkv _ IH]; csimpl in *; [done|].
  by rewrite IH, (Hk k v).
Qed.

Lemma range_values_NoDup m :
  (∀ l, mapOrder rd l ≡ₚ l) → keyed m →
  NoDup (yad_Date <$> range_values rd m).
Proof.
  intros H Hk. rewrite range_values_Permutation by done.
  rewrite keyed_dates by done. apply NoDup_fst_map_to_list.
Qed.

End YearMap.

Lemma NoDup_fmap_eq {A B} (f : A → B) (l : list A) x y :
  NoDup (f <$> l) → x ∈ l → y ∈ l → f x = f y → x = y.
Proof.
  induction l as [|z l IH]; intros Hnd Hx Hy E; [by apply elem_of_nil in Hx|].
  rewrite fmap_cons in Hnd. apply NoDup_cons in Hnd as [Hz Hnd].
  apply elem_of_cons in Hx as [->|Hx]; apply elem_of_cons in Hy as [->|Hy].
  - done.
  - exfalso. apply Hz. rewrite E. apply list_elem_of_fmap. by exists y.
  - exfalso. apply Hz. rewrite <- E. apply list_elem_of_fmap. by exists x.
  - by apply IH.
Qed.

Lemma StronglySorted_strict l :
  StronglySorted date_le l → NoDup (yad_Date <$> l) → StronglySorted date_lt l.
Proof.
  induction 1 as [|x l _ IH Hx]; intros Hnd; [constructor|].
  rewrite fmap_cons in Hnd. apply NoDup_cons in Hnd as [Hnotin Hnd].
  constructor; [by apply IH|].
  apply Forall_forall. intros y Hy.
  eapply Forall_forall in Hx; [|done].
  unfold date_le, date_lt in *. apply string_leb_spec in Hx as [Hx|Hx].
  - unfold String.ltb. by rewrite Hx.
  - exfalso. apply Hnotin. rewrite Hx. apply list_elem_of_fmap. by exists y.
Qed.

(** X9.  The result of [GetYearlyActivity] is in strictly ascending order
    of its dates, and it does not depend on the order in which Go ranges
    over the map of days. *)
Theorem GetYearlyActivity_sorted rd rd' dateOf year d :
  (∀ l, mapOrder rd l ≡ₚ l) →
  (∀ l, mapOrder rd' l ≡ₚ l) →
  failing rd' = failing rd →
  dayText rd' = dayText rd →
  StronglySorted date_lt (GetYearlyActivity rd dateOf year d).1
  ∧ GetYearlyActivity rd' dateOf year d = GetYearlyActivity rd dateOf year d.
Proof.
  intros Hp Hp' Hf Ht. unfold GetYearlyActivity. rewrite Hf.
  destruct (failing rd _); [by split; [constructor|]|].
  destruct (failing rd _); [by split; [constructor|]|]. simpl.
  set (startDate := dateOf year 1 1). set (endDate := dateOf year 12 31).
  assert (year_map rd' startDate endDate d = year_map rd startDate endDate d)
    as Em.
  { unfold year_map, add_day, add_project. by rewrite Ht. }
  rewrite Em. set (m := year_map rd startDate endDate d).
  pose proof (keyed_year_map rd startDate endDate d) as Hk. fold m in Hk.
  destruct (sort_by_date_spec (range_values rd m)) as [P S].
  destruct (sort_by_date_spec (range_values rd' m)) as [P' S'].
  split.
  - apply StronglySorted_strict; [done|].
    rewrite P. by apply range_values_NoDup.
  - f_equal. apply (StronglySorted_unique_strong date_le); [|done|done|].
    + intros x1 x2 H1 H2 L1 L2.
      rewrite P', range_values_Permutation in H1 by done.
      rewrite P, range_values_Permutation in H2 by done.
      apply (NoDup_fmap_eq yad_Date (map_to_list m).*2); [|done|done|].
      * rewrite keyed_dates by done. apply NoDup_fst_map_to_list.
      * by apply String.leb_antisym.
    + by rewrite P', P, !range_values_Permutation.
Qed.

Section YearContent.
Context (rd : Reader).

Let key_of_day (day : Date) : string := normalizedDay (dayText rd day).

Lemma foldl_add_day_dom l m0 k :
  is_Some (foldl (add_day rd) m0 l !! k)
  ↔ is_Some (m0 !! k) ∨ k ∈ (λ row : Date * Seconds, key_of_day row.1) <$> l.
Proof.
  revert m0. induction l as [|row l IH]; intros m0; simpl.
  - split; [by left|]. intros [?|H]; [done|by apply elem_of_nil in H].
  - rewrite IH. unfold add_day at 1. fold (key_of_day row.1).
    rewrite elem_of_cons.
    destruct (decide (key_of_day row.1 = k)) as [<-|Hne].
    + rewrite lookup_insert_eq. split; [by right; left|by left].
    + rewrite lookup_insert_ne by done.
      split; [intros [?|?]; [by left|by right; right]|].
      intros [?|[?|?]]; [by left|congruence|by right].
Qed.

Lemma foldl_add_day_lookup l m0 row :
  NoDup ((λ row : Date * Seconds, key_of_day row.1) <$> l) →
  row ∈ l →
  foldl (add_day rd) m0 l !! key_of_day row.1
  = Some {| yad_Date := key_of_day row.1; yad_TotalSeconds := row.2;
            yad_Projects := [] |}.
Proof.
  revert m0. induction l as [|row0 l IH]; intros m0 Hnd Hin; simpl.
  { by apply elem_of_nil in Hin. }
  rewrite fmap_cons in Hnd. apply NoDup_cons in Hnd as [Hnotin Hnd].
  apply elem_of_cons in Hin as [->|Hin]; [|by apply IH].
  assert (∀ m, m !! key_of_day row0.1
               = Some {| yad_Date := key_of_day row0.1;
                         yad_TotalSeconds := row0.2; yad_Projects := [] |} →
            foldl (add_day rd) m l !! key_of_day row0.1
            = Some {| yad_Date := key_of_day row0.1;
                      yad_TotalSeconds := row0.2; yad_Projects := [] |}) as K.
  { clear IH Hnd. induction l as [|r l IH]; intros m Hm; simpl; [done|].
    apply IH.
    - intros H. apply Hnotin. rewrite fmap_cons. by right.
    - unfold add_day. rewrite lookup_insert_ne; [done|].
      intros E. apply Hnotin. rewrite fmap_cons. apply elem_of_cons. left.
      symmetry. exact E. }
  apply K. unfold add_day. apply lookup_insert_eq.
Qed.

Lemma foldl_add_project_lookup rows m0 k :
  foldl (add_project rd) m0 rows !! k
  = (λ e, {| yad_Date := yad_Date e; yad_TotalSeconds := yad_TotalSeconds e;
             yad_Projects :=
               yad_Projects e
               ++ (breakdown_of
                     <$> filter (λ r, key_of_day (Format (ds_Day r)) = k) rows)
          |}) <$> m0 !! k.
Proof.
  revert m0. induction rows as [|r rows IH]; intros m0.
  - simpl. destruct (m0 !! k) as [[]|]; simpl; [|done].
    by rewrite app_nil_r.
  - cbn [foldl]. rewrite IH, filter_cons. unfold add_project at 1.
    fold (key_of_day (Format (ds_Day r))).
    destruct (decide (key_of_day (Format (ds_Day r)) = k)) as [<-|Hne].
    + destruct (m0 !! key_of_day _) as [dayData|] eqn:E.
      * rewrite lookup_insert_eq. simpl. f_equal. f_equal.
        by rewrite <- app_assoc.
      * by rewrite E.
    + destruct (m0 !! key_of_day _) as [dayData|] eqn:E; [|done].
      by rewrite lookup_insert_ne.
Qed.

End YearContent.

#[global] Instance by_day_total : Total by_day.
Proof. intros a b. unfold by_day. lia. Qed.

#[global] Instance by_day_total_desc_total : Total by_day_total_desc.
Proof. intros a b. unfold by_day_total_desc. lia. Qed.

#[global] Instance by_day_total_desc_trans : Transitive by_day_total_desc.
Proof. intros a b c. unfold by_day_total_desc. lia. Qed.

Lemma StronglySorted_filter {A} (R : relation A) (P : A → Prop)
    `{∀ x, Decision (P x)} l :
  StronglySorted R l → StronglySorted R (filter P l).
Proof.
  induction 1 as [|x l _ IH Hx]; [constructor|].
  rewrite filter_cons. destruct (decide (P x)); [|done].
  constructor; [done|]. apply Forall_forall. intros y Hy.
  apply list_elem_of_filter in Hy as [_ Hy].
  by eapply Forall_forall in Hx.
Qed.

Lemma filter_ext_elem_of {A} (P Q : A → Prop)
    `{∀ x, Decision (P x), ∀ x, Decision (Q x)} (l : list A) :
  (∀ x, x ∈ l → P x ↔ Q x) → filter P l = filter Q l.
Proof.
  induction l as [|x l IH]; intros HPQ; [done|].
  rewrite !filter_cons, IH by (intros y Hy; apply HPQ; by right).
  destruct (decide (P x)) as [HP|HP], (decide (Q x)) as [HQ|HQ]; try done.
  - exfalso. apply HQ, HPQ; [by left|done].
  - exfalso. apply HP, HPQ; [by left|done].
Qed.

(** The project rows of one day, in the order of the query. *)
Lemma year_projects_day startDate endDate d day :
  startDate ≤ day ≤ endDate →
  let ps := filter (λ r, Format (ds_Day r) = day)
              (year_projects startDate endDate d) in
  ps ≡ₚ filter (λ r, Format (ds_Day r) = day ∧ ds_Type r = "project")
          (day_stats d)
  ∧ StronglySorted (λ a b, ds_TotalSeconds b ≤ ds_TotalSeconds a) ps.
Proof.
  intros Hday. cbv zeta. unfold year_projects. split.
  - rewrite merge_sort_Permutation, list_filter_filter.
    apply reflexive_eq, list_filter_iff. intros r. unfold in_range.
    split; [tauto|]. intros [<- ?]. tauto.
  - assert (StronglySorted by_day_total_desc
              (filter (λ r, Format (ds_Day r) = day)
                 (merge_sort by_day_total_desc
                    (filter (in_range startDate endDate "project")
                       (day_stats d))))) as S.
    { apply StronglySorted_filter, StronglySorted_merge_sort; apply _. }
    revert S.
    generalize (merge_sort by_day_total_desc
                  (filter (in_range startDate endDate "project") (day_stats d))).
    intros l.
    assert (Forall (λ r, Format (ds_Day r) = day)
              (filter (λ r, Format (ds_Day r) = day) l)) as F.
    { apply Forall_forall. by intros r [? _]%list_elem_of_filter. }
    revert F. generalize (filter (λ r, Format (ds_Day r) = day) l).
    intros l' F S. induction S as [|x l' _ IH Hx]; [constructor|].
    apply Forall_cons in F as [Fx F].
    constructor; [by apply IH|].
    apply Forall_forall. intros y Hy.
    eapply Forall_forall in Hx; [|done]. eapply Forall_forall in F; [|done].
    unfold by_day_total_desc in Hx. lia.
Qed.

(** X10.  When distinct days of the year have distinct dates, the yearly
    activity has exactly one entry per day of the year that has a
    summary, with the date, the total of the day and the projects of the
    day as the second query returns them: the day's project stats, largest
    first. *)
Theorem GetYearlyActivity_content rd dateOf year d :
  let startDate := dateOf year 1 1 in
  let endDate := dateOf year 12 31 in
  (∀ l, mapOrder rd l ≡ₚ l) →
  failing rd (SelectYearSummaries startDate endDate) = false →
  failing rd (SelectYearProjects startDate endDate) = false →
  (∀ a b, startDate ≤ a ≤ endDate → startDate ≤ b ≤ endDate →
     normalizedDay (dayText rd a) = normalizedDay (dayText rd b) → a = b) →
  let r := GetYearlyActivity rd dateOf year d in
  let projects day :=
    filter (λ r, Format (ds_Day r) = day) (year_projects startDate endDate d) in
  r.2 = None
  ∧ (∀ e, e ∈ r.1 ↔
       ∃ day total,
         startDate ≤ day ≤ endDate
         ∧ day_summaries d !! day = Some total
         ∧ e = {| yad_Date := normalizedDay (dayText rd day);
                  yad_TotalSeconds := total;
                  yad_Projects := breakdown_of <$> projects day |})
  ∧ (∀ day, startDate ≤ day ≤ endDate →
       projects day
       ≡ₚ filter (λ r, Format (ds_Day r) = day ∧ ds_Type r = "project")
            (day_stats d)
       ∧ StronglySorted (λ a b, ds_TotalSeconds b ≤ ds_TotalSeconds a)
           (projects day)).
Proof.
  intros startDate endDate Hp Hq1 Hq2 Hinj. cbv zeta.
  unfold GetYearlyActivity. fold startDate endDate. rewrite Hq1, Hq2. simpl.
  split; [done|]. split; [|intros day Hday; by apply year_projects_day].
  set (m := year_map rd startDate endDate d).
  pose proof (keyed_year_map rd startDate endDate d) as Hk. fold m in Hk.
  assert (∀ e, e ∈ sort_by_date (range_values rd m)
               ↔ m !! yad_Date e = Some e) as Hmem.
  { intros e. rewrite (proj1 (sort_by_date_spec _)).
    rewrite range_values_Permutation by done.
    rewrite list_elem_of_fmap. split.
    - intros ([k v] & -> & Hkv). apply elem_of_map_to_list in Hkv. simpl.
      by rewrite (Hk k v).
    - intros H. exists (yad_Date e, e). split; [done|].
      by apply elem_of_map_to_list. }
  set (key := λ day, normalizedDay (dayText rd day)).
  assert (∀ row, row ∈ year_summaries startDate endDate d
                 ↔ (startDate ≤ row.1 ≤ endDate)
                   ∧ day_summaries d !! row.1 = Some row.2) as Hrows.
  { intros [day total]. unfold year_summaries.
    rewrite merge_sort_Permutation, list_elem_of_filter, elem_of_map_to_list.
    simpl. tauto. }
  assert (NoDup ((λ row : Date * Seconds, key row.1)
                   <$> year_summaries startDate endDate d)) as Hnd.
  { apply NoDup_fmap_2_strong.
    - intros r1 r2 H1 H2 E. apply Hrows in H1 as [R1 S1], H2 as [R2 S2].
      assert (r1.1 = r2.1) as E1 by (by apply Hinj).
      destruct r1, r2. simpl in *. subst. congruence.
    - unfold year_summaries. rewrite merge_sort_Permutation.
      apply NoDup_filter, NoDup_map_to_list. }
  assert (∀ k, m !! k
    = (λ e, {| yad_Date := yad_Date e; yad_TotalSeconds := yad_TotalSeconds e;
               yad_Projects :=
                 yad_Projects e
                 ++ (breakdown_of
                       <$> filter (λ r, key (Format (ds_Day r)) = k)
                             (year_projects startDate endDate d)) |})
      <$> foldl (add_day rd) ∅ (year_summaries startDate endDate d) !! k)
    as Hm.
  { intros k. unfold m, year_map. apply foldl_add_project_lookup. }
  assert (∀ day, startDate ≤ day ≤ endDate →
            filter (λ r, key (Format (ds_Day r)) = key day)
              (year_projects startDate endDate d)
            = filter (λ r, Format (ds_Day r) = day)
                (year_projects startDate endDate d)) as Hfilter.
  { intros day Hday. apply filter_ext_elem_of.
    intros r Hr. unfold year_projects in Hr.
    rewrite merge_sort_Permutation in Hr.
    apply list_elem_of_filter in Hr as [(R1 & R2 & _) _].
    split; [|by intros ->]. intros E. apply Hinj; [lia|done|done]. }
  intros e. rewrite Hmem. split.
  - intros He. rewrite Hm in He.
    destruct (foldl (add_day rd) ∅ _ !! yad_Date e) as [e0|] eqn:E0; [|done].
    assert (yad_Date e ∈ (λ row : Date * Seconds, key row.1)
                           <$> year_summaries startDate endDate d) as Hin.
    { pose proof (proj1 (foldl_add_day_dom rd (year_summaries startDate endDate d)
                           ∅ (yad_Date e))) as H.
      destruct H as [H|H]; [by rewrite E0| |done].
      rewrite lookup_empty in H. by destruct H. }
    apply list_elem_of_fmap in Hin as ([day total] & Ekey & Hrow).
    simpl in Ekey.
    pose proof (foldl_add_day_lookup rd _ ∅ _ Hnd Hrow) as L. simpl in L.
    fold (key day) in L. rewrite <- Ekey, E0 in L. injection L as ->.
    apply Hrows in Hrow as [Hr Hs]. simpl in *.
    exists day, total. split; [done|]. split; [done|].
    injection He as <-. simpl. rewrite Ekey. f_equal. f_equal.
    by apply Hfilter.
  - intros (day & total & Hday & Hs & ->). simpl. rewrite Hm.
    assert ((day, total) ∈ year_summaries startDate endDate d) as Hrow
      by (by apply Hrows).
    pose proof (foldl_add_day_lookup rd _ ∅ _ Hnd Hrow) as L. simpl in L.
    fold (key day) in L |- *. rewrite L. simpl. f_equal. f_equal. f_equal.
    by apply Hfilter.
Qed.

(** The yearly activity of [yearDB], evaluated. *)
Lemma yearly_activity_example :
  GetYearlyActivity plainReader sampleDateOf 2024 yearDB
  = ([ {| yad_Date := "2024-10-04"; yad_TotalSeconds := 5000;
          yad_Projects := [ {| pb_Name := "waka"; pb_TotalSeconds := 3000 |};
                            {| pb_Name := "blog"; pb_TotalSeconds := 2000 |} ] |};
       {| yad_Date := "2024-10-05"; yad_TotalSeconds := 1200;
          yad_Projects := [ {| pb_Name := "waka"; pb_TotalSeconds := 1200 |} ] |};
       {| yad_Date := "2024-10-06"; yad_TotalSeconds := 300;
          yad_Projects := [] |} ], None).
Proof. vm_compute. reflexivity. Qed.

(** X9, witness. *)
Lemma GetYearlyActivity_sorted_witness :
  StronglySorted date_lt (GetYearlyActivity plainReader sampleDateOf 2024 yearDB).1
  ∧ GetYearlyActivity reversedReader sampleDateOf 2024 yearDB
    = GetYearlyActivity plainReader sampleDateOf 2024 yearDB.
Proof.
  apply (GetYearlyActivity_sorted plainReader reversedReader sampleDateOf 2024
           yearDB).
  - done.
  - intros l. apply reverse_Permutation.
  - reflexivity.
  - reflexivity.
Defined.

Lemma sampleDayText_inj a b :
  20000 ≤ a ≤ 20002 → 20000 ≤ b ≤ 20002 →
  normalizedDay (sampleDayText a) = normalizedDay (sampleDayText b) → a = b.
Proof.
  intros Ha Hb.
  assert (a = 20000 ∨ a = 20001 ∨ a = 20002) as [->|[->| ->]] by lia;
    assert (b = 20000 ∨ b = 20001 ∨ b = 20002) as [->|[->| ->]] by lia;
    vm_compute; intros E; first [reflexivity | discriminate E].
Qed.

(** X10, witness. *)
Lemma GetYearlyActivity_content_witness :
  {| yad_Date := "2024-10-05"; yad_TotalSeconds := 1200;
     yad_Projects := [ {| pb_Name := "waka"; pb_TotalSeconds := 1200 |} ] |}
  ∈ (GetYearlyActivity plainReader sampleDateOf 2024 yearDB).1.
Proof.
  apply (proj2 (GetYearlyActivity_content plainReader sampleDateOf 2024 yearDB
                  (λ l, reflexivity l) eq_refl eq_refl sampleDayText_inj)).
  exists 20001, 1200. split; [vm_compute; done|].
  split; vm_compute; reflexivity.
Defined.

(** ** The daily totals *)

Lemma foldl_insert_absent (l : list (Time * Seconds)) (m0 : gmap Date Seconds) k :
  k ∉ (λ s : Time * Seconds, Format s.1) <$> l →
  foldl (λ m s, <[Format s.1 := s.2]> m) m0 l !! k = m0 !! k.
Proof.
  revert m0. induction l as [|s l IH]; intros m0 H; simpl; [done|].
  rewrite fmap_cons in H. apply not_elem_of_cons in H as [H1 H2].
  rewrite IH by done. by rewrite lookup_insert_ne.
Qed.

Lemma foldl_insert_present (l : list (Time * Seconds)) (m0 : gmap Date Seconds) s :
  NoDup ((λ s : Time * Seconds, Format s.1) <$> l) →
  s ∈ l →
  foldl (λ m s, <[Format s.1 := s.2]> m) m0 l !! Format s.1 = Some s.2.
Proof.
  revert m0. induction l as [|s0 l IH]; intros m0 Hnd Hin; simpl.
  { by apply elem_of_nil in Hin. }
  rewrite fmap_cons in Hnd. apply NoDup_cons in Hnd as [Hnotin Hnd].
  apply elem_of_cons in Hin as [->|Hin]; [|by apply IH].
  rewrite foldl_insert_absent by done. apply lookup_insert_eq.
Qed.

Section Daily.
Context (rd : Reader) (parseDate : string → option Time).

(** The day has a summary among the rows of the query. *)
Let stored (start end_ : Time) (d : DB) (k : Date) : Prop :=
  (Format start ≤ k ∧ k ≤ Format end_) ∧ is_Some (day_summaries d !! k).

Let selected (start end_ : Time) (d : DB) : list (Date * Seconds) :=
  merge_sort by_day
    (filter (λ row, Format start ≤ row.1 ∧ row.1 ≤ Format end_)
       (map_to_list (day_summaries d))).

Lemma selected_rows start end_ d row :
  row ∈ selected start end_ d
  ↔ (Format start ≤ row.1 ∧ row.1 ≤ Format end_)
    ∧ day_summaries d !! row.1 = Some row.2.
Proof.
  destruct row as [day total]. unfold selected.
  by rewrite merge_sort_Permutation, list_elem_of_filter, elem_of_map_to_list.
Qed.

Lemma selected_NoDup start end_ d : NoDup (selected start end_ d).*1.
Proof.
  unfold selected. rewrite merge_sort_Permutation.
  apply NoDup_fmap_fst.
  - intros k0 v1 v2 [_ H1]%list_elem_of_filter [_ H2]%list_elem_of_filter.
    apply elem_of_map_to_list in H1, H2. congruence.
  - apply NoDup_filter, NoDup_map_to_list.
Qed.

(** The map of [getDailyStats] when the scanned days are the stored
    ones. *)
Lemma summaryMap_lookup start end_ d k :
  failing rd (SelectDaySummaries (Format start) (Format end_)) = false →
  (∀ k, stored start end_ d k → parseDate (dayText rd k) = Some (Parse k)) →
  foldl (λ (m : gmap Date Seconds) (s : Time * Seconds),
           <[Format s.1 := s.2]> m) ∅
    (GetDaySummaries rd parseDate start end_ d).1 !! k
  = if decide (Format start ≤ k ∧ k ≤ Format end_)
    then day_summaries d !! k else None.
Proof.
  intros Hq Hplain. unfold GetDaySummaries. rewrite Hq. simpl.
  fold (selected start end_ d). set (rows := selected start end_ d).
  pose proof (selected_rows start end_ d) as Hrows. fold rows in Hrows.
  assert (∀ row, row ∈ rows → Format (scanned_day rd parseDate row.1) = row.1)
    as Hscan.
  { intros row [Hr Hs]%Hrows. unfold scanned_day.
    rewrite Hplain; [apply Format_Parse|]. split; [done|]. by eexists. }
  assert ((λ s : Time * Seconds, Format s.1)
            <$> ((λ row : Date * Seconds,
                    (scanned_day rd parseDate row.1, row.2)) <$> rows)
          = rows.*1) as Ekeys.
  { rewrite <- list_fmap_compose. apply list_fmap_ext.
    intros i row Hi. simpl. apply Hscan. by eapply list_elem_of_lookup_2. }
  pose proof (selected_NoDup start end_ d) as Hnd. fold rows in Hnd.
  destruct (decide (Format start ≤ k ∧ k ≤ Format end_)) as [Hk|Hk].
  - destruct (day_summaries d !! k) as [v|] eqn:E.
    + assert ((k, v) ∈ rows) as Hin by (by apply Hrows).
      pose proof (foldl_insert_present
                    ((λ row : Date * Seconds,
                        (scanned_day rd parseDate row.1, row.2)) <$> rows)
                    ∅ (scanned_day rd parseDate k, v)) as L.
      pose proof (Hscan (k, v) Hin) as Ek. simpl in L, Ek.
      rewrite Ek in L. apply L.
      * by rewrite Ekeys.
      * apply list_elem_of_fmap. by exists (k, v).
    + rewrite foldl_insert_absent; [apply lookup_empty|].
      rewrite Ekeys. intros ([k' v] & -> & Hin)%list_elem_of_fmap.
      apply Hrows in Hin as [_ Hin]. simpl in *. congruence.
  - rewrite foldl_insert_absent; [apply lookup_empty|].
    rewrite Ekeys. intros ([k' v] & -> & Hin)%list_elem_of_fmap.
    apply Hrows in Hin as [Hin _]. simpl in *. done.
Qed.

(** The map of [getDailyStats] when no scanned day parses: every row is
    entered under the date of the zero time. *)
Lemma summaryMap_lookup_zero start end_ d k :
  failing rd (SelectDaySummaries (Format start) (Format end_)) = false →
  (∀ k, stored start end_ d k → parseDate (dayText rd k) = None) →
  k ≠ Format zeroTime →
  foldl (λ (m : gmap Date Seconds) (s : Time * Seconds),
           <[Format s.1 := s.2]> m) ∅
    (GetDaySummaries rd parseDate start end_ d).1 !! k
  = None.
Proof.
  intros Hq Hstamp Hk. unfold GetDaySummaries. rewrite Hq. simpl.
  fold (selected start end_ d).
  rewrite foldl_insert_absent; [apply lookup_empty|].
  rewrite <- list_fmap_compose.
  intros (row & -> & Hin)%list_elem_of_fmap. apply Hk. simpl.
  apply selected_rows in Hin as [Hr Hs]. unfold scanned_day.
  rewrite Hstamp; [done|]. split; [done|]. by eexists.
Qed.

Lemma fill_days_spec (summaryMap : gmap Date Seconds) end_ d data :
  fill_days summaryMap end_ d data
  = data
    ++ ((λ day,
           let totalSeconds := default 0 (summaryMap !! Format day) in
           {| dt_date := Format day; dt_total_seconds := totalSeconds;
              dt_text := formatDuration totalSeconds |})
          <$> days_of_range d end_).
Proof.
  apply (fill_days_elim
           (λ summaryMap end_ d data r,
              r = data
                  ++ ((λ day,
                         let totalSeconds :=
                           default 0 (summaryMap !! Format day) in
                         {| dt_date := Format day;
                            dt_total_seconds := totalSeconds;
                            dt_text := formatDuration totalSeconds |})
                        <$> days_of_range d end_))).
  - intros m e d' Hafter data' _.
    rewrite days_of_range_after by done. by rewrite app_nil_r.
  - intros m e d' Hnot data' IH _. cbv zeta in *.
    rewrite days_of_range_cons by done. rewrite fmap_cons.
    rewrite IH. by rewrite <- app_assoc.
Qed.

(** The answer of [getDailyStats], by the map it builds. *)
Lemma getDailyStats_by_map env startStr endStr start end_ w :
  startStr ≠ "" → endStr ≠ "" →
  parseDate startStr = Some start →
  parseDate endStr = Some end_ →
  failing rd (SelectDaySummaries (Format start) (Format end_)) = false →
  getDailyStats env rd parseDate startStr endStr w
  = (WriteOK
       ((λ day,
           let totalSeconds :=
             default 0
               (foldl (λ (m : gmap Date Seconds) (s : Time * Seconds),
                         <[Format s.1 := s.2]> m) ∅
                  (GetDaySummaries rd parseDate start end_ (db w)).1
                !! Format day) in
           {| dt_date := Format day; dt_total_seconds := totalSeconds;
              dt_text := formatDuration totalSeconds |})
          <$> days_of_range start end_), w).
Proof.
  intros Hs He Ps Pe Hq.
  unfold getDailyStats. rewrite decide_False by tauto. run.
  rewrite Ps, Pe.
  assert ((GetDaySummaries rd parseDate start end_ (db w)).2 = None) as E2.
  { unfold GetDaySummaries. by rewrite Hq. }
  destruct (GetDaySummaries rd parseDate start end_ (db w))
    as [summaries err].
  simpl in *. subst err. run. do 2 f_equal.
  by rewrite fill_days_spec.
Qed.

End Daily.

(** X11.  [getDailyStats] with both parameters answers with one entry for
    each day from [start] to [end], in order, and writes nothing.  When
    the driver yields the stored dates as they were written, the entry of
    a day carries the stored total of the day, or 0 when the day has no
    summary.  When it yields time stamps, which the parser rejects, every
    summary is entered under the date of the zero time and every day of
    the range counts 0, as if the store held no summary.  When [start] is
    after [end] the data is empty (the status is still 200). *)
Theorem getDailyStats_fills env rd parseDate startStr endStr start end_ w :
  startStr ≠ "" → endStr ≠ "" →
  parseDate startStr = Some start →
  parseDate endStr = Some end_ →
  failing rd (SelectDaySummaries (Format start) (Format end_)) = false →
  let stored k :=
    (Format start ≤ k ∧ k ≤ Format end_)
    ∧ is_Some (day_summaries (db w) !! k) in
  ((∀ k, stored k → parseDate (dayText rd k) = Some (Parse k)) →
   getDailyStats env rd parseDate startStr endStr w
   = (WriteOK (daily_total (db w) <$> days_of_range start end_), w))
  ∧ ((∀ k, stored k → parseDate (dayText rd k) = None) →
     Format zeroTime < Format start →
     getDailyStats env rd parseDate startStr endStr w
     = (WriteOK (daily_total emptyDB <$> days_of_range start end_), w))
  ∧ (After start end_ →
     getDailyStats env rd parseDate startStr endStr w = (WriteOK [], w)).
Proof.
  intros Hs He Ps Pe Hq. cbv zeta.
  rewrite (getDailyStats_by_map rd parseDate env startStr endStr start end_ w)
    by done.
  assert (∀ d, d ∈ days_of_range start end_ →
               Format start ≤ Format d ∧ Format d ≤ Format end_) as Hin.
  { intros d Hd.
    apply days_of_range_Format in Hd as (j & Hj & -> & HF & Hna).
    rewrite HF. split; [lia|]. rewrite <- HF.
    unfold After in Hna. unfold Format, secondsPerDay.
    apply Z.div_le_mono; lia. }
  split; [|split].
  - intros Hplain. do 2 f_equal.
    apply list_fmap_ext. intros i d Hd. unfold daily_total.
    apply list_elem_of_lookup_2 in Hd.
    rewrite (summaryMap_lookup rd parseDate start end_ (db w)) by done.
    by rewrite decide_True by by apply Hin.
  - intros Hstamp Hzero. do 2 f_equal.
    apply list_fmap_ext. intros i d Hd. unfold daily_total.
    apply list_elem_of_lookup_2 in Hd.
    rewrite (summaryMap_lookup_zero rd parseDate start end_ (db w)); [done..|].
    apply Hin in Hd. lia.
  - intros Hafter. by rewrite days_of_range_after.
Qed.

(** X11, witness: the same store and request, read through a driver that
    yields dates and through one that yields time stamps. *)
Lemma getDailyStats_fills_witness :
  getDailyStats sampleEnv datesReader sampleParse "2024-10-04" "2024-10-07"
    yearWorld
  = (WriteOK
       [ {| dt_date := 20000; dt_total_seconds := 5000;
            dt_text := "1 hrs 23 mins" |};
         {| dt_date := 20001; dt_total_seconds := 1200;
            dt_text := "20 mins" |};
         {| dt_date := 20002; dt_total_seconds := 300; dt_text := "5 mins" |};
         {| dt_date := 20003; dt_total_seconds := 0; dt_text := "0 mins" |} ],
     yearWorld)
  ∧ getDailyStats sampleEnv stampsReader sampleParse "2024-10-04" "2024-10-07"
      yearWorld
    = (WriteOK
         [ {| dt_date := 20000; dt_total_seconds := 0; dt_text := "0 mins" |};
           {| dt_date := 20001; dt_total_seconds := 0; dt_text := "0 mins" |};
           {| dt_date := 20002; dt_total_seconds := 0; dt_text := "0 mins" |};
           {| dt_date := 20003; dt_total_seconds := 0;
              dt_text := "0 mins" |} ],
       yearWorld).
Proof.
  assert (∀ k, Format (Parse 20000) ≤ k ∧ k ≤ Format (Parse 20003) →
               k = 20000 ∨ k = 20001 ∨ k = 20002 ∨ k = 20003) as Hk.
  { intros k. rewrite !Format_Parse. lia. }
  split.
  - etrans.
    + refine (proj1 (getDailyStats_fills sampleEnv datesReader sampleParse
                       "2024-10-04" "2024-10-07" (Parse 20000) (Parse 20003)
                       yearWorld _ _ _ _ _) _).
      * vm_compute. done.
      * vm_compute. done.
      * reflexivity.
      * reflexivity.
      * reflexivity.
      * intros k [Hr _].
        destruct (Hk k Hr) as [ -> | [ -> | [ -> | -> ] ] ]; reflexivity.
    + vm_compute. reflexivity.
  - etrans.
    + refine (proj1 (proj2 (getDailyStats_fills sampleEnv stampsReader
                              sampleParse "2024-10-04" "2024-10-07"
                              (Parse 20000) (Parse 20003)
                              yearWorld _ _ _ _ _)) _ _).
      * vm_compute. done.
      * vm_compute. done.
      * reflexivity.
      * reflexivity.
      * reflexivity.
      * intros k [Hr _].
        destruct (Hk k Hr) as [ -> | [ -> | [ -> | -> ] ] ]; reflexivity.
      * vm_compute. reflexivity.
    + vm_compute. reflexivity.
Defined.

(** ** The offset of the time zone *)

Lemma padZero_two_digits n :
  0 ≤ n < 100 → padZero n = two_digits n.
Proof.
  intros Hn.
  assert (n ∈ seqZ 0 100) as Hin by (apply elem_of_seqZ; lia).
  revert Hin. generalize n. apply Forall_forall.
  apply (bool_decide_unpack _). vm_compute. exact I.
Qed.

(** X12.  For an offset of less than a hundred hours either way,
    [formatTimezoneOffset] prints the sign, the hours of the absolute
    offset on two digits, a colon and the remaining minutes on two
    digits. *)
Theorem formatTimezoneOffset_shape offset :
  -360000 < offset < 360000 →
  formatTimezoneOffset offset
  = (if decide (0 ≤ offset) then "+" else "-")
    +:+ two_digits (Z.abs offset `div` 3600)
    +:+ ":" +:+ two_digits ((Z.abs offset `mod` 3600) `div` 60).
Proof.
  intros Hr. unfold formatTimezoneOffset.
  pose proof (Z.mod_pos_bound (Z.abs offset) 3600 ltac:(lia)) as Hm.
  assert (0 ≤ Z.abs offset `div` 3600 < 100) as Hh.
  { split; [apply Z.div_pos; lia|]. apply Z.div_lt_upper_bound; lia. }
  assert (0 ≤ (Z.abs offset `mod` 3600) `div` 60 < 100) as Hmin.
  { split; [apply Z.div_pos; lia|]. apply Z.div_lt_upper_bound; lia. }
  destruct (decide (0 ≤ offset)) as [Hpos|Hneg].
  - rewrite Z.abs_eq in * by done.
    rewrite Z.quot_div_nonneg, Z.rem_mod_nonneg by lia.
    rewrite Z.quot_div_nonneg by lia.
    by rewrite !padZero_two_digits.
  - rewrite Z.abs_neq in * by lia.
    rewrite <- !Z.quot_opp_l, <- Z.rem_opp_l by lia.
    rewrite Z.quot_div_nonneg, Z.rem_mod_nonneg by lia.
    rewrite Z.quot_div_nonneg by lia.
    by rewrite !padZero_two_digits.
Qed.

(** X12, witness. *)
Lemma formatTimezoneOffset_shape_witness :
  formatTimezoneOffset (-19800) = "-05:30"
  ∧ formatTimezoneOffset 28800 = "+08:00".
Proof.
  split.
  - etrans; [apply (formatTimezoneOffset_shape (-19800)); lia|].
    vm_compute. reflexivity.
  - etrans; [apply (formatTimezoneOffset_shape 28800); lia|].
    vm_compute. reflexivity.
Defined.

Section Preserves.
Context (P : DB → Prop) (env : Env).

Lemma preserves_ret {A} (x : A) : preserves P (ret x).
Proof. by intros w. Qed.

Lemma preserves_bind {A B} (m : M A) (k : A → M B) :
  preserves P m → (∀ a, preserves P (k a)) → preserves P (bind m k).
Proof.
  intros Hm Hk w Hw. unfold bind. destruct (m w) as [a w1] eqn:E.
  apply Hk. specialize (Hm w Hw). by rewrite E in Hm.
Qed.

Lemma preserves_emit e : preserves P (emit e).
Proof. by intros w. Qed.

Lemma preserves_attempt op : preserves P (attempt env op).
Proof. by intros w. Qed.

Lemma preserves_get_db : preserves P get_db.
Proof. by intros w. Qed.

Lemma preserves_exec op effect :
  (∀ d, P d → P (effect d)) → preserves P (exec env op effect).
Proof.
  intros H w Hw. run.
  destruct (faults env (trace w) op); simpl; [done | by apply H].
Qed.

Lemma preserves_insert_tx {R} t (arg : R → RowArg) put rows :
  (∀ x d, P d → P (put x d)) → preserves P (insert_tx env t arg put rows).
Proof.
  intros H w Hw.
  destruct (insert_tx_spec env t arg put rows w) as [[_ E]|(e & _ & E)];
    rewrite E; [|done].
  clear E. revert Hw. generalize (db w).
  induction rows as [|x rows IH]; intros d Hd; simpl; [done|].
  apply IH. by apply H.
Qed.

Lemma preserves_fetch_projects day ps acc :
  preserves P (fetch_projects env day ps acc).
Proof.
  revert acc. induction ps as [|p ps IH]; intros acc; simpl;
    [apply preserves_ret|].
  unfold GetDurationsWithProject, slog_Error.
  apply preserves_bind.
  - apply preserves_bind; [apply preserves_emit|]. intros _. apply preserves_ret.
  - intros [e|resp]; [|apply IH].
    apply preserves_bind; [apply preserves_emit|]. intros _. apply IH.
Qed.

End Preserves.

(** Invariant goals, by the structure of the computation. *)
Ltac invariant :=
  repeat first
    [ apply preserves_ret | apply preserves_emit | apply preserves_attempt
    | apply preserves_get_db | apply preserves_fetch_projects
    | apply preserves_exec; solve [intros; eauto]
    | apply preserves_insert_tx; solve [intros; eauto]
    | apply preserves_bind; [| intros ?]
    | match goal with
      | |- preserves _ (match ?x with _ => _ end) => destruct x
      | |- preserves _ (if ?x then _ else _) => destruct x
      end ].

(** A property of the store that every statement of [SyncDay] keeps is
    kept by [SyncDay]. *)
Lemma preserves_SyncDay (P : DB → Prop) env day :
  (∀ l d, P d → P (set_durations l d)) →
  (∀ l d, P d → P (set_project_durations l d)) →
  (∀ l d, P d → P (set_heartbeats l d)) →
  (∀ m d, P d → P (set_day_summaries m d)) →
  (∀ m d, P d → P (set_sync_log m d)) →
  (∀ d, P d →
     P (set_day_stats
          (filter (λ r, Format (ds_Day r) ≠ Format day) (day_stats d)) d)) →
  (∀ s d, P d → P (put_day_stat s d)) →
  preserves P (SyncDay env day).
Proof.
  intros H1 H2 H3 H4 H5 H6 H7.
  unfold SyncDay, syncSummary, syncDurations, syncHeartbeats, RecordSync,
    GetSummaries, GetDurations, GetHeartbeats, GetDaySummary,
    UpsertDaySummary, DeleteDayStatsByDay, InsertDayStats,
    CountDurationsByDay, DeleteDurationsByDay, InsertDurations,
    DeleteProjectDurationsByDay, InsertProjectDurations,
    CountHeartbeatsByDay, DeleteHeartbeatsByDay, InsertHeartbeats,
    slog_Info, slog_Error, put_duration, put_project_duration, put_heartbeat.
  invariant.
Qed.

(** ** The key of the day stats *)

Lemma upsert_day_stat_keys s l :
  stat_key <$> upsert_day_stat s l
  = if decide (stat_key s ∈ stat_key <$> l) then stat_key <$> l
    else (stat_key <$> l) ++ [stat_key s].
Proof.
  induction l as [|r l IH].
  - destruct (decide _) as [H|_]; [by apply elem_of_nil in H|].
    simpl. unfold stat_key. simpl. by rewrite Format_Parse.
  - cbn [upsert_day_stat].
    assert (stat_key s = stat_key r
            ↔ Format (ds_Day r) = Format (ds_Day s)
              ∧ ds_Type r = ds_Type s ∧ ds_Name r = ds_Name s) as Hk.
    { unfold stat_key. split; [intros [= -> -> ->]; done|].
      intros (-> & -> & ->). done. }
    destruct (decide (Format (ds_Day r) = Format (ds_Day s)
                      ∧ ds_Type r = ds_Type s ∧ ds_Name r = ds_Name s))
      as [He|Hne].
    + rewrite decide_True.
      2:{ rewrite fmap_cons. apply elem_of_cons. left. by apply Hk. }
      done.
    + rewrite !fmap_cons, IH.
      destruct (decide (stat_key s ∈ stat_key <$> l)) as [Hin|Hnin].
      * rewrite decide_True; [done|]. apply elem_of_cons. by right.
      * rewrite decide_False; [done|].
        intros [E|?]%elem_of_cons; [|done]. by apply Hne, Hk.
Qed.

Lemma NoDup_stat_key_filter (Q : DayStats → Prop) `{∀ r, Decision (Q r)} l :
  NoDup (stat_key <$> l) → NoDup (stat_key <$> filter Q l).
Proof.
  induction l as [|r l IH]; [done|].
  rewrite fmap_cons, filter_cons. intros [Hr Hl]%NoDup_cons.
  destruct (decide (Q r)); [|by apply IH].
  rewrite fmap_cons. apply NoDup_cons. split; [|by apply IH].
  intros (r' & E & [_ Hr']%list_elem_of_filter)%list_elem_of_fmap.
  apply Hr. apply list_elem_of_fmap. by exists r'.
Qed.

(** X13.  No sync of a day ever leaves two rows of [day_stats] with the
    same day, type and name, whichever statements fail. *)
Theorem SyncDay_keeps_stats_unique env day w :
  NoDup (stat_key <$> day_stats (db w)) →
  NoDup (stat_key <$> day_stats (db (SyncDay env day w).2)).
Proof.
  apply (preserves_SyncDay (λ d, NoDup (stat_key <$> day_stats d)));
    try done.
  - intros d Hd. simpl. by apply NoDup_stat_key_filter.
  - intros s d Hd. unfold put_day_stat. simpl.
    rewrite upsert_day_stat_keys. destruct (decide _) as [Hin|Hnin]; [done|].
    apply NoDup_app. split; [done|]. split; [|apply NoDup_singleton].
    intros k Hk ->%list_elem_of_singleton. done.
Qed.

(** X13, witness: a sync that rewrites the summary of a day of which the
    store holds stats: the day's rows are deleted, "Python" among them,
    and the rows of the new summary are upserted after the row of the day
    before. *)
Lemma SyncDay_keeps_stats_unique_witness :
  let d' := db (SyncDay sampleEnv sampleDay outdatedWorld).2 in
  NoDup (stat_key <$> day_stats d')
  ∧ (λ r, (Format (ds_Day r), ds_Name r, ds_TotalSeconds r)) <$> day_stats d'
    = [ (19999, "Go", 100); (20000, "Coding", 5000); (20000, "Go", 3000);
        (20000, "Rocq", 2000); (20000, "waka", 3000); (20000, "blog", 2000) ].
Proof.
  split; [|vm_compute; reflexivity].
  apply (SyncDay_keeps_stats_unique sampleEnv sampleDay outdatedWorld).
  apply (bool_decide_unpack _). vm_compute. exact I.
Defined.

(** ** The batch inserts *)

Lemma foldl_put_duration_db rows d :
  foldl (λ d x, put_duration x d) d rows
  = set_durations (durations d ++ (stored_duration <$> rows)) d.
Proof.
  revert d. induction rows as [|x rows IH]; intros d; simpl.
  - rewrite app_nil_r. by destruct d.
  - rewrite IH. unfold put_duration, set_durations. simpl.
    f_equal. by rewrite <- app_assoc.
Qed.

Lemma foldl_put_project_duration_db rows d :
  foldl (λ d x, put_project_duration x d) d rows
  = set_project_durations
      (project_durations d ++ (stored_project_duration <$> rows)) d.
Proof.
  revert d. induction rows as [|x rows IH]; intros d; simpl.
  - rewrite app_nil_r. by destruct d.
  - rewrite IH. unfold put_project_duration, set_project_durations. simpl.
    f_equal. by rewrite <- app_assoc.
Qed.

Lemma foldl_put_heartbeat_db rows d :
  foldl (λ d x, put_heartbeat x d) d rows
  = set_heartbeats (heartbeats d ++ (stored_heartbeat <$> rows)) d.
Proof.
  revert d. induction rows as [|x rows IH]; intros d; simpl.
  - rewrite app_nil_r. by destruct d.
  - rewrite IH. unfold put_heartbeat, set_heartbeats. simpl.
    f_equal. by rewrite <- app_assoc.
Qed.

Lemma foldl_put_day_stat_db rows d :
  foldl (λ d x, put_day_stat x d) d rows
  = set_day_stats (foldl (λ l s, upsert_day_stat s l) (day_stats d) rows) d.
Proof.
  revert d. induction rows as [|x rows IH]; intros d; simpl.
  - by destruct d.
  - by rewrite IH.
Qed.

(** X14.  Each batch insert is all or nothing: it returns nil and the table
    holds, after the rows it had, every row of the batch in order (for
    [day_stats], every row upserted in order); or it returns an error and
    the store is as before the call. *)
Theorem batch_inserts_all_or_nothing env w :
  (∀ rows, let r := InsertDurations env rows w in
     (r.1 = None
      ∧ db r.2 = set_durations
                   (durations (db w) ++ (stored_duration <$> rows)) (db w))
     ∨ (∃ e, r.1 = Some e ∧ db r.2 = db w))
  ∧ (∀ rows, let r := InsertProjectDurations env rows w in
       (r.1 = None
        ∧ db r.2 = set_project_durations
                     (project_durations (db w)
                      ++ (stored_project_duration <$> rows)) (db w))
       ∨ (∃ e, r.1 = Some e ∧ db r.2 = db w))
  ∧ (∀ rows, let r := InsertHeartbeats env rows w in
       (r.1 = None
        ∧ db r.2 = set_heartbeats
                     (heartbeats (db w) ++ (stored_heartbeat <$> rows)) (db w))
       ∨ (∃ e, r.1 = Some e ∧ db r.2 = db w))
  ∧ (∀ rows, let r := InsertDayStats env rows w in
       (r.1 = None
        ∧ db r.2 = set_day_stats
                     (foldl (λ l s, upsert_day_stat s l)
                        (day_stats (db w)) rows) (db w))
       ∨ (∃ e, r.1 = Some e ∧ db r.2 = db w)).
Proof.
  split; [|split; [|split]]; intros rows; cbv zeta.
  - destruct (insert_tx_spec env TDurations RowDuration put_duration rows w)
      as [[H1 H2]|H]; [left|by right].
    split; [done|]. unfold InsertDurations. by rewrite H2, foldl_put_duration_db.
  - destruct (insert_tx_spec env TProjectDurations RowProjectDuration
                put_project_duration rows w) as [[H1 H2]|H]; [left|by right].
    split; [done|]. unfold InsertProjectDurations.
    by rewrite H2, foldl_put_project_duration_db.
  - destruct (insert_tx_spec env THeartbeats RowHeartBeat put_heartbeat rows w)
      as [[H1 H2]|H]; [left|by right].
    split; [done|]. unfold InsertHeartbeats.
    by rewrite H2, foldl_put_heartbeat_db.
  - destruct (insert_tx_spec env TDayStats RowDayStats put_day_stat rows w)
      as [[H1 H2]|H]; [left|by right].
    split; [done|]. unfold InsertDayStats.
    by rewrite H2, foldl_put_day_stat_db.
Qed.

(** ** The scheduler *)

(** X15.  With no failing statement, [SyncYesterday] leaves in the sync log
    the entry of the day before the clock reading, by the outcome of that
    day's summary fetch, and no other entry changes. *)
Theorem SyncYesterday_log env w :
  store_ok env →
  let now := clock env (trace w) in
  let w' := (SyncYesterday env w).2 in
  sync_log (db w') !! (Format now - 1)
  = Some (audit_entry (summary_outcome (remote env) (AddDate now (-1))))
  ∧ ∀ k, k ≠ Format now - 1 → sync_log (db w') !! k = sync_log (db w) !! k.
Proof.
  intros Hok. cbv zeta.
  set (now := clock env (trace w)).
  set (w1 := {| db := db w; trace := EvNow now :: trace w |}).
  assert (db (SyncYesterday env w).2 = db (SyncDay env (AddDate now (-1)) w1).2)
    as ->.
  { unfold SyncYesterday, time_Now. run. fold now. fold w1.
    destruct (SyncDay env (AddDate now (-1)) w1) as [[e|] w2]; done. }
  assert (Format (AddDate now (-1)) = Format now - 1) as EF
    by (rewrite Format_AddDate; lia).
  split.
  - rewrite <- EF. apply (SyncDay_settles env Hok (AddDate now (-1)) w1).
  - intros k Hk. change (db w) with (db w1).
    apply (keeps_SyncDay_day env (λ x, sync_log x !! k) (AddDate now (-1)));
      try done.
    intros l x. simpl. apply lookup_insert_ne. by rewrite EF.
Qed.

(** X15, witness. *)
Lemma SyncYesterday_log_witness :
  sync_log (db (SyncYesterday sampleEnv emptyWorld).2) !! Format sampleDay
  = Some {| sl_TotalSeconds := 5000; sl_Status := "success" |}.
Proof.
  exact (proj1 (SyncYesterday_log sampleEnv emptyWorld (noFaults_ok _ _))).
Defined.

(** ** The projects *)

Lemma upsert_project_uuids p table :
  p_UUID <$> upsert_project p table
  = if decide (p_UUID p ∈ p_UUID <$> table) then p_UUID <$> table
    else (p_UUID <$> table) ++ [p_UUID p].
Proof.
  induction table as [|r table IH].
  - destruct (decide _) as [H|_]; [by apply elem_of_nil in H|done].
  - cbn [upsert_project]. destruct (decide (p_UUID r = p_UUID p)) as [E|Hne].
    + rewrite decide_True by (rewrite fmap_cons, E; by left).
      by rewrite !fmap_cons, E.
    + rewrite !fmap_cons, IH.
      destruct (decide (p_UUID p ∈ p_UUID <$> table)) as [Hin|Hnin].
      * rewrite decide_True; [done|]. by right.
      * rewrite decide_False; [done|].
        intros [?|?]%elem_of_cons; done.
Qed.

Lemma upsert_project_NoDup p table :
  NoDup (p_UUID <$> table) → NoDup (p_UUID <$> upsert_project p table).
Proof.
  intros H. rewrite upsert_project_uuids. destruct (decide _); [done|].
  apply NoDup_app. split; [done|]. split; [|apply NoDup_singleton].
  intros k Hk ->%list_elem_of_singleton. done.
Qed.

Lemma upsert_project_lookup p table uuid :
  project_by_uuid uuid (upsert_project p table)
  = if decide (p_UUID p = uuid) then Some p else project_by_uuid uuid table.
Proof.
  unfold project_by_uuid. induction table as [|r table IH].
  - simpl. rewrite filter_cons. by destruct (decide (p_UUID p = uuid)).
  - cbn [upsert_project]. destruct (decide (p_UUID r = p_UUID p)) as [E|Hne].
    + rewrite !filter_cons.
      destruct (decide (p_UUID p = uuid)) as [E'|Hne'].
      * done.
      * rewrite decide_False by congruence. done.
    + rewrite !filter_cons.
      destruct (decide (p_UUID r = uuid)) as [E'|Hne'].
      * rewrite decide_False by congruence. done.
      * exact IH.
Qed.

Section ProjectsSync.
Context (parseRFC3339 : string → option Time).
Context (upsertFails : list Project → Project → bool).
Context (Hok : ∀ table p, upsertFails table p = false).

Lemma upsert_all_ok data table log :
  upsert_all parseRFC3339 upsertFails data table log
  = (foldl (λ t p, upsert_project (project_of parseRFC3339 p) t) table data,
     log).
Proof.
  revert table. induction data as [|p data IH]; intros table; simpl; [done|].
  unfold UpsertProject. rewrite Hok. apply IH.
Qed.

Lemma foldl_upsert_NoDup data table :
  NoDup (p_UUID <$> table) →
  NoDup (p_UUID <$>
           foldl (λ t p, upsert_project (project_of parseRFC3339 p) t)
             table data).
Proof.
  revert table. induction data as [|p data IH]; intros table H; simpl; [done|].
  apply IH. by apply upsert_project_NoDup.
Qed.

Lemma foldl_upsert_lookup data table uuid :
  project_by_uuid uuid
    (foldl (λ t p, upsert_project (project_of parseRFC3339 p) t) table data)
  = match last (filter (λ p, pj_ID p = uuid) data) with
    | Some p => Some (project_of parseRFC3339 p)
    | None => project_by_uuid uuid table
    end.
Proof.
  revert table. induction data as [|p data IH]; intros table; [done|].
  cbn [foldl]. rewrite IH, filter_cons, upsert_project_lookup.
  change (p_UUID (project_of parseRFC3339 p)) with (pj_ID p).
  destruct (decide (pj_ID p = uuid)) as [E|Hne]; [|done].
  destruct (filter (λ p0, pj_ID p0 = uuid) data) as [|q l] eqn:Ef; [done|].
  rewrite last_cons_cons. destruct (last (q :: l)) eqn:El; [done|].
  by apply last_None in El.
Qed.

End ProjectsSync.

(** X16.  [SyncProjects] returns an error exactly when the fetch fails, and
    then changes nothing.  Otherwise, when no upsert fails, the table
    holds for every uuid the last project the service listed under it
    (with a heartbeat time that is empty or does not parse stored as the
    zero time), the rows of the other uuids are as before, and no uuid
    occurs twice. *)
Theorem SyncProjects_upserts parseRFC3339 upsertFails answer_ table log :
  (∀ table p, upsertFails table p = false) →
  NoDup (p_UUID <$> table) →
  let r := SyncProjects parseRFC3339 upsertFails answer_ table log in
  match answer_ with
  | inl code => r = (Some (UpstreamError code), (table, log))
  | inr data =>
      r.1 = None
      ∧ NoDup (p_UUID <$> r.2.1)
      ∧ ∀ uuid,
          project_by_uuid uuid r.2.1
          = match last (filter (λ p, pj_ID p = uuid) data) with
            | Some p => Some (project_of parseRFC3339 p)
            | None => project_by_uuid uuid table
            end
  end.
Proof.
  intros Hok Hnd. cbv zeta. unfold SyncProjects.
  destruct answer_ as [code|data]; simpl; [done|].
  rewrite upsert_all_ok by done. simpl.
  split; [done|]. split.
  - by apply foldl_upsert_NoDup.
  - intros uuid. apply foldl_upsert_lookup.
Qed.

(** X16, witness. *)
Lemma SyncProjects_upserts_witness :
  let r := SyncProjects sampleParseRFC3339 (λ _ _, false)
             (inr [projectData "1" "waka"; projectData "2" "blog";
                   projectData "1" "wakatime"]) [] [] in
  r.1 = None
  ∧ NoDup (p_UUID <$> r.2.1)
  ∧ project_by_uuid "1" r.2.1
    = Some {| p_UUID := "1"; p_Name := "wakatime"; p_Repository := "";
              p_Badge := ""; p_Color := ""; p_HasPublicURL := false;
              p_LastHeartbeatAt := sampleDay;
              p_FirstHeartbeatAt := zeroTime |}.
Proof.
  pose proof (SyncProjects_upserts sampleParseRFC3339 (λ _ _, false)
                (inr [projectData "1" "waka"; projectData "2" "blog";
                      projectData "1" "wakatime"]) [] []
                (λ _ _, eq_refl) (NoDup_nil_2 : NoDup (p_UUID <$> [])))
    as (H1 & H2 & H3).
  split; [exact H1|]. split; [exact H2|].
  etrans; [apply (H3 "1")|]. vm_compute. reflexivity.
Defined.

(** X17.  When the summary fetch fails, [SyncDay] returns that error and
    touches no data; but it writes the day into the sync log as "failed":
    a day that was synced before no longer counts as synced. *)
Theorem SyncDay_fetch_failure env day w code :
  summaries (remote env) (Format day) (Format day) = inl code →
  audit_ok env →
  (∀ h, faults env h (QueryIsDaySynced (Format day)) = false) →
  let r := SyncDay env day w in
  r.1 = Some (UpstreamError code)
  ∧ db r.2
    = set_sync_log
        (<[Format day := {| sl_TotalSeconds := 0; sl_Status := "failed" |}]>
           (sync_log (db w))) (db w)
  ∧ (IsDaySynced env day r.2).1 = (false, None).
Proof.
  intros Hr Hok Hq. cbv zeta.
  assert (SyncDay env day w
          = (Some (UpstreamError code),
             (RecordSync env day 0 "failed"
                {| db := db w;
                   trace := EvLog LevelError "failed to sync summary"
                            :: EvHttp (CallSummaries (Format day) (Format day))
                            :: EvLog LevelInfo "syncing data" :: trace w |}).2))
    as ->.
  { rewrite SyncDay_unfold. cbv zeta.
    unfold syncSummary, GetSummaries. run. rewrite Hr. simpl. done. }
  split; [done|].
  assert (db (RecordSync env day 0 "failed"
                {| db := db w;
                   trace := EvLog LevelError "failed to sync summary"
                            :: EvHttp (CallSummaries (Format day) (Format day))
                            :: EvLog LevelInfo "syncing data" :: trace w |}).2
          = set_sync_log
              (<[Format day := {| sl_TotalSeconds := 0;
                                  sl_Status := "failed" |}]>
                 (sync_log (db w))) (db w)) as E.
  { unfold RecordSync. run. by rewrite Hok. }
  split; [exact E|].
  simpl. unfold IsDaySynced. run. rewrite Hq. simpl. rewrite E. simpl.
  by rewrite lookup_insert_eq.
Qed.

(** X17, witness. *)
Lemma SyncDay_fetch_failure_witness :
  let env := mkEnv summariesDownRemote noFaults (λ l, l) in
  let r := SyncDay env sampleDay syncedWorld in
  (IsDaySynced env sampleDay syncedWorld).1 = (true, None)
  ∧ r.1 = Some (UpstreamError 503)
  ∧ db r.2
    = set_sync_log
        (<[Format sampleDay := {| sl_TotalSeconds := 0;
                                  sl_Status := "failed" |}]>
           (sync_log (db syncedWorld))) (db syncedWorld)
  ∧ (IsDaySynced env sampleDay r.2).1 = (false, None).
Proof.
  intros env r. split; [vm_compute; reflexivity|].
  apply (SyncDay_fetch_failure env sampleDay syncedWorld 503).
  - reflexivity.
  - by intros h day totalSeconds status.
  - by intros h.
Defined.

(** X6, witness. *)
Lemma aggregated_after_sync_witness :
  let r := (GetAggregatedStats sampleEnv sampleDay sampleDay "project"
              (SyncDay sampleEnv sampleDay emptyWorld).2).1 in
  r.2 = None
  ∧ r.1 ≡ₚ [ {| as_Name := "waka"; as_TotalSeconds := 3000 |};
            {| as_Name := "blog"; as_TotalSeconds := 2000 |} ]
  ∧ Sorted total_desc r.1.
Proof.
  apply (aggregated_after_sync sampleEnv sampleDay emptyWorld
           {| sr_Data := [sampleSummary] |} sampleSummary [] "project").
  - apply noFaults_ok.
  - reflexivity.
  - reflexivity.
  - vm_compute. done.
  - intros T. unfold breakdown.
    repeat (destruct (decide _);
            [apply (bool_decide_unpack _); vm_compute; exact I|]).
    constructor.
Defined.

(** X8, witness. *)
Lemma SyncDays_days_witness :
  sync_log (db (SyncDays sampleEnv 1 emptyWorld).2) !! Format sampleDay
  = Some {| sl_TotalSeconds := 5000; sl_Status := "success" |}
  ∧ db (SyncDays tickingEnv 1 emptyWorld).2 = emptyDB.
Proof.
  split.
  - rewrite (proj1 (SyncDays_days sampleEnv 1 emptyWorld) eq_refl).
    vm_compute. reflexivity.
  - rewrite (proj2 (SyncDays_days tickingEnv 1 emptyWorld)).
    + vm_compute. reflexivity.
    + vm_compute. done.
Defined.

(** X14, witness. *)
Lemma batch_inserts_all_or_nothing_witness :
  let env := mkEnv sampleRemote (failRowsOf TDurations) (λ l, l) in
  let rows := [storedDuration sampleDay;
               {| d_Day := sampleDay; d_Project := "blog"; d_StartTime := 200;
                  d_Duration := 60; d_Dependencies := "" |}] in
  ∃ e, (InsertDurations env rows emptyWorld).1 = Some e
       ∧ db (InsertDurations env rows emptyWorld).2 = emptyDB.
Proof.
  intros env rows.
  destruct (proj1 (batch_inserts_all_or_nothing env emptyWorld) rows)
    as [[H _]|H].
  - exfalso. revert H. vm_compute. done.
  - exact H.
Defined.

(** ** The configuration *)

(** X18.  A configuration that [Load] returns never has an empty listen
    address, database path, start date, schedule or time zone; a variable
    of the environment that is set wins over the file; and without a file
    and without any variable set the configuration is the default one. *)
Theorem Load_fields Getenv Unmarshal file cfg :
  config.Load Getenv Unmarshal file = inr cfg →
  (config.ListenAddr cfg ≠ "" ∧ config.DatabasePath cfg ≠ ""
   ∧ config.StartDate cfg ≠ "" ∧ config.SyncSchedule cfg ≠ ""
   ∧ config.Timezone cfg ≠ "")
  ∧ (Getenv "LISTEN_ADDR" ≠ "" → config.ListenAddr cfg = Getenv "LISTEN_ADDR")
  ∧ (Getenv "DATABASE_PATH" ≠ "" →
     config.DatabasePath cfg = Getenv "DATABASE_PATH")
  ∧ (Getenv "WAKATIME_API_KEY" ≠ "" →
     config.WakaTimeAPI cfg = Getenv "WAKATIME_API_KEY")
  ∧ (Getenv "PROXY_URL" ≠ "" → config.ProxyURL cfg = Getenv "PROXY_URL")
  ∧ (Getenv "START_DATE" ≠ "" → config.StartDate cfg = Getenv "START_DATE")
  ∧ (Getenv "SYNC_SCHEDULE" ≠ "" →
     config.SyncSchedule cfg = Getenv "SYNC_SCHEDULE")
  ∧ (Getenv "TIMEZONE" ≠ "" → config.Timezone cfg = Getenv "TIMEZONE")
  ∧ (file = config.FileNotExist → (∀ name, Getenv name = "") →
     cfg = config.defaultConfig).
Proof.
  unfold config.Load. intros H.
  assert (∃ cfg0,
    cfg = {| config.ListenAddr :=
               config.or_default
                 (config.override (Getenv "LISTEN_ADDR")
                    (config.ListenAddr cfg0)) ":3040";
             config.DatabasePath :=
               config.or_default
                 (config.override (Getenv "DATABASE_PATH")
                    (config.DatabasePath cfg0)) "wakatime.db";
             config.WakaTimeAPI :=
               config.override (Getenv "WAKATIME_API_KEY")
                 (config.WakaTimeAPI cfg0);
             config.ProxyURL :=
               config.override (Getenv "PROXY_URL") (config.ProxyURL cfg0);
             config.StartDate :=
               config.or_default
                 (config.override (Getenv "START_DATE")
                    (config.StartDate cfg0)) "2016-01-01";
             config.SyncSchedule :=
               config.or_default
                 (config.override (Getenv "SYNC_SCHEDULE")
                    (config.SyncSchedule cfg0)) "0 1 * * *";
             config.Timezone :=
               config.or_default
                 (config.override (Getenv "TIMEZONE")
                    (config.Timezone cfg0)) "Local" |}
    ∧ (file = config.FileNotExist → cfg0 = config.defaultConfig))
    as (cfg0 & -> & Hdef).
  { destruct file as [data| |code]; [|..].
    - destruct (Unmarshal data config.defaultConfig) as [c|]; [|done].
      exists c. split; [by injection H as <-|done].
    - exists config.defaultConfig. split; [by injection H as <-|done].
    - done. }
  simpl. unfold config.or_default, config.override.
  split; [|split; [|split; [|split; [|split; [|split; [|split; [|split]]]]]]].
  - repeat split; repeat (destruct (decide _)); done.
  - intros E. rewrite (decide_True _ _ E). by rewrite decide_False.
  - intros E. rewrite (decide_True _ _ E). by rewrite decide_False.
  - intros E. by rewrite (decide_True _ _ E).
  - intros E. by rewrite (decide_True _ _ E).
  - intros E. rewrite (decide_True _ _ E). by rewrite decide_False.
  - intros E. rewrite (decide_True _ _ E). by rewrite decide_False.
  - intros E. rewrite (decide_True _ _ E). by rewrite decide_False.
  - intros Hf Hno. rewrite (Hdef Hf), !Hno. reflexivity.
Qed.

(** X18, witness. *)
Lemma Load_fields_witness :
  ∃ cfg,
    config.Load config.sampleGetenv config.sampleUnmarshal
      (config.FileData "listen_addr: :8080") = inr cfg
    ∧ config.ListenAddr cfg = ":9090"
    ∧ config.Timezone cfg ≠ "".
Proof.
  eexists. split; [vm_compute; reflexivity|].
  match goal with |- config.ListenAddr ?c = _ ∧ _ =>
    destruct (Load_fields config.sampleGetenv config.sampleUnmarshal
                (config.FileData "listen_addr: :8080") c eq_refl)
      as ((_ & _ & _ & _ & Htz) & Hla & _) end.
  split; [|exact Htz]. apply Hla. vm_compute. done.
Defined.

(** X1, witness: the day before [sampleDay] holds one duration, which a sync
    of [sampleDay] leaves in place. *)
Lemma SyncDay_other_days_witness :
  let other := AddDate sampleDay (-1) in
  Format other ≠ Format sampleDay
  ∧ durations_on other (db (SyncDay sampleEnv sampleDay staleWorld).2)
    = [storedDuration other].
Proof.
  intros other.
  assert (Format other ≠ Format sampleDay) as H by (vm_compute; done).
  split; [exact H|].
  destruct (SyncDay_other_days sampleEnv sampleDay other staleWorld H)
    as (E & _).
  rewrite E. vm_compute. reflexivity.
Defined.

(** X2, witness: a first sync of [sampleDay] into a store that holds one
    duration of the day. *)
Lemma SyncDay_replaces_durations_witness :
  durations_on sampleDay (db (SyncDay sampleEnv sampleDay staleWorld).2)
  = stored_durations sampleDay
      [durationData "waka" 100; durationData "blog" 200;
       durationData "" 300; durationData "waka" 400].
Proof.
  apply (SyncDay_replaces_durations sampleEnv sampleDay staleWorld
           {| dr_Data := [durationData "waka" 100; durationData "blog" 200;
                          durationData "" 300; durationData "waka" 400] |}).
  - apply noFaults_ok.
  - reflexivity.
  - reflexivity.
  - vm_compute. lia.
Defined.

(** X3, witness. *)
Lemma SyncDay_project_durations_witness :
  project_durations_on sampleDay
    (db (SyncDay projectsDownEnv sampleDay projectsWorld).2)
  = project_durations_on sampleDay (db projectsWorld)
  ∧ durations_on sampleDay
      (db (SyncDay projectsDownEnv sampleDay projectsWorld).2)
    ≠ durations_on sampleDay (db projectsWorld).
Proof.
  split; [|vm_compute; done].
  apply (SyncDay_project_durations projectsDownEnv sampleDay projectsWorld
           {| dr_Data := [durationData "waka" 100; durationData "blog" 200;
                          durationData "" 300; durationData "waka" 400] |}).
  - apply noFaults_ok.
  - reflexivity.
  - reflexivity.
  - vm_compute. lia.
Defined.

(** X4, witness: three heartbeats, read back through a driver that yields
    time stamps and through one that yields dates. *)
Lemma heartbeats_round_trip_witness :
  let d' := db (SyncDay busyEnv sampleDay emptyWorld).2 in
  let r := GetHeartbeatsByDay stampsReader sampleParse sampleDay d' in
  let r' := GetHeartbeatsByDay datesReader sampleParse sampleDay d' in
  (r.2 = None
   ∧ Sorted by_time r.1
   ∧ (λ h, (hb_Entity h, hb_Time h)) <$> r.1
     = [("a.go", 100); ("c.go", 200); ("b.go", 300)]
   ∧ Forall (λ h, hb_Day h = zeroTime) r.1)
  ∧ r'.1 ≡ₚ stored_heartbeats sampleDay
              [heartbeatData "b.go" 300; heartbeatData "a.go" 100;
               heartbeatData "c.go" 200].
Proof.
  split.
  - destruct (heartbeats_round_trip busyEnv stampsReader sampleParse
                sampleDay emptyWorld
                {| hr_Data := [heartbeatData "b.go" 300;
                               heartbeatData "a.go" 100;
                               heartbeatData "c.go" 200] |})
      as (H1 & _ & H3 & _ & H5).
    + apply noFaults_ok.
    + reflexivity.
    + reflexivity.
    + vm_compute. lia.
    + reflexivity.
    + split; [exact H1|]. split; [exact H3|].
      split; [vm_compute; reflexivity|]. apply H5. reflexivity.
  - refine (proj1 (proj2 (proj2 (proj2
              (heartbeats_round_trip busyEnv datesReader sampleParse
                 sampleDay emptyWorld
                 {| hr_Data := [heartbeatData "b.go" 300;
                                heartbeatData "a.go" 100;
                                heartbeatData "c.go" 200] |} _ _ _ _ _)))) _).
    + apply noFaults_ok.
    + reflexivity.
    + reflexivity.
    + vm_compute. lia.
    + reflexivity.
    + reflexivity.
Defined.

(** X5, witness: the language stats of a day, read back through a driver
    that yields time stamps and through one that yields dates. *)
Lemma summary_round_trip_witness :
  let d' := db (SyncDay sampleEnv sampleDay emptyWorld).2 in
  let r := GetDayStatsByDayAndType stampsReader sampleParse sampleDay
             "language" d' in
  let r' := GetDayStatsByDayAndType datesReader sampleParse sampleDay
              "language" d' in
  day_summaries d' !! Format sampleDay = Some 5000
  ∧ r.2 = None
  ∧ r.1 ≡ₚ [ {| ds_Day := zeroTime; ds_Type := "language"; ds_Name := "Go";
               ds_TotalSeconds := 3000 |};
            {| ds_Day := zeroTime; ds_Type := "language"; ds_Name := "Rocq";
               ds_TotalSeconds := 2000 |} ]
  ∧ r'.1 ≡ₚ [stat sampleDay "language" "Go" 3000;
             stat sampleDay "language" "Rocq" 2000].
Proof.
  assert (∀ T, NoDup (si_Name <$> breakdown sampleSummary T)) as Hnd.
  { intros T. unfold breakdown.
    repeat (destruct (decide _);
            [apply (bool_decide_unpack _); vm_compute; exact I|]).
    constructor. }
  destruct (summary_round_trip sampleEnv stampsReader sampleParse sampleDay
              emptyWorld {| sr_Data := [sampleSummary] |} sampleSummary []
              "language") as (H1 & H2 & _ & _ & H5);
    [apply noFaults_ok|reflexivity|reflexivity|vm_compute; done|exact Hnd
    |done|reflexivity|].
  destruct (summary_round_trip sampleEnv datesReader sampleParse sampleDay
              emptyWorld {| sr_Data := [sampleSummary] |} sampleSummary []
              "language") as (_ & _ & _ & H4 & _);
    [apply noFaults_ok|reflexivity|reflexivity|vm_compute; done|exact Hnd
    |done|reflexivity|].
  split; [exact H1|]. split; [exact H2|]. split.
  - apply H5. reflexivity.
  - apply H4. reflexivity.
Defined.

(** ** Running a range again *)

Section Again.
Context (env : Env) (Hok : store_ok env).

(** What is settled for a day stays so when another day is synced. *)
Lemma settled_day_other day other w :
  Format other ≠ Format day →
  settled_day (remote env) day (db w) →
  settled_day (remote env) day (db (SyncDay env other w).2).
Proof.
  intros Hne (Hs & Hdh & Hlog).
  assert (day_summaries (db (SyncDay env other w).2) !! Format day
          = day_summaries (db w) !! Format day) as E1.
  { apply (keeps_SyncDay_day env (λ d, day_summaries d !! Format day));
      try done.
    intros t d. simpl. by apply lookup_insert_ne. }
  assert (sync_log (db (SyncDay env other w).2) !! Format day
          = sync_log (db w) !! Format day) as E2.
  { apply (keeps_SyncDay_day env (λ d, sync_log d !! Format day)); try done.
    intros l d. simpl. by apply lookup_insert_ne. }
  assert (durations_on day (db (SyncDay env other w).2)
          = durations_on day (db w)) as E3.
  { apply (keeps_SyncDay_day env (durations_on day)); try done.
    - intros d. unfold durations_on. simpl.
      apply (filter_filter_other (λ r, Format (d_Day r))). congruence.
    - intros x d <-. unfold durations_on, put_duration. simpl.
      rewrite filter_app, filter_cons. simpl.
      rewrite Format_Parse, decide_False by done. by rewrite app_nil_r. }
  assert (heartbeats_on day (db (SyncDay env other w).2)
          = heartbeats_on day (db w)) as E4.
  { apply (keeps_SyncDay_day env (heartbeats_on day)); try done.
    - intros d. unfold heartbeats_on. simpl.
      apply (filter_filter_other (λ r, Format (hb_Day r))). congruence.
    - intros x d <-. unfold heartbeats_on, put_heartbeat. simpl.
      rewrite filter_app, filter_cons. simpl.
      rewrite Format_Parse, decide_False by done. by rewrite app_nil_r. }
  unfold settled_day, summary_settled, durations_settled, heartbeats_settled
    in *.
  rewrite E2, E3, E4. split; [|done].
  destruct (summaries _ _ _) as [c|resp]; [done|].
  destruct (sr_Data resp); [done|]. by rewrite E1.
Qed.

Lemma sync_all_settles days w d :
  NoDup (Format <$> days) → d ∈ days →
  settled_day (remote env) d (db (foldl (sync_one env) w days)).
Proof.
  revert w. induction days as [|d0 days IH]; intros w Hnd Hd; simpl.
  { by apply elem_of_nil in Hd. }
  rewrite fmap_cons in Hnd. apply NoDup_cons in Hnd as [Hnotin Hnd].
  destruct (decide (d ∈ days)) as [Hin|Hnin]; [by apply IH|].
  apply elem_of_cons in Hd as [->|Hd]; [|done].
  assert (settled_day (remote env) d0 (db (sync_one env w d0))) as H0.
  { rewrite sync_one_db. apply (SyncDay_settles env Hok d0 w). }
  revert H0. generalize (sync_one env w d0). clear IH Hnd Hnin.
  induction days as [|d1 days IH]; intros w1 H1; simpl; [done|].
  apply IH.
  - intros H. apply Hnotin. rewrite fmap_cons. by right.
  - rewrite sync_one_db. apply settled_day_other; [|done].
    intros E. apply Hnotin. rewrite fmap_cons, E. by left.
Qed.

Lemma sync_all_noop days w :
  (∀ d, d ∈ days → settled_day (remote env) d (db w)) →
  db (foldl (sync_one env) w days) = db w.
Proof.
  revert w. induction days as [|d0 days IH]; intros w H; simpl; [done|].
  assert (db (sync_one env w d0) = db w) as E.
  { rewrite sync_one_db.
    destruct (H d0 ltac:(by left)) as (H1 & H2 & H3).
    by apply SyncDay_noop. }
  rewrite IH; [done|]. intros d Hd. rewrite E. apply H. by right.
Qed.

Lemma logged_app t1 t2 : logged (t1 ++ t2) = logged t2 ++ logged t1.
Proof. unfold logged. by rewrite reverse_app, omap_app. Qed.

Lemma logged_reads t : forallb reads_only t = true → logged t = [].
Proof.
  induction t as [|e t IH]; [done|]. simpl.
  intros [He Ht]%andb_true_iff.
  change (e :: t) with ([e] ++ t). rewrite logged_app, IH by done.
  by destruct e as [|[]| |].
Qed.

Lemma reads_or_logs_reads t :
  forallb reads_only t = true → forallb reads_or_logs t = true.
Proof.
  induction t as [|e t IH]; [done|]. simpl.
  intros [He Ht]%andb_true_iff. rewrite IH by done.
  by destruct e as [|[]| |].
Qed.

(** The summary step on a settled store sends only reads. *)
Lemma syncSummary_reads day w :
  summary_settled (remote env) day (db w) →
  ∃ new, trace (syncSummary env day w).2 = new ++ trace w
         ∧ forallb reads_only new = true.
Proof.
  unfold summary_settled, syncSummary, GetSummaries, GetDaySummary. run.
  destruct (summaries _ _ _) as [c|resp]; simpl; [by eexists [_]|].
  destruct (sr_Data resp) as [|summary rest]; simpl; [by eexists [_; _]|].
  intros Hs. rewrite !Hok. simpl. rewrite decide_True by done. simpl.
  by eexists [_; _; _].
Qed.

Lemma syncDurations_reads day w :
  durations_settled (remote env) day (db w) →
  ∃ new, trace (syncDurations env day w).2 = new ++ trace w
         ∧ forallb reads_only new = true.
Proof.
  unfold durations_settled.
  destruct (durationsOf (remote env) (Format day)) as [c|resp] eqn:Hr.
  - intros _. unfold syncDurations, GetDurations. run. rewrite Hr. simpl.
    by eexists [_].
  - intros Hlen. by apply (syncDurations_skip env day w resp).
Qed.

Lemma syncHeartbeats_reads day w :
  heartbeats_settled (remote env) day (db w) →
  ∃ new, trace (syncHeartbeats env day w).2 = new ++ trace w
         ∧ forallb reads_only new = true.
Proof.
  unfold heartbeats_settled.
  destruct (heartbeatsOf (remote env) (Format day)) as [c|resp] eqn:Hr.
  - intros _. unfold syncHeartbeats, GetHeartbeats. run. rewrite Hr. simpl.
    by eexists [_].
  - intros Hlen. by apply (syncHeartbeats_skip env day w resp).
Qed.

Lemma RecordSync_trace day T status w :
  trace (RecordSync env day T status w).2
  = EvDb (ExecRecordSync (Format day) T status) :: trace w.
Proof. unfold RecordSync. run. by rewrite Hok. Qed.

(** A day that is settled is synced again with reads and one upsert of
    its entry of the sync log, which carries the total and the status
    of the entry. *)
Lemma SyncDay_again day w :
  settled_day (remote env) day (db w) →
  ∃ new, trace (SyncDay env day w).2 = new ++ trace w
         ∧ forallb reads_or_logs new = true
         ∧ logged new
           = [(Format day, audit_entry (summary_outcome (remote env) day))].
Proof.
  intros (Hs & Hdh & Hlog). rewrite SyncDay_unfold. cbv zeta.
  set (w0 := (slog_Info "syncing data" w).2).
  assert (trace w0 = [EvLog LevelInfo "syncing data"] ++ trace w) as E0
    by done.
  assert (db w0 = db w) as D0 by done.
  clearbody w0. rewrite <- D0 in Hs.
  pose proof (syncSummary_outcome env Hok day w0) as Hout.
  pose proof (syncSummary_noop env Hok day w0 Hs) as N1.
  destruct (syncSummary_reads day w0 Hs) as (n1 & E1 & R1).
  destruct (syncSummary env day w0) as [[T [e|]] wa]; simpl in *;
    rewrite <- Hout in *; simpl in *.
  - rewrite RecordSync_trace. simpl. rewrite E1, E0.
    exists (EvDb (ExecRecordSync (Format day) 0 "failed")
            :: EvLog LevelError "failed to sync summary" :: n1
            ++ [EvLog LevelInfo "syncing data"]).
    split; [by rewrite <- !app_comm_cons, <- app_assoc|]. split.
    + simpl. rewrite forallb_app, (reads_or_logs_reads n1) by done. done.
    + change (EvDb ?a :: EvLog ?l ?m :: ?t) with ([EvDb a; EvLog l m] ++ t).
      rewrite !logged_app, (logged_reads n1) by done. done.
  - destruct (Hdh eq_refl) as [Hd Hh].
    assert (durations_settled (remote env) day (db wa)) as Hd'
      by (by rewrite N1, D0).
    pose proof (syncDurations_noop env day wa Hd') as N2.
    destruct (syncDurations_reads day wa Hd') as (n2 & E2 & R2).
    destruct (syncDurations env day wa) as [e1 wb]; simpl in *.
    set (w3 := match e1 with Some _ => _ | None => wb end).
    assert (db w3 = db w) as E3 by (subst w3; destruct e1; simpl; congruence).
    assert (∃ n3, trace w3 = n3 ++ trace wa ∧ forallb reads_only n3 = true)
      as (n3 & E3' & R3).
    { subst w3. destruct e1; simpl.
      - exists (EvLog LevelError "failed to sync durations" :: n2).
        by rewrite E2.
      - by exists n2. }
    assert (heartbeats_settled (remote env) day (db w3)) as Hh'
      by (by rewrite E3).
    destruct (syncHeartbeats_reads day w3 Hh') as (n4 & E4 & R4).
    destruct (syncHeartbeats env day w3) as [e2 wc]; simpl in *.
    set (w5 := match e2 with Some _ => _ | None => wc end).
    assert (∃ n5, trace w5 = n5 ++ trace w3 ∧ forallb reads_only n5 = true)
      as (n5 & E5 & R5).
    { subst w5. destruct e2; simpl.
      - exists (EvLog LevelError "failed to sync heartbeats" :: n4).
        by rewrite E4.
      - by exists n4. }
    rewrite RecordSync_trace, E5, E3', E1, E0.
    exists ([EvLog LevelInfo "sync completed";
             EvDb (ExecRecordSync (Format day) T "success")]
            ++ n5 ++ n3 ++ n1 ++ [EvLog LevelInfo "syncing data"]).
    split; [by rewrite <- !app_assoc|]. split.
    + rewrite !forallb_app, (reads_or_logs_reads n5),
        (reads_or_logs_reads n3), (reads_or_logs_reads n1) by done. done.
    + rewrite !logged_app, (logged_reads n5), (logged_reads n3),
        (logged_reads n1) by done. done.
Qed.

(** The body of the range loop on a settled day. *)
Lemma sync_one_again w d :
  settled_day (remote env) d (db w) →
  db (sync_one env w d) = db w
  ∧ ∃ new, trace (sync_one env w d) = new ++ trace w
           ∧ forallb reads_or_logs new = true
           ∧ logged new
             = [(Format d, audit_entry (summary_outcome (remote env) d))].
Proof.
  intros Hset. split.
  - rewrite sync_one_db. destruct Hset as (H1 & H2 & H3).
    by apply SyncDay_noop.
  - destruct (SyncDay_again d w Hset) as (new & E & R & L).
    unfold sync_one. destruct (SyncDay env d w) as [[e|] w']; simpl in *.
    + exists (EvLog LevelError "failed to sync day" :: new).
      rewrite E. split; [done|]. split; [done|].
      change (?e :: new) with ([e] ++ new). by rewrite logged_app, L.
    + by exists new.
Qed.

Lemma sync_all_again days w :
  (∀ d, d ∈ days → settled_day (remote env) d (db w)) →
  ∃ new, trace (foldl (sync_one env) w days) = new ++ trace w
         ∧ forallb reads_or_logs new = true
         ∧ logged new
           = (λ d, (Format d, audit_entry (summary_outcome (remote env) d)))
               <$> days.
Proof.
  revert w. induction days as [|d0 days IH]; intros w H; simpl.
  { by exists []. }
  destruct (sync_one_again w d0 (H d0 ltac:(by left)))
    as (Edb & n0 & E0 & R0 & L0).
  destruct (IH (sync_one env w d0)) as (n & E & R & L).
  { intros d Hd. rewrite Edb. apply H. by right. }
  exists (n ++ n0). rewrite E, E0.
  split; [by rewrite app_assoc|]. split.
  - by rewrite forallb_app, R, R0.
  - by rewrite logged_app, L0, L.
Qed.

End Again.

(** X19.  With no failing statement and the same answers of the service,
    running [SyncDateRange] over a range a second time rewrites no table
    and no day summary: it sends only reads and, for each day of the
    range, in order, one upsert of the day's entry of the sync log, with
    the total and the status that the entry holds.  (In the source that
    upsert also sets [synced_at] to the time of the second run; the rows
    of the model do not hold that column.) *)
Theorem SyncDateRange_idempotent env start end_ w :
  store_ok env →
  let w1 := (SyncDateRange env start end_ w).2 in
  let w2 := (SyncDateRange env start end_ w1).2 in
  db w2 = db w1
  ∧ ∃ new,
      trace w2 = new ++ trace w1
      ∧ forallb reads_or_logs new = true
      ∧ logged new
        = (λ d, (Format d, audit_entry (summary_outcome (remote env) d)))
            <$> days_of_range start end_
      ∧ Forall (λ e, sync_log (db w1) !! e.1 = Some e.2) (logged new).
Proof.
  intros Hok. cbv zeta.
  assert (∀ w0, (SyncDateRange env start end_ w0).2
                = foldl (sync_one env) w0 (days_of_range start end_)) as E.
  { intros w0. unfold SyncDateRange. run. by rewrite sync_loop_fold. }
  rewrite !E.
  assert (∀ d, d ∈ days_of_range start end_ →
               settled_day (remote env) d
                 (db (foldl (sync_one env) w (days_of_range start end_))))
    as Hset.
  { intros d Hd. apply sync_all_settles; [done| |done].
    apply days_of_range_NoDup. }
  split; [by apply sync_all_noop|].
  destruct (sync_all_again env Hok (days_of_range start end_) _ Hset)
    as (new & Et & R & L).
  exists new. split; [done|]. split; [done|]. split; [done|].
  rewrite L. apply Forall_fmap, Forall_forall. intros d Hd. simpl.
  by destruct (Hset d Hd) as (_ & _ & Hlog).
Qed.

(** X19, witness: three days, synced twice. *)
Lemma SyncDateRange_idempotent_witness :
  let w1 := (SyncDateRange sampleEnv sampleDay (AddDate sampleDay 2)
               emptyWorld).2 in
  let w2 := (SyncDateRange sampleEnv sampleDay (AddDate sampleDay 2) w1).2 in
  db w2 = db w1
  ∧ ∃ new,
      trace w2 = new ++ trace w1
      ∧ forallb reads_or_logs new = true
      ∧ logged new
        = (λ d, (Format d,
                 audit_entry (summary_outcome (remote sampleEnv) d)))
            <$> days_of_range sampleDay (AddDate sampleDay 2)
      ∧ Forall (λ e, sync_log (db w1) !! e.1 = Some e.2) (logged new).
Proof.
  apply (SyncDateRange_idempotent sampleEnv sampleDay (AddDate sampleDay 2)
           emptyWorld).
  apply noFaults_ok.
Defined.
